(** * pr-round-table: the review loop, its tools and their guards

    A shallow embedding of the Python sources

      - [src/tools/file_tools.py]       (class [FileTools], agno toolkit)
      - [src/tools/git_tools.py]        (class [GitTools], agno toolkit)
      - [src/langgraph_impl/config.py]  ([get_model])
      - [src/langgraph_impl/tools.py]   ([create_tools] and its seven closures)
      - [src/langgraph_impl/graph.py]   ([build_graph]: judge / tools loop)
      - [src/langgraph_impl/main.py]    ([stream_response] and [main])
      - [src/config.py]                 ([get_model], agno)

    and of what the two libraries in between do with the values the
    program hands them: langchain's [BaseTool.invoke] and
    [ToolMessage], and the loop of a compiled langgraph graph with
    its step budget.

    Conventions.

    - A Python [str] is a Rocq [string]; a character stands for its code
      point, so the code points below 256 are the ones the model can
      inspect.  Text that is only passed along (file contents, model
      output, git output) is opaque to the program and to the model.
    - Everything the program asks of its surroundings (filesystem, git
      subprocess, process environment, chat model) is answered by a
      [World], a record of oracles that stays the same while a
      computation runs; every such request is appended to a trace of
      [Op]s so that "what was touched" can be stated.
    - Python exceptions are values: a computation is an [M A], which
      returns [Return a] or [Raise e] together with the extended trace.
      Only instances of [Exception] are modelled (the ones that
      [except Exception] catches). *)

From Stdlib Require Import Ascii String.
From stdpp Require Import base gmap list strings pretty.

Local Open Scope Z_scope.
Set Warnings "-register-all".

(** ** Python strings *)

Module Py.

Definition char_code (c : ascii) : Z := Z.of_nat (nat_of_ascii c).

Definition squote : ascii := ascii_of_nat 39.
Definition dquote : ascii := ascii_of_nat 34.
Definition backslash : ascii := ascii_of_nat 92.

(** [str.isspace] on one character (code points below 256). *)
Definition isspace (c : ascii) : bool :=
  let n := char_code c in
  ((9 <=? n) && (n <=? 13)) || ((28 <=? n) && (n <=? 32))
  || (n =? 133) || (n =? 160).

Fixpoint lstrip (s : string) : string :=
  match s with
  | EmptyString => EmptyString
  | String c s' => if isspace c then lstrip s' else s
  end.

(** [rstrip] keeps a character when something that is not a space
    follows it (or it is not a space itself). *)
Fixpoint rstrip (s : string) : string :=
  match s with
  | EmptyString => EmptyString
  | String c s' =>
      match rstrip s' with
      | EmptyString => if isspace c then EmptyString else String c EmptyString
      | r => String c r
      end
  end.

(** [s.strip()] *)
Definition strip (s : string) : string := rstrip (lstrip s).

(** Truth value of a [str]: the empty string is false. *)
Definition truthy (s : string) : bool :=
  match s with EmptyString => false | _ => true end.

(** [s.startswith(p)] *)
Definition startswith (s p : string) : bool := String.prefix p s.

Definition endswith (s p : string) : bool :=
  String.prefix (String.rev p) (String.rev s).

Fixpoint contains_char (c : ascii) (s : string) : bool :=
  match s with
  | EmptyString => false
  | String d s' => bool_decide (c = d) || contains_char c s'
  end.

Definition hex_digit (n : Z) : ascii :=
  if n <? 10 then ascii_of_nat (Z.to_nat (48 + n))
  else ascii_of_nat (Z.to_nat (87 + n)).

(** [str.isprintable] on one character (code points below 256). *)
Definition isprintable (c : ascii) : bool :=
  let n := char_code c in
  ((32 <=? n) && (n <? 127)) || ((161 <=? n) && negb (n =? 173)).

Definition repr_char (q c : ascii) : string :=
  let n := char_code c in
  if bool_decide (c = q) || bool_decide (c = backslash)
  then String backslash (String c EmptyString)
  else if n =? 9 then String backslash "t"
  else if n =? 10 then String backslash "n"
  else if n =? 13 then String backslash "r"
  else if isprintable c then String c EmptyString
  else String backslash
         (String "x" (String (hex_digit (n / 16))
                        (String (hex_digit (n mod 16)) EmptyString))).

Fixpoint repr_body (q : ascii) (s : string) : string :=
  match s with
  | EmptyString => EmptyString
  | String c s' => repr_char q c +:+ repr_body q s'
  end.

(** [repr(s)] of a [str]: single quotes unless the text has a single
    quote and no double quote. *)
Definition repr (s : string) : string :=
  let q := if contains_char squote s && negb (contains_char dquote s)
           then dquote else squote in
  String q (repr_body q s +:+ String q EmptyString).

(** [str.lower] on code points below 256. *)
Definition lower_char (c : ascii) : ascii :=
  let n := char_code c in
  if ((65 <=? n) && (n <=? 90))
     || ((192 <=? n) && (n <=? 222) && negb (n =? 215))
  then ascii_of_nat (Z.to_nat (n + 32)) else c.

Fixpoint lower (s : string) : string :=
  match s with
  | EmptyString => EmptyString
  | String c s' => String (lower_char c) (lower s')
  end.

(** [sep.join(parts)] *)
Fixpoint join (sep : string) (parts : list string) : string :=
  match parts with
  | [] => EmptyString
  | [p] => p
  | p :: rest => p +:+ sep +:+ join sep rest
  end.

(** [s.split(sep)] for a one-character separator. *)
Fixpoint split (sep : ascii) (s : string) : list string :=
  match s with
  | EmptyString => [EmptyString]
  | String c s' =>
      if bool_decide (c = sep) then EmptyString :: split sep s'
      else match split sep s' with
           | [] => [String c EmptyString]
           | w :: ws => String c w :: ws
           end
  end.

End Py.

(** ** [os.path] (posixpath) *)

Module OsPath.

Definition sep : string := "/".

(** [os.path.join(a, b)] *)
Definition join (a b : string) : string :=
  if Py.startswith b sep then b
  else if negb (Py.truthy a) || Py.endswith a sep then a +:+ b
  else a +:+ sep +:+ b.

Fixpoint common_prefix_len (l1 l2 : list string) : nat :=
  match l1, l2 with
  | x :: l1', y :: l2' =>
      if bool_decide (x = y) then S (common_prefix_len l1' l2') else O
  | _, _ => O
  end.

Definition components (p : string) : list string :=
  filter (λ x, x ≠ EmptyString) (Py.split "/" p).

(** [os.path.relpath(path, start)] for absolute, normalised arguments
    (the only ones [find_file] produces: [start] is a [realpath] and
    [path] extends it by directory entry names). *)
Definition relpath (path start : string) : string :=
  let start_list := components start in
  let path_list := components path in
  let i := common_prefix_len start_list path_list in
  let rel_list :=
    (replicate (length start_list - i) ".." ++ drop i path_list)%list in
  match rel_list with
  | [] => "."
  | _ => Py.join "/" rel_list
  end.

End OsPath.

(** ** Values that travel through the loop *)

(** The classes of [Exception] that occur in the program and its
    libraries. *)
Inductive exc_class :=
| KeyError | IndexError | AttributeError | ValueError
| ValidationError | OSError | UnicodeDecodeError | ProviderError
| GraphRecursionError.

(** An exception instance: its class and the text [str(e)] yields. *)
Record exception := Exc { exc_cls : exc_class; exc_str : string }.

Inductive outcome (A : Type) :=
| Return (a : A)
| Raise (e : exception).
Arguments Return {A} a.
Arguments Raise {A} e.

Definition outcome_map {A B} (f : A → B) (o : outcome A) : outcome B :=
  match o with
  | Return a => Return (f a)
  | Raise e => Raise e
  end.

(** JSON values, the arguments of a tool call. *)
Inductive json :=
| JNull
| JBool (b : bool)
| JNum (n : Z)
| JStr (s : string)
| JArr (items : list json)
| JObj (fields : gmap string json).

(** One entry of [AIMessage.tool_calls]: langchain's [ToolCall], whose
    [id] is an [Optional[str]]. *)
Record ToolCall := {
  tc_name : string;
  tc_args : gmap string json;
  tc_id : option string;
}.

(** langchain_core.messages *)
Inductive Message :=
| SystemMessage (content : string)
| HumanMessage (content : string)
| AIMessage (content : string) (tool_calls : list ToolCall)
| ToolMessage (content : string) (name : string) (tool_call_id : string).

Inductive ChatClass := ChatAnthropic | ChatOpenAI.

(** A chat model as [get_model] constructs it. *)
Record ChatModel := {
  cm_class : ChatClass;
  cm_model : string;
  cm_base_url : option string;
  cm_api_key : option string;
  cm_max_tokens : Z;
}.

(** What [subprocess.run(..., capture_output=True, text=True, check=True)]
    hands to the code around it: a [CompletedProcess], or the
    [CalledProcessError] that [check=True] raises on a non-zero exit.
    Any other failure (git missing, undecodable output) is a [Raise]. *)
Inductive RunResult :=
| CompletedProcess (stdout stderr : string)
| CalledProcessError (returncode : Z) (stdout stderr : string).

(** A directory as [os.walk] sees it: the names of its non-directory
    entries, and the names of its directory entries, each with the
    subtree [os.walk] would descend into ([None] for a symbolic link
    and for a directory that cannot be listed: both are named in
    [dirnames] and yield nothing). *)
Inductive DirTree :=
| Dir (filenames : list string) (subdirs : list (string * option DirTree)).

(** ** Requests to the surroundings *)

Inductive Op :=
| OpLog (text : string)                          (* logger.info *)
| OpRealpath (path : string)                     (* os.path.realpath *)
| OpIsFile (path : string)                       (* os.path.isfile *)
| OpGetSize (path : string)                      (* os.path.getsize *)
| OpOpenRead (path : string)
    (* open(path, "r", encoding="utf-8", errors="replace").read() *)
| OpWalk (top : string)                          (* os.walk *)
| OpSubprocess (argv : list string) (cwd : string)
| OpModelInvoke (model : ChatModel) (bound_tools : list string)
                (messages : list Message).

Record World := {
  (** [os.path.realpath]: the canonical path (symbolic links and
      [..] resolved). *)
  fs_realpath : string → outcome string;
  fs_isfile : string → bool;
  fs_getsize : string → outcome Z;
  (** [open(p, "r", encoding="utf-8", errors="replace").read()]: the
      bytes of the file decoded as UTF-8 in text mode, every invalid
      sequence replaced by U+FFFD. *)
  fs_read_text : string → outcome string;
  (** The tree below a directory ([None]: it cannot be listed). *)
  fs_tree : string → outcome (option DirTree);
  (** [os.environ] *)
  environ : gmap string string;
  (** The child process run with [argv] in directory [cwd]. *)
  proc_run : list string → string → outcome RunResult;
  (** The provider's answer to [model.invoke(messages)], with the named
      tools bound: the text and the requested tool calls. *)
  llm_invoke : ChatModel → list string → list Message →
               outcome (string * list ToolCall);
  (** The text of the error pydantic raises when a value does not fit
      the schema of that name (the arguments schema of a tool, or
      [ToolMessage]). *)
  validation_text : string → json → string;
  (** [str(m)] for the [ToolMessage] [m] that [BaseTool.run] builds
      around what a tool returned when it was invoked with a whole
      tool call: from the name of the tool, the [id] that came with
      the call and the text returned; the [ValidationError] of
      [ToolMessage] when it refuses that id. *)
  tool_message_text : string → json → string → outcome string;
  (** The text of the [GraphRecursionError] langgraph raises when the
      step budget of a run is used up. *)
  recursion_text : string;
}.

(** ** Computations *)

Definition M (A : Type) : Type := World → list Op → outcome A * list Op.

Definition ret {A} (a : A) : M A := λ _ tr, (Return a, tr).

Definition raise {A} (e : exception) : M A := λ _ tr, (Raise e, tr).

Definition bind {A B} (m : M A) (k : A → M B) : M B :=
  λ w tr,
    match m w tr with
    | (Return a, tr') => k a w tr'
    | (Raise e, tr') => (Raise e, tr')
    end.

(** [try: body  except Exception as e: handler(e)] *)
Definition try_except {A} (body : M A) (handler : exception → M A) : M A :=
  λ w tr,
    match body w tr with
    | (Return a, tr') => (Return a, tr')
    | (Raise e, tr') => handler e w tr'
    end.

(** One request: log it, answer from the world. *)
Definition request {A} (op : Op) (answer : World → outcome A) : M A :=
  λ w tr, (answer w, (tr ++ [op])%list).

Declare Scope py_scope.
Delimit Scope py_scope with py.
Notation "x <- m ;; k" := (bind m (λ x, k))
  (at level 100, m at next level, right associativity) : py_scope.
Notation "m ;;; k" := (bind m (λ _, k))
  (at level 100, right associativity) : py_scope.
Local Open Scope py_scope.

(** [for x in xs: ys.append(f(x))] *)
Fixpoint for_each {A B} (f : A → M B) (xs : list A) : M (list B) :=
  match xs with
  | [] => ret []
  | x :: xs' => y <- f x ;; ys <- for_each f xs' ;; ret (y :: ys)
  end.

(** Run a computation from an empty trace. *)
Definition run {A} (w : World) (m : M A) : outcome A * list Op := m w [].
Definition result {A} (w : World) (m : M A) : outcome A := fst (run w m).
Definition trace {A} (w : World) (m : M A) : list Op := snd (run w m).

Definition logger_info (text : string) : M unit :=
  request (OpLog text) (λ _, Return tt).
Definition os_path_realpath (p : string) : M string :=
  request (OpRealpath p) (λ w, fs_realpath w p).
Definition os_path_isfile (p : string) : M bool :=
  request (OpIsFile p) (λ w, Return (fs_isfile w p)).
Definition os_path_getsize (p : string) : M Z :=
  request (OpGetSize p) (λ w, fs_getsize w p).
Definition open_read (p : string) : M string :=
  request (OpOpenRead p) (λ w, fs_read_text w p).
Definition os_walk_tree (top : string) : M (option DirTree) :=
  request (OpWalk top) (λ w, fs_tree w top).
Definition subprocess_run (argv : list string) (cwd : string) : M RunResult :=
  request (OpSubprocess argv cwd) (λ w, proc_run w argv cwd).
Definition model_invoke (m : ChatModel) (bound : list string)
    (messages : list Message) : M (string * list ToolCall) :=
  request (OpModelInvoke m bound messages) (λ w, llm_invoke w m bound messages).

(** What langgraph raises when the step budget of a run is used up. *)
Definition graph_recursion_error {A} : M A :=
  λ w tr, (Raise (Exc GraphRecursionError (recursion_text w)), tr).

(** [os.getenv(name)] used as a condition: unset and empty are false. *)
Definition getenv (name : string) : M (option string) :=
  λ w tr, (Return (environ w !! name), tr).
Definition opt_truthy (o : option string) : bool :=
  match o with Some s => Py.truthy s | None => false end.
(** [a or b] on an optional string. *)
Definition opt_or (o : option string) (d : string) : string :=
  match o with Some s => if Py.truthy s then s else d | None => d end.

(** ** [src/langgraph_impl/config.py] *)

Module Config.

Definition DEFAULT_MODELS (provider : string) : string :=
  if bool_decide (provider = "anthropic") then "claude-sonnet-4-20250514"
  else if bool_decide (provider = "openai") then "gpt-4o"
  else "anthropic/claude-sonnet-4".

Definition MAX_TOKENS : Z := 16384.

Definition anthropic_model (model_id : option string) : ChatModel :=
  {| cm_class := ChatAnthropic;
     cm_model := opt_or model_id (DEFAULT_MODELS "anthropic");
     cm_base_url := None; cm_api_key := None;
     cm_max_tokens := MAX_TOKENS |}.

Definition openai_model (model_id : option string) : ChatModel :=
  {| cm_class := ChatOpenAI;
     cm_model := opt_or model_id (DEFAULT_MODELS "openai");
     cm_base_url := None; cm_api_key := None;
     cm_max_tokens := MAX_TOKENS |}.

Definition openrouter_model (model_id : option string)
    (key : option string) : ChatModel :=
  {| cm_class := ChatOpenAI;
     cm_model := opt_or model_id (DEFAULT_MODELS "openrouter");
     cm_base_url := Some "https://openrouter.ai/api/v1";
     cm_api_key := key;
     cm_max_tokens := MAX_TOKENS |}.

Definition newline : string := String (ascii_of_nat 10) EmptyString.

Definition no_key_text : string :=
  "No API key found. Set one of:" +:+ newline +:+
  "  - ANTHROPIC_API_KEY" +:+ newline +:+
  "  - OPENAI_API_KEY" +:+ newline +:+
  "  - OPENROUTER_API_KEY".

(** [_get_model_for_provider] *)
Definition _get_model_for_provider (provider : string)
    (model_id : option string) : M ChatModel :=
  let provider := Py.lower provider in
  if bool_decide (provider = "anthropic") then
    k <- getenv "ANTHROPIC_API_KEY" ;;
    if negb (opt_truthy k)
    then raise (Exc ValueError "ANTHROPIC_API_KEY not set")
    else ret (anthropic_model model_id)
  else if bool_decide (provider = "openai") then
    k <- getenv "OPENAI_API_KEY" ;;
    if negb (opt_truthy k)
    then raise (Exc ValueError "OPENAI_API_KEY not set")
    else ret (openai_model model_id)
  else if bool_decide (provider = "openrouter") then
    k <- getenv "OPENROUTER_API_KEY" ;;
    if negb (opt_truthy k)
    then raise (Exc ValueError "OPENROUTER_API_KEY not set")
    else ret (openrouter_model model_id k)
  else
    raise (Exc ValueError
             ("Unknown provider: " +:+ provider +:+
              ". Use 'anthropic', 'openai', or 'openrouter'")).

(** [get_model] *)
Definition get_model (provider model_id : option string) : M ChatModel :=
  if opt_truthy provider then
    _get_model_for_provider (default EmptyString provider) model_id
  else
    a <- getenv "ANTHROPIC_API_KEY" ;;
    if opt_truthy a then ret (anthropic_model model_id)
    else
      o <- getenv "OPENAI_API_KEY" ;;
      if opt_truthy o then ret (openai_model model_id)
      else
        r <- getenv "OPENROUTER_API_KEY" ;;
        if opt_truthy r then ret (openrouter_model model_id r)
        else raise (Exc ValueError no_key_text).

End Config.

(** ** Constants shared by both file toolkits *)

Definition MAX_FILE_SIZE : Z := 50 * 1024.

Definition SKIP_DIRS : gset string :=
  {[ ".git"; "node_modules"; "__pycache__"; ".build"; ".venv"; "venv";
     ".tox"; "Pods"; "DerivedData" ]}.

(** [os.walk(top)] as the [for] loop of [find_file] drives it: the
    loop body replaces [dirnames] in place by the names that [keep]
    accepts, and the generator, which shares that list, descends only
    into those.  The result lists what each iteration is handed:
    [(dirpath, dirnames, filenames)], top-down. *)
Fixpoint os_walk (keep : string → bool) (top : string) (t : DirTree)
    : list (string * list string * list string) :=
  match t with
  | Dir filenames subdirs =>
      (top, subdirs.*1, filenames) ::
      (fix descend (l : list (string * option DirTree)) :=
         match l with
         | [] => []
         | (d, sub) :: l' =>
             ((if keep d then
                 match sub with
                 | Some t' => os_walk keep (OsPath.join top d) t'
                 | None => []
                 end
               else []) ++ descend l')%list
         end) subdirs
  end.

(** ** [src/tools/file_tools.py] *)

Module FileTools.

Record t := { repo_path : string }.

(** [__init__] *)
Definition init (repo_path : string) : M t :=
  real <- os_path_realpath repo_path ;;
  ret {| repo_path := real |}.

Definition read_file (self : t) (file_path : string) : M string :=
  logger_info ("Reading file: " +:+ file_path) ;;;
  try_except
    (resolved <- os_path_realpath (OsPath.join (repo_path self) file_path) ;;
     if negb (Py.startswith resolved (repo_path self +:+ OsPath.sep))
        && negb (bool_decide (resolved = repo_path self))
     then ret ("Error: path '" +:+ file_path +:+ "' is outside the repository.")
     else
       isf <- os_path_isfile resolved ;;
       if negb isf
       then ret ("Error: file '" +:+ file_path +:+ "' not found.")
       else
         size <- os_path_getsize resolved ;;
         if size >? MAX_FILE_SIZE
         then ret ("Error: file '" +:+ file_path +:+ "' is too large (" +:+
                   pretty size +:+ " bytes, max " +:+ pretty MAX_FILE_SIZE +:+
                   ").")
         else open_read resolved)
    (λ e, ret ("Error reading file: " +:+ exc_str e)).

(** The test of the pruning comprehension:
    [d not in SKIP_DIRS and not d.startswith(".")]. *)
Definition kept (d : string) : bool :=
  bool_decide (d ∉ SKIP_DIRS) && negb (Py.startswith d ".").

(** The [for] loop of [find_file]: the matches, in walk order. *)
Definition find_matches (root filename : string) : M (list string) :=
  top <- os_walk_tree root ;;
  let visited :=
    match top with
    | Some tree => os_walk kept root tree
    | None => []
    end in
  ret (flat_map (λ '(dirpath, _, filenames),
                   if bool_decide (filename ∈ filenames)
                   then [OsPath.relpath (OsPath.join dirpath filename) root]
                   else []) visited).

Definition find_file (self : t) (filename : string) : M string :=
  logger_info ("Searching for file: " +:+ filename) ;;;
  found <- try_except
             (matches <- find_matches (repo_path self) filename ;;
              ret (inr matches))
             (λ e, ret (inl ("Error searching for file: " +:+ exc_str e))) ;;
  match found with
  | inl early => ret early
  | inr matches =>
      if bool_decide (matches = [])
      then ret ("No files named '" +:+ filename +:+
                "' found in the repository.")
      else ret (Py.join Config.newline matches)
  end.

End FileTools.

(** ** [src/tools/git_tools.py] *)

Module GitTools.

Record t := { repo_path : string }.

(** [__init__]: the path is kept as given. *)
Definition init (repo_path : string) : t := {| repo_path := repo_path |}.

Definition get_diff (self : t) (source_branch target_branch : string)
    : M string :=
  logger_info ("Getting diff: " +:+ target_branch +:+ "..." +:+
               source_branch) ;;;
  r <- subprocess_run
         ["git"; "diff"; target_branch +:+ "..." +:+ source_branch]
         (repo_path self) ;;
  match r with
  | CompletedProcess stdout _ =>
      if negb (Py.truthy (Py.strip stdout))
      then ret "No differences found between branches."
      else ret stdout
  | CalledProcessError _ _ stderr => ret ("Error getting diff: " +:+ stderr)
  end.

Definition get_branches (self : t) : M string :=
  r <- subprocess_run
         ["git"; "branch"; "-a"; "--format=%(refname:short)"]
         (repo_path self) ;;
  match r with
  | CompletedProcess stdout _ => ret stdout
  | CalledProcessError _ _ stderr =>
      ret ("Error listing branches: " +:+ stderr)
  end.

Definition get_changed_files (self : t)
    (source_branch target_branch : string) : M string :=
  r <- subprocess_run
         ["git"; "diff"; "--name-only";
          target_branch +:+ "..." +:+ source_branch]
         (repo_path self) ;;
  match r with
  | CompletedProcess stdout _ =>
      ret (if Py.truthy stdout then stdout else "No files changed.")
  | CalledProcessError _ _ stderr =>
      ret ("Error getting changed files: " +:+ stderr)
  end.

End GitTools.

(** ** [src/langgraph_impl/prompts.py] *)

Module Prompts.

(** Every line followed by a newline. *)
Definition unlines (ls : list string) : string :=
  foldr (λ l acc, l +:+ Config.newline +:+ acc) EmptyString ls.

Definition JUDGE_SYSTEM_PROMPT : string :=
  unlines
    [
     "You are the Judge agent leading a code review team. The codebase is in Swift, the architecture is VIP, with an ongoing migration to MVVM.";
     EmptyString;
     "Point out the opportunities for refactoring, bad practices and propose very concise ideas for refactoring.";
     EmptyString;
     "Your role is to:";
     "1. Use the git tools to fetch the diff between branches";
     "2. Delegate the review to BOTH reviewers by calling the quality_review and security_review tools with the full diff and context";
     "3. Collect their findings and synthesize a final verdict";
     EmptyString;
     "When producing the final review, you must:";
     "- Consolidate findings from both reviewers";
     "- Resolve any conflicting recommendations";
     "- Prioritize issues by severity (Critical > High > Medium > Low)";
     "- Remove duplicate issues";
     "- Provide a detailed summary of the changes needed";
     "- Give references to specific files and lines of code, giving surrounding context without exceeding 20 lines";
     EmptyString;
     "Output format (markdown):";
     EmptyString;
     "## Executive Summary";
     "[Detailed overview of the most critical changes, their filepath and the block of code (not exceeding 20 lines) that is triggering the issue]";
     EmptyString;
     "## Critical Issues";
     "[Issues that must be fixed before merge]";
     EmptyString;
     "## High Priority";
     "[Important issues to address]";
     EmptyString;
     "## Medium Priority";
     "[Improvements to consider]";
     EmptyString;
     "## Final Verdict";
     "[APPROVE / REQUEST CHANGES / NEEDS DISCUSSION]"
    ].

Definition QUALITY_REVIEWER_SYSTEM_PROMPT : string :=
  unlines
    [
     "You are an expert code reviewer focused on code quality.";
     "The codebase is in Swift, the architecture is VIP, with an ongoing migration to MVVM.";
     EmptyString;
     "Analyze the diff and provide feedback on:";
     "- Code readability and clarity";
     "- Naming conventions (variables, functions, classes)";
     "- Code duplication (DRY principle violations)";
     "- Function/method complexity";
     "- Documentation and comments quality";
     "- Design patterns and architecture";
     "- Error handling practices";
     EmptyString;
     "Format your review as markdown with clear sections.";
     "Rate each issue as: Critical, High, Medium, or Low severity.";
     "Provide specific line references and suggested fixes."
    ].

Definition SECURITY_REVIEWER_SYSTEM_PROMPT : string :=
  unlines
    [
     "You are an expert security and performance reviewer.";
     "The codebase is in Swift, the architecture is VIP, with an ongoing migration to MVVM.";
     EmptyString;
     "Analyze the diff and provide feedback on:";
     "- Security vulnerabilities (OWASP Top 10)";
     "- SQL injection, XSS, CSRF risks";
     "- Authentication/authorization issues";
     "- Sensitive data exposure";
     "- Input validation gaps";
     "- Performance bottlenecks";
     "- Memory management issues";
     "- Race conditions and concurrency problems";
     "- Resource leaks";
     EmptyString;
     "Format your review as markdown with clear sections.";
     "Rate each issue as: Critical, High, Medium, or Low severity.";
     "Provide specific line references and remediation steps."
    ].

End Prompts.

(** ** [src/langgraph_impl/tools.py] *)

(** A [@tool] function: its name, the names of its parameters (all of
    type [str], all required) and its body. *)
Inductive ToolBody :=
| Tool0 (f : M string)
| Tool1 (p1 : string) (f : string → M string)
| Tool2 (p1 p2 : string) (f : string → string → M string).

Record Tool := { tool_name : string; tool_body : ToolBody }.

(** A [str] field of the arguments schema: present and a string. *)
Definition str_field (args : gmap string json) (p : string) : option string :=
  match args !! p with
  | Some (JStr s) => Some s
  | _ => None
  end.

(** The same of any value: only a dict has fields. *)
Definition str_arg (tool_input : json) (p : string) : option string :=
  match tool_input with
  | JObj args => str_field args p
  | _ => None
  end.

Definition validation_error {A} (name : string) (value : json) : M A :=
  λ w tr, (Raise (Exc ValidationError (validation_text w name value)), tr).

(** What follows is langchain's [BaseTool.invoke], which [tool_node]
    calls with the arguments of a request. *)

(** [_is_tool_call(input)]: a dict whose ["type"] is ["tool_call"] is
    taken for a whole tool call, not for the arguments of one. *)
Definition is_tool_call (input : gmap string json) : bool :=
  match input !! "type" with
  | Some (JStr kind) => bool_decide (kind = "tool_call")
  | _ => false
  end.

(** [d[key]] *)
Definition item (d : gmap string json) (key : string) : M json :=
  match d !! key with
  | Some v => ret v
  | None => raise (Exc KeyError (Py.repr key))
  end.

(** [value.copy()]: dicts and lists have the method. *)
Definition copy (value : json) : M json :=
  let no_copy (type : string) : M json :=
    raise (Exc AttributeError
             ("'" +:+ type +:+ "' object has no attribute 'copy'")) in
  match value with
  | JObj _ | JArr _ => ret value
  | JNull => no_copy "NoneType"
  | JBool _ => no_copy "bool"
  | JNum _ => no_copy "int"
  | JStr _ => no_copy "str"
  end.

(** [_prep_run_args]: the input the tool is run on and the id its
    answer is to carry ([None] unless a whole tool call came in). *)
Definition prep_run_args (input : gmap string json) : M (json * json) :=
  if is_tool_call input then
    tool_call_id <- item input "id" ;;
    args <- item input "args" ;;
    tool_input <- copy args ;;
    ret (tool_input, tool_call_id)
  else ret (JObj input, JNull).

(** [BaseTool.run] up to the call of the function: a tool without
    parameters is called as it is, the input of any other is
    validated against its schema first. *)
Definition run_tool (t : Tool) (tool_input : json) : M string :=
  match tool_body t with
  | Tool0 f => f
  | Tool1 p1 f =>
      match str_arg tool_input p1 with
      | Some a => f a
      | None => validation_error (tool_name t) tool_input
      end
  | Tool2 p1 p2 f =>
      match str_arg tool_input p1, str_arg tool_input p2 with
      | Some a, Some b => f a b
      | _, _ => validation_error (tool_name t) tool_input
      end
  end.

(** [_format_output], and the [str()] that [tool_node] applies to the
    result: without an id the text a tool returned is the result; with
    one it is wrapped in a [ToolMessage]. *)
Definition format_output (name : string) (tool_call_id : json)
    (content : string) : M string :=
  match tool_call_id with
  | JNull => ret content
  | _ => λ w tr, (tool_message_text w name tool_call_id content, tr)
  end.

(** [str(tool.invoke(input))]: whatever the preparation, the
    validation, the body or the wrapping raises is raised. *)
Definition invoke (t : Tool) (input : gmap string json) : M string :=
  prepared <- prep_run_args input ;;
  content <- run_tool t (fst prepared) ;;
  format_output (tool_name t) (snd prepared) content.

Module LangGraphTools.

Section Closures.
(** What the closures of [create_tools] capture. *)
Variable real_repo_path : string.
Variables provider model_id : option string.

Definition get_diff (source_branch target_branch : string) : M string :=
  r <- subprocess_run
         ["git"; "diff"; target_branch +:+ "..." +:+ source_branch]
         real_repo_path ;;
  match r with
  | CompletedProcess stdout _ =>
      if negb (Py.truthy (Py.strip stdout))
      then ret "No differences found between branches."
      else ret stdout
  | CalledProcessError _ _ stderr =>
      ret ("Error getting diff: " +:+ stderr)
  end.

Definition get_changed_files (source_branch target_branch : string)
    : M string :=
  r <- subprocess_run
         ["git"; "diff"; "--name-only";
          target_branch +:+ "..." +:+ source_branch]
         real_repo_path ;;
  match r with
  | CompletedProcess stdout _ =>
      ret (if Py.truthy stdout then stdout else "No files changed.")
  | CalledProcessError _ _ stderr =>
      ret ("Error getting changed files: " +:+ stderr)
  end.

Definition get_branches : M string :=
  r <- subprocess_run
         ["git"; "branch"; "-a"; "--format=%(refname:short)"]
         real_repo_path ;;
  match r with
  | CompletedProcess stdout _ => ret stdout
  | CalledProcessError _ _ stderr =>
      ret ("Error listing branches: " +:+ stderr)
  end.

Definition read_file (file_path : string) : M string :=
  try_except
    (resolved <- os_path_realpath (OsPath.join real_repo_path file_path) ;;
     if negb (Py.startswith resolved (real_repo_path +:+ OsPath.sep))
        && negb (bool_decide (resolved = real_repo_path))
     then ret ("Error: path '" +:+ file_path +:+
               "' is outside the repository.")
     else
       isf <- os_path_isfile resolved ;;
       if negb isf
       then ret ("Error: file '" +:+ file_path +:+ "' not found.")
       else
         size <- os_path_getsize resolved ;;
         if size >? MAX_FILE_SIZE
         then ret (("Error: file '" +:+ file_path +:+ "' is too large ")
                   +:+ ("(" +:+ pretty size +:+ " bytes, max " +:+
                        pretty MAX_FILE_SIZE +:+ ")."))
         else open_read resolved)
    (λ e, ret ("Error reading file: " +:+ exc_str e)).

Definition kept (d : string) : bool :=
  bool_decide (d ∉ SKIP_DIRS) && negb (Py.startswith d ".").

Definition find_matches (filename : string) : M (list string) :=
  top <- os_walk_tree real_repo_path ;;
  let visited :=
    match top with
    | Some tree => os_walk kept real_repo_path tree
    | None => []
    end in
  ret (flat_map (λ '(dirpath, _, filenames),
                   if bool_decide (filename ∈ filenames)
                   then [OsPath.relpath (OsPath.join dirpath filename)
                                        real_repo_path]
                   else []) visited).

Definition find_file (filename : string) : M string :=
  found <- try_except
             (matches <- find_matches filename ;; ret (inr matches))
             (λ e, ret (inl ("Error searching for file: " +:+
                             exc_str e))) ;;
  match found with
  | inl early => ret early
  | inr matches =>
      if bool_decide (matches = [])
      then ret ("No files named '" +:+ filename +:+
                "' found in the repository.")
      else ret (Py.join Config.newline matches)
  end.

Definition quality_review (context : string) : M string :=
  try_except
    (reviewer_model <- Config.get_model provider model_id ;;
     response <- model_invoke reviewer_model []
                   [SystemMessage Prompts.QUALITY_REVIEWER_SYSTEM_PROMPT;
                    HumanMessage context] ;;
     ret (fst response))
    (λ e, ret ("Error during quality review: " +:+ exc_str e)).

Definition security_review (context : string) : M string :=
  try_except
    (reviewer_model <- Config.get_model provider model_id ;;
     response <- model_invoke reviewer_model []
                   [SystemMessage Prompts.SECURITY_REVIEWER_SYSTEM_PROMPT;
                    HumanMessage context] ;;
     ret (fst response))
    (λ e, ret ("Error during security review: " +:+ exc_str e)).

(** The list [create_tools] returns, in its order. *)
Definition tools : list Tool :=
  [ {| tool_name := "get_diff";
       tool_body := Tool2 "source_branch" "target_branch" get_diff |};
    {| tool_name := "get_changed_files";
       tool_body :=
         Tool2 "source_branch" "target_branch" get_changed_files |};
    {| tool_name := "get_branches"; tool_body := Tool0 get_branches |};
    {| tool_name := "read_file"; tool_body := Tool1 "file_path" read_file |};
    {| tool_name := "find_file"; tool_body := Tool1 "filename" find_file |};
    {| tool_name := "quality_review";
       tool_body := Tool1 "context" quality_review |};
    {| tool_name := "security_review";
       tool_body := Tool1 "context" security_review |} ].

End Closures.

Definition create_tools (repo_path : string)
    (provider model_id : option string) : M (list Tool) :=
  real_repo_path <- os_path_realpath repo_path ;;
  ret (tools real_repo_path provider model_id).

End LangGraphTools.

(** ** [src/langgraph_impl/graph.py] *)

Module Graph.

Inductive Node := judge | tools | END_.

(** The string langgraph uses for [END]. *)
Definition END : string := "__end__".

(** What the closures of [build_graph] capture. *)
Record t := {
  tools_by_name : gmap string Tool;
  model : ChatModel;
  bound_tools : list string;     (* model.bind_tools(tools) *)
}.

(** [{t.name: t for t in tools}]: a later tool replaces an earlier
    one of the same name. *)
Definition by_name (ts : list Tool) : gmap string Tool :=
  foldl (λ d t, <[tool_name t := t]> d) ∅ ts.

(** [MessagesState]'s reducer on messages that carry fresh ids. *)
Definition add_messages (left right : list Message) : list Message :=
  (left ++ right)%list.

(** [d[key]] *)
Definition getitem (d : gmap string Tool) (key : string) : M Tool :=
  match d !! key with
  | Some t => ret t
  | None => raise (Exc KeyError (Py.repr key))
  end.

(** [state["messages"][-1]] *)
Definition last_message (state : list Message) : M Message :=
  match last state with
  | Some m => ret m
  | None => raise (Exc IndexError "list index out of range")
  end.

(** [ToolMessage(content=..., name=..., tool_call_id=...)]: the id
    has to be a string. *)
Definition new_tool_message (content name : string)
    (tool_call_id : option string) : M Message :=
  match tool_call_id with
  | Some id => ret (ToolMessage content name id)
  | None =>
      validation_error "ToolMessage"
        (JObj {[ "content" := JStr content; "name" := JStr name;
                 "tool_call_id" := JNull ]})
  end.

(** [message.tool_calls]: an attribute of [AIMessage] only. *)
Definition get_tool_calls (m : Message) : M (list ToolCall) :=
  match m with
  | AIMessage _ tcs => ret tcs
  | SystemMessage _ =>
      raise (Exc AttributeError
               "'SystemMessage' object has no attribute 'tool_calls'")
  | HumanMessage _ =>
      raise (Exc AttributeError
               "'HumanMessage' object has no attribute 'tool_calls'")
  | ToolMessage _ _ _ =>
      raise (Exc AttributeError
               "'ToolMessage' object has no attribute 'tool_calls'")
  end.

Section Nodes.
Variable g : t.

Definition judge_node (state : list Message) : M (list Message) :=
  let messages := SystemMessage Prompts.JUDGE_SYSTEM_PROMPT :: state in
  response <- model_invoke (model g) (bound_tools g) messages ;;
  ret [AIMessage (fst response) (snd response)].

(** The body of the [for] loop of [tool_node]; the message is built
    after the [try] statement. *)
Definition run_tool_call (tool_call : ToolCall) : M Message :=
  result <- try_except
              (tool_func <- getitem (tools_by_name g) (tc_name tool_call) ;;
               invoke tool_func (tc_args tool_call))
              (λ e, ret ("Error executing tool '" +:+ tc_name tool_call
                         +:+ "': " +:+ exc_str e)) ;;
  new_tool_message result (tc_name tool_call) (tc_id tool_call).

Definition tool_node (state : list Message) : M (list Message) :=
  last <- last_message state ;;
  tool_calls <- get_tool_calls last ;;
  for_each run_tool_call tool_calls.

Definition should_continue (state : list Message) : M string :=
  last <- last_message state ;;
  tool_calls <- get_tool_calls last ;;
  match tool_calls with
  | _ :: _ => ret "tools"
  | [] => ret END
  end.

(** The mapping given to [add_conditional_edges]. *)
Definition path_map (route : string) : M Node :=
  if bool_decide (route = "tools") then ret tools
  else if bool_decide (route = END) then ret END_
  else raise (Exc KeyError (Py.repr route)).

(** One node of the compiled graph runs, its update is merged
    into the state, and the outgoing edge is followed:
    judge -> should_continue -> tools or END; tools -> judge. *)
Definition step (node : Node) (state : list Message)
    : M (Node * list Message) :=
  match node with
  | judge =>
      update <- judge_node state ;;
      let state' := add_messages state update in
      route <- should_continue state' ;;
      next <- path_map route ;;
      ret (next, state')
  | tools =>
      update <- tool_node state ;;
      ret (judge, add_messages state update)
  | END_ => ret (END_, state)
  end.

(** The step budget of a run of the compiled graph, in steps of
    langgraph.  [build_graph] compiles the graph without one and
    [stream_response] passes a [config] that holds the [thread_id]
    only, so every run has langgraph's default. *)
Definition DEFAULT_RECURSION_LIMIT : nat := 25.

(** The loop of the compiled graph; [done] of its nodes have run so
    far.  langgraph counts the hidden start node, which hands the
    input to the entry point, as the first step of a run, and before
    it looks for the next node it checks the budget: once the steps
    taken exceed [recursion_limit], that is once [recursion_limit]
    nodes of the graph have run, the run ends with
    [GraphRecursionError], also when the last node led to [END].
    Within the budget the run is over at [END]; otherwise the next
    node runs.

    [fuel] is how many nodes we watch: when they have run and the loop
    still goes on, the result is the node it stands at and the state
    reached. *)
Fixpoint drive (fuel done : nat) (node : Node) (state : list Message)
    : M (Node * list Message) :=
  if (DEFAULT_RECURSION_LIMIT <=? done)%nat then graph_recursion_error
  else
    match node with
    | END_ => ret (END_, state)
    | _ =>
        match fuel with
        | O => ret (node, state)
        | S fuel' =>
            next <- step node state ;;
            drive fuel' (S done) (fst next) (snd next)
        end
    end.

(** The graph runs from [node] until [END]: the final state, or
    [None] when [fuel] nodes have run and the loop still goes on. *)
Definition run_from (fuel : nat) (node : Node) (state : list Message)
    : M (option (list Message)) :=
  stop <- drive fuel O node state ;;
  ret (match fst stop with
       | END_ => Some (snd stop)
       | _ => None
       end).

(** One round ([stream_response] in [main.py]): the user message
    joins the thread's history and the graph runs from its entry
    point. *)
Definition round (history : list Message) (user_text : string)
    (fuel : nat) : M (option (list Message)) :=
  run_from fuel judge (add_messages history [HumanMessage user_text]).

End Nodes.

Definition build_graph (repo_path : string)
    (provider model_id : option string) : M t :=
  ts <- LangGraphTools.create_tools repo_path provider model_id ;;
  m <- Config.get_model provider model_id ;;
  ret {| tools_by_name := by_name ts;
         model := m;
         bound_tools := tool_name <$> ts |}.

End Graph.

(** ** The guard of [read_file] and its messages *)

(** [resolved] is neither below [root] nor [root] itself: the
    condition under which [read_file] rejects a path. *)
Definition outside_repository (root resolved : string) : bool :=
  negb (Py.startswith resolved (root +:+ OsPath.sep))
  && negb (bool_decide (resolved = root)).

Definition outside_message (file_path : string) : string :=
  "Error: path '" +:+ file_path +:+ "' is outside the repository.".

Definition too_large_message (file_path : string) (size : Z) : string :=
  "Error: file '" +:+ file_path +:+ "' is too large (" +:+ pretty size +:+
  " bytes, max " +:+ pretty MAX_FILE_SIZE +:+ ").".

(** ** What git does with the arguments it is given *)

Module Git.

(** git-diff(1), [--output=<file>]: "Output to a specific file
    instead of stdout."  The file is created (or truncated) in the
    working directory of the process. *)
Definition output_option : string := "--output=".

Definition output_file (arg : string) : option string :=
  if Py.startswith arg output_option
  then Some (String.substring (String.length output_option)
                              (String.length arg) arg)
  else None.

(** The files a [git diff] command line asks git to write. *)
Definition files_written (argv : list string) : list string :=
  match argv with
  | git :: diff :: args =>
      if bool_decide (git = "git") && bool_decide (diff = "diff")
      then omap output_file args
      else []
  | _ => []
  end.

End Git.

(** The files a trace asks git to write, each with the directory the
    child process ran in. *)
Definition files_written_by (tr : list Op) : list (string * string) :=
  flat_map (λ op, match op with
                  | OpSubprocess argv cwd => (cwd,.) <$> Git.files_written argv
                  | _ => []
                  end) tr.

(** ** Vocabulary of the statements *)

(** The text [tool_node] puts in front of a captured exception. *)
Definition error_marker (name : string) : string :=
  "Error executing tool '" +:+ name +:+ "': ".

(** The request carries an id, as every [ActionRequest] does. *)
Definition has_id (call : ToolCall) : Prop := is_Some (tc_id call).

(** The observation for [call] carries its name and its id. *)
Definition answers (call : ToolCall) (out : Message) : Prop :=
  ∃ text id, tc_id call = Some id ∧ out = ToolMessage text (tc_name call) id.

(** The result of the action [call] requests, as a text: what the
    tool registered under its name returns for its arguments, or the
    error marker and the text of the exception when no tool is
    registered under that name or the tool raises.  [tr] is the trace
    the tool starts from. *)
Definition action_result (w : World) (g : Graph.t) (call : ToolCall)
    (tr : list Op) : string :=
  match Graph.tools_by_name g !! tc_name call with
  | None => error_marker (tc_name call) +:+ Py.repr (tc_name call)
  | Some tool =>
      match fst (invoke tool (tc_args call) w tr) with
      | Return text => text
      | Raise e => error_marker (tc_name call) +:+ exc_str e
      end
  end.

(** The requests made while the calls [before] were dispatched. *)
Definition trace_of_calls (w : World) (g : Graph.t) (before : list ToolCall)
    : list Op :=
  trace w (for_each (Graph.run_tool_call g) before).

(** The review a specialist returns, given the answer of its model. *)
Definition review_text (label : string)
    (answer : outcome (string * list ToolCall)) : string :=
  match answer with
  | Return response => fst response
  | Raise e => "Error during " +:+ label +:+ " review: " +:+ exc_str e
  end.

(** The observation [m] is correlated to the request id [id]. *)
Definition correlated (id : string) (m : Message) : bool :=
  match m with
  | ToolMessage _ _ i => bool_decide (i = id)
  | _ => false
  end.

Definition requested (id : string) (call : ToolCall) : bool :=
  bool_decide (tc_id call = Some id).



(** ** A small world to run the definitions in *)

Module Sample.

Definition root : string := "/repo".

Definition realpath (p : string) : outcome string :=
  if bool_decide (p = "/repo/../big.bin") then Return "/big.bin"
  else if bool_decide (p = "/repo/../etc/passwd") then Return "/etc/passwd"
  else if bool_decide (p = ".") then Return root
  else Return p.

Definition isfile (p : string) : bool :=
  bool_decide (p ∈ ["/repo/README.md"; "/repo/big.bin"; "/big.bin";
                    "/etc/passwd"]).

Definition getsize (p : string) : outcome Z :=
  if bool_decide (p = "/repo/README.md") then Return 12
  else if bool_decide (p = "/repo/big.bin") then Return 60000
  else if bool_decide (p = "/big.bin") then Return 60000
  else if bool_decide (p = "/etc/passwd") then Return 1024
  else Raise (Exc OSError ("[Errno 2] No such file or directory: " +:+
                           Py.repr p)).

Definition read_text (p : string) : outcome string :=
  if bool_decide (p = "/repo/README.md") then Return "round table"
  else Raise (Exc OSError ("[Errno 13] Permission denied: " +:+ Py.repr p)).

Definition tree : DirTree :=
  Dir ["README.md"; "AGENTS.md"]
      [ (".git", Some (Dir ["AGENTS.md"] []));
        ("docs", Some (Dir ["AGENTS.md"; "index.md"] []));
        ("node_modules", Some (Dir ["AGENTS.md"] [])) ].

(** The two branches compared have no differences. *)
Definition git (argv : list string) (cwd : string) : outcome RunResult :=
  if bool_decide (argv = ["git"; "branch"; "-a"; "--format=%(refname:short)"])
  then Return (CompletedProcess "main" EmptyString)
  else Return (CompletedProcess EmptyString EmptyString).

Definition call (name id : string) : ToolCall :=
  {| tc_name := name; tc_args := ∅; tc_id := Some id |}.

(** [str()] of a [ToolMessage], which prints the fields that differ
    from their defaults; an id that is a number is turned into a
    string, any other that is not a string is refused. *)
Definition message_text (name : string) (id : json) (content : string)
    : outcome string :=
  let shown i := "content=" +:+ Py.repr content +:+ " name=" +:+ Py.repr name
                 +:+ " tool_call_id=" +:+ Py.repr i in
  match id with
  | JStr i => Return (shown i)
  | JNum n => Return (shown (pretty n))
  | _ => Raise (Exc ValidationError "1 validation error for ToolMessage")
  end.

Definition limit_text : string :=
  "Recursion limit of 25 reached without hitting a stop condition. " +:+
  "You can increase the limit by setting the `recursion_limit` config key.".

(** A coordinator that answers at once, without requesting actions;
    a reviewer model that fails. *)
Definition quiet_llm (m : ChatModel) (bound : list string)
    (messages : list Message) : outcome (string * list ToolCall) :=
  match bound with
  | [] => Raise (Exc ProviderError "overloaded")
  | _ => Return ("APPROVE", [])
  end.

(** A coordinator that requests an action every time it is asked. *)
Definition busy_llm (m : ChatModel) (bound : list string)
    (messages : list Message) : outcome (string * list ToolCall) :=
  Return (EmptyString, [call "get_branches" "call_1"]).

Definition world (llm : ChatModel → list string → list Message →
                        outcome (string * list ToolCall)) : World :=
  {| fs_realpath := realpath;
     fs_isfile := isfile;
     fs_getsize := getsize;
     fs_read_text := read_text;
     fs_tree := λ top, Return (if bool_decide (top = root)
                               then Some tree else None);
     environ := {[ "ANTHROPIC_API_KEY" := "sk-test" ]};
     proc_run := git;
     llm_invoke := llm;
     validation_text := λ name _, "1 validation error for " +:+ name;
     tool_message_text := message_text;
     recursion_text := limit_text |}.

Definition quiet : World := world quiet_llm.
Definition busy : World := world busy_llm.

(** The graph [build_graph] returns in this world. *)
Definition graph : Graph.t :=
  {| Graph.tools_by_name :=
       Graph.by_name (LangGraphTools.tools root None None);
     Graph.model := Config.anthropic_model None;
     Graph.bound_tools := tool_name <$> LangGraphTools.tools root None None |}.

End Sample.

(** ** [src/config.py] *)

Module AgnoConfig.

Inductive ModelClass := Claude | OpenAIChat | OpenRouter.

(** An agno model as [get_model] constructs it. *)
Record Model := {
  am_class : ModelClass;
  am_id : string;
  am_max_tokens : Z;
}.

Definition DEFAULT_MODELS (provider : string) : string :=
  if bool_decide (provider = "anthropic") then "claude-sonnet-4-20250514"
  else if bool_decide (provider = "openai") then "gpt-4o"
  else "anthropic/claude-sonnet-4".

Definition MAX_TOKENS : Z := 16384.

Definition model (c : ModelClass) (provider : string)
    (model_id : option string) : Model :=
  {| am_class := c;
     am_id := opt_or model_id (DEFAULT_MODELS provider);
     am_max_tokens := MAX_TOKENS |}.

(** [_get_model_for_provider] *)
Definition _get_model_for_provider (provider : string)
    (model_id : option string) : M Model :=
  let provider := Py.lower provider in
  if bool_decide (provider = "anthropic") then
    k <- getenv "ANTHROPIC_API_KEY" ;;
    if negb (opt_truthy k)
    then raise (Exc ValueError "ANTHROPIC_API_KEY not set")
    else ret (model Claude "anthropic" model_id)
  else if bool_decide (provider = "openai") then
    k <- getenv "OPENAI_API_KEY" ;;
    if negb (opt_truthy k)
    then raise (Exc ValueError "OPENAI_API_KEY not set")
    else ret (model OpenAIChat "openai" model_id)
  else if bool_decide (provider = "openrouter") then
    k <- getenv "OPENROUTER_API_KEY" ;;
    if negb (opt_truthy k)
    then raise (Exc ValueError "OPENROUTER_API_KEY not set")
    else ret (model OpenRouter "openrouter" model_id)
  else
    raise (Exc ValueError
             ("Unknown provider: " +:+ provider +:+
              ". Use 'anthropic', 'openai', or 'openrouter'")).

(** [get_model] *)
Definition get_model (provider model_id : option string) : M Model :=
  if opt_truthy provider then
    _get_model_for_provider (default EmptyString provider) model_id
  else
    a <- getenv "ANTHROPIC_API_KEY" ;;
    if opt_truthy a then ret (model Claude "anthropic" model_id)
    else
      o <- getenv "OPENAI_API_KEY" ;;
      if opt_truthy o then ret (model OpenAIChat "openai" model_id)
      else
        r <- getenv "OPENROUTER_API_KEY" ;;
        if opt_truthy r then ret (model OpenRouter "openrouter" model_id)
        else raise (Exc ValueError Config.no_key_text).

End AgnoConfig.

(** ** [src/langgraph_impl/main.py] *)

Module Main.

(** The request of the first round, built from the two branch names. *)
Definition prompt (source target : string) : string :=
  let nl := Config.newline in
  nl +:+
  "    Please review the code changes from branch '" +:+
  source +:+
  "'" +:+
  nl +:+
  "    compared to branch '" +:+
  target +:+
  "'." +:+
  nl +:+
  nl +:+
  "    The codebase is in swift, it's an iOS/tvOS app, the architecture is VIP, with an ongoing migration to MVVM." +:+
  nl +:+
  nl +:+
  "    Steps:" +:+
  nl +:+
  "    0. Use find_file to look for AGENTS.md or CLAUDE.md, and if found, use read_file to read them for project context" +:+
  nl +:+
  "    1. First, use get_changed_files to see what files were modified" +:+
  nl +:+
  "    2. Then use get_diff to get the full diff" +:+
  nl +:+
  "    3. Delegate the review to both reviewers by calling quality_review and security_review with the full diff and context" +:+
  nl +:+
  "    4. Summarize both reviews into their respective sections" +:+
  nl +:+
  "    5. Synthesize their feedback into a final verdict. Use concrete filepaths from the codebase and blocks of code from the codebase, without exceeding 20 lines" +:+
  nl +:+
  nl +:+
  "    For critical issues, you MUST provide specific line references and suggested fixes and MUST provide a specific code block from the call site." +:+
  nl +:+
  "    For high to medium issues, provide the line of code that's responsible and an adequate fix idea" +:+
  nl +:+
  nl +:+
  "    Write your finding in a nicely formatted, to the point and super clear markdown document with the following sections:" +:+
  nl +:+
  "    # Code Quality reviewer output" +:+
  nl +:+
  "    [The code quality reviewer's feedback goes here]" +:+
  nl +:+
  "    # Security & Performance reviewer output" +:+
  nl +:+
  "    [The security & performance reviewer's feedback goes here]" +:+
  nl +:+
  nl +:+
  "    # Must Fix" +:+
  nl +:+
  "    [A concise list of critical issues that MUST be fixed before merging, with specific line references and suggested fixes. Include code blocks from the call site for each issue, without exceeding 40 lines.]" +:+
  nl +:+
  nl +:+
  "    # Should Fix" +:+
  nl +:+
  "    [A concise list of high to medium severity issues that SHOULD be fixed before merging, with specific line references and suggested fixes. Include code blocks from the call site for each issue, without exceeding 20 lines.]" +:+
  nl +:+
  nl +:+
  "    # Refactoring opportunities" +:+
  nl +:+
  "    [A concise list of code quality improvements that could be made, with specific line references and suggested refactorings. Include code blocks from the call site for each opportunity, without exceeding 20 lines.]" +:+
  nl +:+
  "    ".

(** [stream_response]: the messages join the history of the thread and
    the graph runs from its entry point.  What is printed on the way
    (the coordinator's text, as it arrives) has no part in what the
    loop does next and is left out. *)
Definition stream_response (g : Graph.t) (history messages : list Message)
    (fuel : nat) : M (option (list Message)) :=
  Graph.run_from g fuel Graph.judge (Graph.add_messages history messages).

(** The answers that end the session. *)
Definition quit_words : list string :=
  ["q"; "quit"; "exit"; "done"; EmptyString].

(** The interactive loop of [main].  [inputs] is what [input] yields,
    call after call: [Some line], or [None] when it raises [EOFError]
    or [KeyboardInterrupt]; the end of the list is the end of the
    input.  The result is the history of the thread and the number the
    next round would bear ([None]: a round was still going on when
    the nodes watched had run). *)
Fixpoint follow_ups (g : Graph.t) (fuel : nat) (inputs : list (option string))
    (history : list Message) (round_num : Z)
    : M (option (list Message * Z)) :=
  match inputs with
  | [] => ret (Some (history, round_num))
  | None :: _ => ret (Some (history, round_num))
  | Some line :: rest =>
      let user_input := Py.strip line in
      if bool_decide (Py.lower user_input ∈ quit_words)
      then ret (Some (history, round_num))
      else
        r <- stream_response g history [HumanMessage user_input] fuel ;;
        match r with
        | Some history' => follow_ups g fuel rest history' (round_num + 1)
        | None => ret None
        end
  end.

(** [main], once the command line is parsed. *)
Definition main (repo : string) (provider model_id : option string)
    (source target : string) (inputs : list (option string)) (fuel : nat)
    : M (option (list Message * Z)) :=
  graph <- Graph.build_graph repo provider model_id ;;
  r <- stream_response graph [] [HumanMessage (prompt source target)] fuel ;;
  match r with
  | Some history => follow_ups graph fuel inputs history 2
  | None => ret None
  end.

End Main.

(** ** More vocabulary *)

(** The provider a chat model talks to, its model name and its token
    limit. *)
Definition chat_summary (m : ChatModel) : string * string * Z :=
  (match cm_class m, cm_base_url m with
   | ChatAnthropic, _ => "anthropic"
   | ChatOpenAI, None => "openai"
   | ChatOpenAI, Some _ => "openrouter"
   end, cm_model m, cm_max_tokens m).

Definition agno_summary (m : AgnoConfig.Model) : string * string * Z :=
  (match AgnoConfig.am_class m with
   | AgnoConfig.Claude => "anthropic"
   | AgnoConfig.OpenAIChat => "openai"
   | AgnoConfig.OpenRouter => "openrouter"
   end, AgnoConfig.am_id m, AgnoConfig.am_max_tokens m).

(** A key of the environment that is set and not empty. *)
Definition has_key (w : World) (name : string) : bool :=
  opt_truthy (environ w !! name).

(** The tree with everything below a pruned directory forgotten. *)
Fixpoint pruned (t : DirTree) : DirTree :=
  match t with
  | Dir filenames subdirs =>
      Dir filenames
        ((fix each (l : list (string * option DirTree)) :=
            match l with
            | [] => []
            | (d, sub) :: l' =>
                (d, if LangGraphTools.kept d
                    then match sub with
                         | Some t' => Some (pruned t')
                         | None => None
                         end
                    else None) :: each l'
            end) subdirs)
  end.

(** A message the loop itself appends after the user's. *)
Definition from_loop (m : Message) : bool :=
  match m with
  | AIMessage _ _ | ToolMessage _ _ _ => true
  | _ => false
  end.

(** The names [create_tools] registers. *)
Definition TOOL_NAMES : list string :=
  ["get_diff"; "get_changed_files"; "get_branches"; "read_file";
   "find_file"; "quality_review"; "security_review"].

(** A name a directory entry can bear: not empty, no separator. *)
Definition entry_name (n : string) : bool :=
  Py.truthy n && negb (Py.contains_char "/" n).

(** Every name in the tree is the name of a directory entry. *)
Fixpoint entry_names (t : DirTree) : bool :=
  match t with
  | Dir filenames subdirs =>
      forallb entry_name filenames
      && (fix each (l : list (string * option DirTree)) :=
            match l with
            | [] => true
            | (d, sub) :: l' =>
                entry_name d
                && match sub with Some t' => entry_names t' | None => true end
                && each l'
            end) subdirs
  end.

(** The files called [name] in the tree, each as the directory names
    that lead to it ([dirs] those that lead to the tree) and the name,
    joined by separators; the directories [find_file] prunes are not
    entered. *)
Fixpoint found_below (name : string) (dirs : list string) (t : DirTree)
    : list string :=
  match t with
  | Dir filenames subdirs =>
      ((if bool_decide (name ∈ filenames)
        then [Py.join "/" (dirs ++ [name])] else [])
       ++ (fix each (l : list (string * option DirTree)) :=
             match l with
             | [] => []
             | (d, sub) :: l' =>
                 (if LangGraphTools.kept d then
                    match sub with
                    | Some t' => found_below name (dirs ++ [d]) t'
                    | None => []
                    end
                  else []) ++ each l'
             end) subdirs)%list
  end.

(** The environment variable that holds the credential of a provider. *)
Definition api_key_name (provider : string) : string :=
  if bool_decide (provider = "anthropic") then "ANTHROPIC_API_KEY"
  else if bool_decide (provider = "openai") then "OPENAI_API_KEY"
  else "OPENROUTER_API_KEY".

Definition PROVIDERS : list string := ["anthropic"; "openai"; "openrouter"].

(** A message of a session: the loop's own, or what the user typed,
    stripped, when that is not a quit word. *)
Definition session_message (inputs : list (option string)) (m : Message)
    : Prop :=
  from_loop m = true
  ∨ ∃ line, Some line ∈ inputs ∧ m = HumanMessage (Py.strip line)
            ∧ Py.lower (Py.strip line) ∉ Main.quit_words.

(** ** More worlds *)

Module Scenario.

(** No credential at all. *)
Definition unconfigured : World :=
  {| fs_realpath := Sample.realpath;
     fs_isfile := Sample.isfile;
     fs_getsize := Sample.getsize;
     fs_read_text := Sample.read_text;
     fs_tree := λ top, Return (if bool_decide (top = Sample.root)
                               then Some Sample.tree else None);
     environ := {[ "OPENAI_API_KEY" := EmptyString ]};
     proc_run := Sample.git;
     llm_invoke := Sample.quiet_llm;
     validation_text := λ name _, "1 validation error for " +:+ name;
     tool_message_text := Sample.message_text;
     recursion_text := Sample.limit_text |}.

(** Only an OpenRouter key; git is not installed; the coordinator
    fails; paths with a NUL byte cannot be resolved and files cannot
    be read. *)
Definition broken : World :=
  {| fs_realpath :=
       λ p, if Py.contains_char (ascii_of_nat 0) p
            then Raise (Exc ValueError "embedded null byte")
            else Sample.realpath p;
     fs_isfile := Sample.isfile;
     fs_getsize :=
       λ p, if bool_decide (p = "/repo/README.md") then Return 12
            else Raise (Exc OSError "[Errno 5] Input/output error");
     fs_read_text :=
       λ p, Raise (Exc OSError ("[Errno 13] Permission denied: " +:+
                                Py.repr p));
     fs_tree := λ top, Raise (Exc ValueError "embedded null byte");
     environ := {[ "OPENROUTER_API_KEY" := "or-test" ]};
     proc_run := λ _ _, Raise (Exc OSError
                                 "[Errno 2] No such file or directory: 'git'");
     llm_invoke := λ _ _ _, Raise (Exc ProviderError "overloaded");
     validation_text := λ name _, "1 validation error for " +:+ name;
     tool_message_text := Sample.message_text;
     recursion_text := Sample.limit_text |}.

(** git answers every command with exit status 128. *)
Definition not_a_repository : World :=
  {| fs_realpath := Sample.realpath;
     fs_isfile := Sample.isfile;
     fs_getsize := Sample.getsize;
     fs_read_text := Sample.read_text;
     fs_tree := λ top, Return None;
     environ := {[ "ANTHROPIC_API_KEY" := "sk-test";
                   "OPENAI_API_KEY" := "sk-other" ]};
     proc_run := λ _ _, Return (CalledProcessError 128 EmptyString
                                  "fatal: not a git repository");
     llm_invoke := Sample.quiet_llm;
     validation_text := λ name _, "1 validation error for " +:+ name;
     tool_message_text := Sample.message_text;
     recursion_text := Sample.limit_text |}.

(** The sample tree with other contents below the pruned
    directories. *)
Definition other_tree : DirTree :=
  Dir ["README.md"; "AGENTS.md"]
      [ (".git", Some (Dir ["HEAD"] [("objects", Some (Dir ["AGENTS.md"] []))]));
        ("docs", Some (Dir ["AGENTS.md"; "index.md"] []));
        ("node_modules", None) ].

Definition other_checkout : World :=
  {| fs_realpath := Sample.realpath;
     fs_isfile := Sample.isfile;
     fs_getsize := Sample.getsize;
     fs_read_text := Sample.read_text;
     fs_tree := λ top, Return (if bool_decide (top = Sample.root)
                               then Some other_tree else None);
     environ := {[ "ANTHROPIC_API_KEY" := "sk-test" ]};
     proc_run := Sample.git;
     llm_invoke := Sample.quiet_llm;
     validation_text := λ name _, "1 validation error for " +:+ name;
     tool_message_text := Sample.message_text;
     recursion_text := Sample.limit_text |}.

End Scenario.

(** * Properties *)

(** ** The definitions at work *)

Example find_file_skips_hidden_and_vendored :
  result Sample.quiet (LangGraphTools.find_file Sample.root "AGENTS.md")
  = Return ("AGENTS.md" +:+ Config.newline +:+ "docs/AGENTS.md").
Proof. reflexivity. Qed.

Example find_file_reports_absence :
  result Sample.quiet (LangGraphTools.find_file Sample.root "CLAUDE.md")
  = Return "No files named 'CLAUDE.md' found in the repository.".
Proof. reflexivity. Qed.

Example read_file_rejects_absolute_path :
  result Sample.quiet (LangGraphTools.read_file Sample.root "/etc/passwd")
  = Return "Error: path '/etc/passwd' is outside the repository.".
Proof. reflexivity. Qed.

Example build_graph_in_sample_world :
  result Sample.quiet (Graph.build_graph "." None None) = Return Sample.graph.
Proof. reflexivity. Qed.

Example round_without_actions :
  result Sample.quiet (Graph.round Sample.graph [] "review" 5)
  = Return (Some [HumanMessage "review"; AIMessage "APPROVE" []]).
Proof. reflexivity. Qed.

Example two_cycles_of_a_busy_coordinator :
  result Sample.busy (Graph.drive Sample.graph 4 0 Graph.judge
                        [HumanMessage "review"])
  = Return (Graph.judge,
            [HumanMessage "review";
             AIMessage EmptyString [Sample.call "get_branches" "call_1"];
             ToolMessage "main" "get_branches" "call_1";
             AIMessage EmptyString [Sample.call "get_branches" "call_1"];
             ToolMessage "main" "get_branches" "call_1"]).
Proof. reflexivity. Qed.

Example missing_argument_becomes_an_observation :
  result Sample.quiet
    (Graph.tool_node Sample.graph
       [AIMessage EmptyString [Sample.call "quality_review" "call_7"]])
  = Return [ToolMessage
              ("Error executing tool 'quality_review': " +:+
               "1 validation error for quality_review")
              "quality_review" "call_7"].
Proof. reflexivity. Qed.

Example whole_tool_call_as_arguments :
  result Sample.quiet
    (Graph.tool_node Sample.graph
       [AIMessage EmptyString
          [{| tc_name := "read_file";
              tc_args := {[ "type" := JStr "tool_call";
                            "id" := JStr "inner";
                            "args" := JObj {[ "file_path" := JStr "README.md" ]} ]};
              tc_id := Some "call_8" |}]])
  = Return [ToolMessage
              "content='round table' name='read_file' tool_call_id='inner'"
              "read_file" "call_8"].
Proof. reflexivity. Qed.

Example request_without_id :
  result Sample.quiet
    (Graph.tool_node Sample.graph
       [AIMessage EmptyString
          [{| tc_name := "get_branches"; tc_args := ∅; tc_id := None |}]])
  = Raise (Exc ValidationError "1 validation error for ToolMessage").
Proof. reflexivity. Qed.

Example round_of_a_busy_coordinator :
  result Sample.busy (Graph.round Sample.graph [] "review" 100)
  = Raise (Exc GraphRecursionError Sample.limit_text).
Proof. reflexivity. Qed.

(** ** Generic facts about computations *)

Ltac unfold_py :=
  unfold result, trace, run, logger_info, os_path_realpath, os_path_isfile,
    os_path_getsize, open_read, os_walk_tree, subprocess_run, model_invoke,
    getenv, validation_error, request, try_except, bind, ret, raise in *.

Lemma bind_return {A B} (m : M A) (k : A → M B) w tr a tr' :
  m w tr = (Return a, tr') → bind m k w tr = k a w tr'.
Proof. intros H. unfold bind. by rewrite H. Qed.

Lemma bind_raise {A B} (m : M A) (k : A → M B) w tr e tr' :
  m w tr = (Raise e, tr') → bind m k w tr = (Raise e, tr').
Proof. intros H. unfold bind. by rewrite H. Qed.

(** ** Strings *)

Lemma prefix_app_l (p q s : string) :
  String.prefix (p +:+ q) s = true → String.prefix p s = true.
Proof.
  revert s. induction p as [|c p IH]; intros [|d s]; simpl; try done.
  destruct (ascii_dec c d); [apply IH | done].
Qed.

Lemma prefix_refl (s : string) : String.prefix s s = true.
Proof.
  induction s as [|c s IH]; simpl; [done|].
  destruct (ascii_dec c c); [done | congruence].
Qed.

(** A canonical path that does not even start with the characters of
    the root is rejected by the guard. *)
Lemma not_prefix_outside (root resolved : string) :
  String.prefix root resolved = false →
  outside_repository root resolved = true.
Proof.
  intros H. unfold outside_repository, Py.startswith.
  apply andb_true_iff; split; apply negb_true_iff.
  - destruct (String.prefix (root +:+ OsPath.sep) resolved) eqn:E; [|done].
    apply prefix_app_l in E. congruence.
  - apply bool_decide_eq_false. intros ->. rewrite prefix_refl in H. done.
Qed.

(** ** [read_file]: the path guard *)

Lemma lg_read_file_outside w root p resolved tr :
  fs_realpath w (OsPath.join root p) = Return resolved →
  outside_repository root resolved = true →
  LangGraphTools.read_file root p w tr =
    (Return (outside_message p), tr ++ [OpRealpath (OsPath.join root p)]).
Proof.
  intros Hr Ho. unfold LangGraphTools.read_file, outside_repository in *.
  unfold_py. rewrite Hr, Ho. done.
Qed.

Lemma agno_read_file_outside w root p resolved tr :
  fs_realpath w (OsPath.join root p) = Return resolved →
  outside_repository root resolved = true →
  FileTools.read_file {| FileTools.repo_path := root |} p w tr =
    (Return (outside_message p),
     tr ++ [OpLog ("Reading file: " +:+ p); OpRealpath (OsPath.join root p)]).
Proof.
  intros Hr Ho. unfold FileTools.read_file, outside_repository in *.
  unfold_py. simpl. rewrite Hr, Ho. by rewrite <- app_assoc.
Qed.

(** C1. A path whose canonical form does not have the canonical
    repository root as a prefix is rejected by [read_file] (in both
    toolkits) with the message that the path is outside the
    repository, and the only request made is the canonicalisation
    itself: the target is not tested, measured or opened. *)
Theorem C1_read_file_rejects_outside_paths :
  ∀ (w : World) (root p resolved : string),
    fs_realpath w (OsPath.join root p) = Return resolved →
    String.prefix root resolved = false →
    let self := {| FileTools.repo_path := root |} in
    result w (FileTools.read_file self p)
      = Return ("Error: path '" +:+ p +:+ "' is outside the repository.")
    ∧ trace w (FileTools.read_file self p)
      = [OpLog ("Reading file: " +:+ p); OpRealpath (OsPath.join root p)]
    ∧ result w (LangGraphTools.read_file root p)
      = Return ("Error: path '" +:+ p +:+ "' is outside the repository.")
    ∧ trace w (LangGraphTools.read_file root p)
      = [OpRealpath (OsPath.join root p)].
Proof.
  intros w root p resolved Hr Hp self.
  apply not_prefix_outside in Hp.
  pose proof (agno_read_file_outside w root p resolved [] Hr Hp) as Ha.
  pose proof (lg_read_file_outside w root p resolved [] Hr Hp) as Hl.
  unfold result, trace, run, self. rewrite Ha, Hl. done.
Qed.

Lemma C1_witness :
  result Sample.quiet (LangGraphTools.read_file Sample.root "../etc/passwd")
    = Return "Error: path '../etc/passwd' is outside the repository."
  ∧ trace Sample.quiet (LangGraphTools.read_file Sample.root "../etc/passwd")
    = [OpRealpath "/repo/../etc/passwd"].
Proof.
  destruct (C1_read_file_rejects_outside_paths Sample.quiet Sample.root
              "../etc/passwd" "/etc/passwd")
    as (_ & _ & Hres & Htr); [reflexivity | reflexivity |].
  split; [exact Hres | exact Htr].
Defined.

(** ** [read_file]: the size ceiling *)

Lemma string_app_assoc (a b c : string) : (a +:+ b) +:+ c = a +:+ (b +:+ c).
Proof.
  induction a as [|x a IH]; [done|].
  change (String x ((a +:+ b) +:+ c) = String x (a +:+ (b +:+ c))).
  by f_equal.
Qed.

Lemma lg_too_large_text (p : string) (size : Z) :
  ("Error: file '" +:+ p +:+ "' is too large ")
  +:+ ("(" +:+ pretty size +:+ " bytes, max " +:+ pretty MAX_FILE_SIZE +:+ ").")
  = too_large_message p size.
Proof.
  unfold too_large_message.
  change ("' is too large (" +:+ pretty size +:+ " bytes, max "
          +:+ pretty MAX_FILE_SIZE +:+ ").")
    with ("' is too large " +:+ ("(" +:+ pretty size +:+ " bytes, max "
          +:+ pretty MAX_FILE_SIZE +:+ ").")).
  by rewrite !string_app_assoc.
Qed.

(** Inside the root, on a regular file whose size is known, the answer
    is decided by the ceiling alone. *)
Lemma lg_read_file_inside w root p resolved size tr :
  fs_realpath w (OsPath.join root p) = Return resolved →
  outside_repository root resolved = false →
  fs_isfile w resolved = true →
  fs_getsize w resolved = Return size →
  LangGraphTools.read_file root p w tr =
    if size >? MAX_FILE_SIZE
    then (Return (too_large_message p size),
          tr ++ [OpRealpath (OsPath.join root p); OpIsFile resolved;
                 OpGetSize resolved])
    else (match fs_read_text w resolved with
          | Return text => Return text
          | Raise e => Return ("Error reading file: " +:+ exc_str e)
          end,
          tr ++ [OpRealpath (OsPath.join root p); OpIsFile resolved;
                 OpGetSize resolved; OpOpenRead resolved]).
Proof.
  intros Hr Ho Hf Hs. unfold LangGraphTools.read_file, outside_repository in *.
  unfold_py. rewrite Hr, Ho, Hf. simpl. rewrite Hs.
  destruct (size >? MAX_FILE_SIZE).
  - rewrite lg_too_large_text. by rewrite <- !app_assoc.
  - rewrite <- !app_assoc. simpl. by destruct (fs_read_text w resolved).
Qed.

Lemma agno_read_file_inside w root p resolved size tr :
  fs_realpath w (OsPath.join root p) = Return resolved →
  outside_repository root resolved = false →
  fs_isfile w resolved = true →
  fs_getsize w resolved = Return size →
  FileTools.read_file {| FileTools.repo_path := root |} p w tr =
    if size >? MAX_FILE_SIZE
    then (Return (too_large_message p size),
          tr ++ [OpLog ("Reading file: " +:+ p);
                 OpRealpath (OsPath.join root p); OpIsFile resolved;
                 OpGetSize resolved])
    else (match fs_read_text w resolved with
          | Return text => Return text
          | Raise e => Return ("Error reading file: " +:+ exc_str e)
          end,
          tr ++ [OpLog ("Reading file: " +:+ p);
                 OpRealpath (OsPath.join root p); OpIsFile resolved;
                 OpGetSize resolved; OpOpenRead resolved]).
Proof.
  intros Hr Ho Hf Hs. unfold FileTools.read_file, outside_repository in *.
  unfold_py. simpl. rewrite Hr, Ho, Hf. simpl. rewrite Hs.
  destruct (size >? MAX_FILE_SIZE).
  - by rewrite <- !app_assoc.
  - rewrite <- !app_assoc. simpl. by destruct (fs_read_text w resolved).
Qed.

(** C6, as stated, fails in two places.  Outside the root: [../big.bin]
    is a regular file of 60000 bytes, above the ceiling of 51200, and
    [read_file] answers with the path rejection, which is not the size
    rejection naming the file and its size.  Inside the root: where
    files cannot be opened, [README.md], a regular file of 12 bytes,
    is answered with the error of the read, not with its contents. *)
Lemma C6_counterexample :
  (fs_realpath Sample.quiet (OsPath.join Sample.root "../big.bin")
     = Return "/big.bin"
   ∧ fs_isfile Sample.quiet "/big.bin" = true
   ∧ fs_getsize Sample.quiet "/big.bin" = Return 60000
   ∧ 60000 > MAX_FILE_SIZE
   ∧ result Sample.quiet (LangGraphTools.read_file Sample.root "../big.bin")
     = Return "Error: path '../big.bin' is outside the repository."
   ∧ result Sample.quiet (LangGraphTools.read_file Sample.root "../big.bin")
     ≠ Return (too_large_message "../big.bin" 60000)
   ∧ result Sample.quiet
       (FileTools.read_file {| FileTools.repo_path := Sample.root |}
          "../big.bin")
     ≠ Return (too_large_message "../big.bin" 60000))
  ∧ (fs_realpath Scenario.broken (OsPath.join Sample.root "README.md")
       = Return "/repo/README.md"
     ∧ outside_repository Sample.root "/repo/README.md" = false
     ∧ fs_isfile Scenario.broken "/repo/README.md" = true
     ∧ fs_getsize Scenario.broken "/repo/README.md" = Return 12
     ∧ 12 ≤ MAX_FILE_SIZE
     ∧ result Scenario.broken (LangGraphTools.read_file Sample.root "README.md")
       = Return ("Error reading file: " +:+
                 "[Errno 13] Permission denied: '/repo/README.md'")
     ∧ result Scenario.broken
         (FileTools.read_file {| FileTools.repo_path := Sample.root |}
            "README.md")
       = Return ("Error reading file: " +:+
                 "[Errno 13] Permission denied: '/repo/README.md'")).
Proof. vm_compute. repeat split; congruence. Qed.

(** C6, amended.  Take a path whose canonical form is [resolved].
    When [resolved] is outside the repository root, [read_file] (in
    both toolkits) answers with the path rejection, whatever the size
    of the file, and asks nothing about it.  When it is inside (the
    root or below it), a regular file, and its size is [size]: above
    the ceiling of 50 * 1024 bytes, [read_file] returns the size
    rejection naming the file and its size and never opens the file;
    at or below the ceiling it opens the file, as UTF-8 text with
    invalid bytes replaced, and returns the text read as it is, or
    "Error reading file: " and the text of the exception when
    opening or reading raises. *)
Theorem C6_read_file_size_ceiling :
  ∀ (w : World) (root p resolved : string),
    fs_realpath w (OsPath.join root p) = Return resolved →
    let self := {| FileTools.repo_path := root |} in
    MAX_FILE_SIZE = 50 * 1024
    ∧ (outside_repository root resolved = true →
         result w (LangGraphTools.read_file root p)
           = Return ("Error: path '" +:+ p +:+ "' is outside the repository.")
         ∧ result w (FileTools.read_file self p)
           = result w (LangGraphTools.read_file root p)
         ∧ trace w (LangGraphTools.read_file root p)
           = [OpRealpath (OsPath.join root p)])
    ∧ (outside_repository root resolved = false →
       fs_isfile w resolved = true →
       ∀ size, fs_getsize w resolved = Return size →
         (size > MAX_FILE_SIZE →
            result w (LangGraphTools.read_file root p)
              = Return ("Error: file '" +:+ p +:+ "' is too large (" +:+
                        pretty size +:+ " bytes, max 51200).")
            ∧ result w (FileTools.read_file self p)
              = result w (LangGraphTools.read_file root p)
            ∧ (OpOpenRead resolved ∉ trace w (LangGraphTools.read_file root p))
            ∧ (OpOpenRead resolved ∉ trace w (FileTools.read_file self p)))
         ∧ (size ≤ MAX_FILE_SIZE →
              result w (LangGraphTools.read_file root p)
                = Return match fs_read_text w resolved with
                         | Return text => text
                         | Raise e => "Error reading file: " +:+ exc_str e
                         end
              ∧ result w (FileTools.read_file self p)
                = result w (LangGraphTools.read_file root p)
              ∧ trace w (LangGraphTools.read_file root p)
                = [OpRealpath (OsPath.join root p); OpIsFile resolved;
                   OpGetSize resolved; OpOpenRead resolved])).
Proof.
  intros w root p resolved Hr self.
  split; [reflexivity|]. split.
  - intros Ho. unfold result, trace, run, self.
    rewrite (lg_read_file_outside w root p resolved [] Hr Ho).
    by rewrite (agno_read_file_outside w root p resolved [] Hr Ho).
  - intros Ho Hf size Hs.
    pose proof (lg_read_file_inside w root p resolved size [] Hr Ho Hf Hs)
      as Hl.
    pose proof (agno_read_file_inside w root p resolved size [] Hr Ho Hf Hs)
      as Ha.
    unfold result, trace, run, self. rewrite Hl, Ha. split.
    + intros Hgt. apply Z.gtb_gt in Hgt. rewrite Hgt. simpl.
      repeat split; try done.
      * rewrite !elem_of_cons, elem_of_nil. intuition discriminate.
      * rewrite !elem_of_cons, elem_of_nil. intuition discriminate.
    + intros Hle.
      assert ((size >? MAX_FILE_SIZE) = false) as ->.
      { rewrite Z.gtb_ltb. apply Z.ltb_ge. lia. }
      simpl. by destruct (fs_read_text w resolved).
Qed.

Lemma C6_witness :
  result Sample.quiet (LangGraphTools.read_file Sample.root "big.bin")
    = Return "Error: file 'big.bin' is too large (60000 bytes, max 51200)."
  ∧ result Sample.quiet (LangGraphTools.read_file Sample.root "README.md")
    = Return "round table"
  ∧ result Sample.quiet (LangGraphTools.read_file Sample.root "../big.bin")
    = Return "Error: path '../big.bin' is outside the repository.".
Proof.
  split; [|split].
  - destruct (C6_read_file_size_ceiling Sample.quiet Sample.root "big.bin"
                "/repo/big.bin" eq_refl) as (_ & _ & Hin).
    destruct (Hin eq_refl eq_refl 60000 eq_refl) as (Hbig & _).
    destruct Hbig as (H & _); [reflexivity | exact H].
  - destruct (C6_read_file_size_ceiling Sample.quiet Sample.root "README.md"
                "/repo/README.md" eq_refl) as (_ & _ & Hin).
    destruct (Hin eq_refl eq_refl 12 eq_refl) as (_ & Hsmall).
    destruct Hsmall as (H & _); [vm_compute; congruence | exact H].
  - destruct (C6_read_file_size_ceiling Sample.quiet Sample.root "../big.bin"
                "/big.bin" eq_refl) as (_ & Hout & _).
    destruct (Hout eq_refl) as (H & _). exact H.
Defined.

(** ** The git accessors *)

Lemma truthy_false_iff (s : string) : Py.truthy s = false ↔ s = EmptyString.
Proof. destruct s; simpl; split; congruence. Qed.

(** C8. When git exits normally: [get_diff] returns exactly
    "No differences found between branches." if the output is empty
    once stripped of whitespace, and the output unchanged otherwise;
    [get_changed_files] returns exactly "No files changed." if the
    raw output is empty, and the output unchanged otherwise.  So for
    two branches without differences (git prints nothing) the two
    fixed texts are returned.  The same holds of the two closures of
    [create_tools]. *)
Theorem C8_no_differences_messages :
  ∀ (w : World) (repo source target diff_out diff_err names_out names_err
       : string),
    proc_run w ["git"; "diff"; target +:+ "..." +:+ source] repo
      = Return (CompletedProcess diff_out diff_err) →
    proc_run w ["git"; "diff"; "--name-only"; target +:+ "..." +:+ source] repo
      = Return (CompletedProcess names_out names_err) →
    let self := GitTools.init repo in
    (Py.strip diff_out = EmptyString →
       result w (GitTools.get_diff self source target)
         = Return "No differences found between branches.")
    ∧ (Py.strip diff_out ≠ EmptyString →
       result w (GitTools.get_diff self source target) = Return diff_out)
    ∧ (names_out = EmptyString →
       result w (GitTools.get_changed_files self source target)
         = Return "No files changed.")
    ∧ (names_out ≠ EmptyString →
       result w (GitTools.get_changed_files self source target)
         = Return names_out)
    ∧ result w (LangGraphTools.get_diff repo source target)
      = result w (GitTools.get_diff self source target)
    ∧ result w (LangGraphTools.get_changed_files repo source target)
      = result w (GitTools.get_changed_files self source target).
Proof.
  intros w repo source target dout derr nout nerr Hd Hn self.
  unfold self, GitTools.init, GitTools.get_diff, GitTools.get_changed_files,
    LangGraphTools.get_diff, LangGraphTools.get_changed_files.
  unfold_py. simpl. rewrite Hd, Hn. simpl.
  repeat split.
  - intros ->. done.
  - intros Hne. destruct (Py.truthy (Py.strip dout)) eqn:E; [done|].
    apply truthy_false_iff in E. done.
  - intros ->. done.
  - intros Hne. destruct (Py.truthy nout) eqn:E; [done|].
    apply truthy_false_iff in E. done.
  - by destruct (Py.truthy (Py.strip dout)).
Qed.

Lemma C8_witness :
  result Sample.quiet
    (GitTools.get_diff (GitTools.init Sample.root) "feature/x" "main")
    = Return "No differences found between branches."
  ∧ result Sample.quiet
      (GitTools.get_changed_files (GitTools.init Sample.root) "feature/x" "main")
    = Return "No files changed.".
Proof.
  destruct (C8_no_differences_messages Sample.quiet Sample.root "feature/x"
              "main" EmptyString EmptyString EmptyString EmptyString)
    as (Hd & _ & Hn & _); [reflexivity | reflexivity |].
  split; [apply Hd | apply Hn]; reflexivity.
Defined.

(** ** The specialist reviewers *)

(** [get_model] only reads the environment: it makes no request and
    its answer does not depend on the trace. *)
Lemma get_model_pure provider model_id w tr :
  Config.get_model provider model_id w tr
  = (result w (Config.get_model provider model_id), tr).
Proof.
  unfold Config.get_model, Config._get_model_for_provider. unfold_py. simpl.
  repeat (case_match; simpl; try done).
Qed.

Lemma quality_review_run provider model_id context w tr :
  LangGraphTools.quality_review provider model_id context w tr =
    match result w (Config.get_model provider model_id) with
    | Return m =>
        let messages := [SystemMessage Prompts.QUALITY_REVIEWER_SYSTEM_PROMPT;
                         HumanMessage context] in
        (Return (review_text "quality" (llm_invoke w m [] messages)),
         tr ++ [OpModelInvoke m [] messages])
    | Raise e => (Return ("Error during quality review: " +:+ exc_str e), tr)
    end.
Proof.
  unfold LangGraphTools.quality_review, try_except, bind at 1.
  rewrite get_model_pure.
  destruct (result w (Config.get_model provider model_id)) as [m|e]; [|done].
  unfold_py. simpl. by destruct (llm_invoke w m [] _).
Qed.

Lemma security_review_run provider model_id context w tr :
  LangGraphTools.security_review provider model_id context w tr =
    match result w (Config.get_model provider model_id) with
    | Return m =>
        let messages := [SystemMessage Prompts.SECURITY_REVIEWER_SYSTEM_PROMPT;
                         HumanMessage context] in
        (Return (review_text "security" (llm_invoke w m [] messages)),
         tr ++ [OpModelInvoke m [] messages])
    | Raise e => (Return ("Error during security review: " +:+ exc_str e), tr)
    end.
Proof.
  unfold LangGraphTools.security_review, try_except, bind at 1.
  rewrite get_model_pure.
  destruct (result w (Config.get_model provider model_id)) as [m|e]; [|done].
  unfold_py. simpl. by destruct (llm_invoke w m [] _).
Qed.

(** A session that could be built has a model for its reviewers:
    [build_graph] itself calls [get_model] with the same arguments. *)
Lemma build_graph_get_model w repo_path provider model_id g :
  result w (Graph.build_graph repo_path provider model_id) = Return g →
  result w (Config.get_model provider model_id) = Return (Graph.model g).
Proof.
  unfold Graph.build_graph, LangGraphTools.create_tools, result, run.
  unfold bind at 1 2. unfold os_path_realpath, request.
  destruct (fs_realpath w repo_path) as [real|e]; simpl; [|done].
  unfold bind. rewrite get_model_pure.
  destruct (result w (Config.get_model provider model_id)) as [m|e] eqn:E;
    simpl; [|done].
  intros [= <-]. exact E.
Qed.

(** C9. Each specialist action returns a text and never raises,
    whatever the context.  With the reviewer model [m] that
    [get_model] yields, it issues exactly one model call, with no
    tools bound, whose input is its fixed role prompt followed by the
    context; the answer's text is the result, and a failure of that
    call is returned as the text "Error during ... review: ...". *)
Theorem C9_specialist_one_call_never_raises :
  ∀ (w : World) (provider model_id : option string) (context : string),
    (∃ text, result w (LangGraphTools.quality_review provider model_id context)
               = Return text)
    ∧ (∃ text, result w (LangGraphTools.security_review provider model_id
                           context) = Return text)
    ∧ ∀ m, result w (Config.get_model provider model_id) = Return m →
        let quality := [SystemMessage Prompts.QUALITY_REVIEWER_SYSTEM_PROMPT;
                        HumanMessage context] in
        let security := [SystemMessage Prompts.SECURITY_REVIEWER_SYSTEM_PROMPT;
                         HumanMessage context] in
        trace w (LangGraphTools.quality_review provider model_id context)
          = [OpModelInvoke m [] quality]
        ∧ trace w (LangGraphTools.security_review provider model_id context)
          = [OpModelInvoke m [] security]
        ∧ (∀ text calls, llm_invoke w m [] quality = Return (text, calls) →
             result w (LangGraphTools.quality_review provider model_id context)
               = Return text)
        ∧ (∀ e, llm_invoke w m [] quality = Raise e →
             result w (LangGraphTools.quality_review provider model_id context)
               = Return ("Error during quality review: " +:+ exc_str e))
        ∧ (∀ text calls, llm_invoke w m [] security = Return (text, calls) →
             result w (LangGraphTools.security_review provider model_id context)
               = Return text)
        ∧ (∀ e, llm_invoke w m [] security = Raise e →
             result w (LangGraphTools.security_review provider model_id context)
               = Return ("Error during security review: " +:+ exc_str e)).
Proof.
  intros w provider model_id context.
  unfold result at 1 2, trace, run.
  rewrite quality_review_run, security_review_run.
  split; [|split].
  - destruct (result w (Config.get_model provider model_id)); simpl; eauto.
  - destruct (result w (Config.get_model provider model_id)); simpl; eauto.
  - intros m Hm. cbv zeta. unfold result, run in Hm |- *.
    rewrite ?quality_review_run, ?security_review_run.
    unfold result, run. rewrite Hm. simpl.
    repeat split.
    + intros text calls ->. done.
    + intros e ->. done.
    + intros text calls ->. done.
    + intros e ->. done.
Qed.

Lemma C9_witness :
  trace Sample.quiet (LangGraphTools.quality_review None None "the diff")
    = [OpModelInvoke (Config.anthropic_model None) []
         [SystemMessage Prompts.QUALITY_REVIEWER_SYSTEM_PROMPT;
          HumanMessage "the diff"]]
  ∧ result Sample.quiet (LangGraphTools.quality_review None None "the diff")
    = Return "Error during quality review: overloaded".
Proof.
  destruct (C9_specialist_one_call_never_raises Sample.quiet None None
              "the diff") as (_ & _ & H).
  destruct (H (Config.anthropic_model None)) as (Htr & _ & _ & Herr & _);
    [reflexivity|].
  split; [exact Htr | apply (Herr (Exc ProviderError "overloaded"))].
  reflexivity.
Defined.

(** ** The two file toolkits agree *)

(** The agno [read_file] is the closure of [create_tools] run after one
    log entry. *)
Lemma read_file_agno_lg w root p tr :
  FileTools.read_file {| FileTools.repo_path := root |} p w tr
  = LangGraphTools.read_file root p w (tr ++ [OpLog ("Reading file: " +:+ p)]).
Proof.
  unfold FileTools.read_file, LangGraphTools.read_file.
  unfold_py. simpl.
  destruct (fs_realpath w (OsPath.join root p)) as [resolved|e]; [|done].
  destruct (negb (Py.startswith resolved (root +:+ OsPath.sep))
            && negb (bool_decide (resolved = root))); [done|].
  destruct (fs_isfile w resolved); simpl; [|done].
  destruct (fs_getsize w resolved) as [size|e]; [|done].
  destruct (size >? MAX_FILE_SIZE); [|done].
  by rewrite lg_too_large_text.
Qed.

(** The answer of [read_file] does not depend on what was requested
    before it, and its requests are added after those. *)
Lemma lg_read_file_frame w root p tr :
  LangGraphTools.read_file root p w tr
  = (result w (LangGraphTools.read_file root p),
     tr ++ trace w (LangGraphTools.read_file root p)).
Proof.
  unfold LangGraphTools.read_file. unfold_py. simpl.
  destruct (fs_realpath w (OsPath.join root p)) as [resolved|e]; [|done].
  destruct (negb (Py.startswith resolved (root +:+ OsPath.sep))
            && negb (bool_decide (resolved = root))); [done|].
  destruct (fs_isfile w resolved); simpl; [|by rewrite <- !app_assoc].
  destruct (fs_getsize w resolved) as [size|e]; [|by rewrite <- !app_assoc].
  destruct (size >? MAX_FILE_SIZE); [by rewrite <- !app_assoc|].
  destruct (fs_read_text w resolved); by rewrite <- !app_assoc.
Qed.

Lemma kept_agree (d : string) : FileTools.kept d = LangGraphTools.kept d.
Proof. reflexivity. Qed.

Lemma find_file_agno_lg w root name tr :
  FileTools.find_file {| FileTools.repo_path := root |} name w tr
  = LangGraphTools.find_file root name w
      (tr ++ [OpLog ("Searching for file: " +:+ name)]).
Proof. reflexivity. Qed.

Lemma lg_find_file_frame w root name tr :
  LangGraphTools.find_file root name w tr
  = (result w (LangGraphTools.find_file root name),
     tr ++ trace w (LangGraphTools.find_file root name)).
Proof.
  unfold LangGraphTools.find_file, LangGraphTools.find_matches.
  unfold_py. simpl.
  destruct (fs_tree w root) as [top|e]; simpl; [|done].
  by case_match.
Qed.

(** C10. On every world, root and input string, [FileTools.read_file]
    and the [read_file] closure of [create_tools] return the same
    string, and so do the two [find_file]s; they also make the same
    requests, the agno methods after one log entry.  Both toolkits
    derive the root from the path they are given in the same way. *)
Theorem C10_file_toolkits_agree :
  ∀ (w : World) (root input : string),
    let self := {| FileTools.repo_path := root |} in
    result w (FileTools.read_file self input)
      = result w (LangGraphTools.read_file root input)
    ∧ result w (FileTools.find_file self input)
      = result w (LangGraphTools.find_file root input)
    ∧ trace w (FileTools.read_file self input)
      = OpLog ("Reading file: " +:+ input)
        :: trace w (LangGraphTools.read_file root input)
    ∧ trace w (FileTools.find_file self input)
      = OpLog ("Searching for file: " +:+ input)
        :: trace w (LangGraphTools.find_file root input)
    ∧ ∀ repo_path provider model_id,
        outcome_map FileTools.repo_path (result w (FileTools.init repo_path))
          = fs_realpath w repo_path
        ∧ result w (LangGraphTools.create_tools repo_path provider model_id)
          = outcome_map (λ real, LangGraphTools.tools real provider model_id)
              (fs_realpath w repo_path).
Proof.
  intros w root input self. unfold self, result, trace, run.
  rewrite read_file_agno_lg, find_file_agno_lg.
  rewrite (lg_read_file_frame w root input (_ ++ _)).
  rewrite (lg_find_file_frame w root input (_ ++ _)).
  simpl. repeat split.
  - unfold FileTools.init. unfold_py. simpl.
    by destruct (fs_realpath w repo_path).
  - unfold LangGraphTools.create_tools. unfold_py. simpl.
    by destruct (fs_realpath w repo_path).
Qed.

(** ** Dispatch: [tool_node] *)

Lemma run_tool_call_unknown g call id w tr :
  tc_id call = Some id →
  Graph.tools_by_name g !! tc_name call = None →
  Graph.run_tool_call g call w tr
  = (Return (ToolMessage (error_marker (tc_name call) +:+ Py.repr (tc_name call))
               (tc_name call) id), tr).
Proof.
  intros Hid Hn. unfold Graph.run_tool_call, Graph.getitem, error_marker.
  unfold_py. rewrite Hn, Hid. simpl. by rewrite !string_app_assoc.
Qed.

Lemma run_tool_call_raise g call id tool w tr e tr' :
  tc_id call = Some id →
  Graph.tools_by_name g !! tc_name call = Some tool →
  invoke tool (tc_args call) w tr = (Raise e, tr') →
  Graph.run_tool_call g call w tr
  = (Return (ToolMessage (error_marker (tc_name call) +:+ exc_str e)
               (tc_name call) id), tr').
Proof.
  intros Hid Ht Hi. unfold Graph.run_tool_call, Graph.getitem, error_marker.
  unfold_py. rewrite Ht, Hid. simpl. rewrite Hi. simpl.
  by rewrite !string_app_assoc.
Qed.

Lemma run_tool_call_return g call id tool w tr text tr' :
  tc_id call = Some id →
  Graph.tools_by_name g !! tc_name call = Some tool →
  invoke tool (tc_args call) w tr = (Return text, tr') →
  Graph.run_tool_call g call w tr
  = (Return (ToolMessage text (tc_name call) id), tr').
Proof.
  intros Hid Ht Hi. unfold Graph.run_tool_call, Graph.getitem.
  unfold_py. rewrite Ht, Hid. simpl. by rewrite Hi.
Qed.

(** Whatever happens inside, a call that has an id yields one
    observation. *)
Lemma run_tool_call_returns g call w tr :
  has_id call →
  ∃ out tr', Graph.run_tool_call g call w tr = (Return out, tr')
             ∧ answers call out.
Proof.
  intros [id Hid].
  destruct (Graph.tools_by_name g !! tc_name call) as [tool|] eqn:Ht.
  - destruct (invoke tool (tc_args call) w tr) as [[text|e] tr'] eqn:Hi.
    + eexists _, _. split; [by eapply run_tool_call_return|]. by eexists _, _.
    + eexists _, _. split; [by eapply run_tool_call_raise|]. by eexists _, _.
  - eexists _, _. split; [by apply run_tool_call_unknown|]. by eexists _, _.
Qed.

Lemma run_tool_call_result g call id w tr :
  tc_id call = Some id →
  fst (Graph.run_tool_call g call w tr)
  = Return (ToolMessage (action_result w g call tr) (tc_name call) id).
Proof.
  intros Hid. unfold action_result.
  destruct (Graph.tools_by_name g !! tc_name call) as [tool|] eqn:Ht.
  - destruct (invoke tool (tc_args call) w tr) as [[text|e] tr'] eqn:Hi.
    + by rewrite (run_tool_call_return g call id tool w tr text tr').
    + by rewrite (run_tool_call_raise g call id tool w tr e tr').
  - by rewrite (run_tool_call_unknown g call id w tr).
Qed.

(** The [ToolMessage] is built after the [try] statement: what its
    construction raises is not caught.  A call without an id makes
    the dispatch fail, after its tool has run. *)
Lemma run_tool_call_without_id g call w tr :
  tc_id call = None →
  ∃ text tr',
    Graph.run_tool_call g call w tr
    = (Raise (Exc ValidationError
                (validation_text w "ToolMessage"
                   (JObj {[ "content" := JStr text;
                            "name" := JStr (tc_name call);
                            "tool_call_id" := JNull ]}))), tr').
Proof.
  intros Hid. unfold Graph.run_tool_call. rewrite Hid.
  unfold bind, try_except.
  destruct (Graph.getitem (Graph.tools_by_name g) (tc_name call) w tr)
    as [[tool|e] tr1]; [|by eexists _, _].
  destruct (invoke tool (tc_args call) w tr1) as [[text|e] tr2];
    by eexists _, _.
Qed.

Lemma for_each_returns {A B} (f : A → M B) (P : A → Prop) (R : A → B → Prop) :
  (∀ x w tr, P x → ∃ y tr', f x w tr = (Return y, tr') ∧ R x y) →
  ∀ xs w tr, Forall P xs →
    ∃ ys tr', for_each f xs w tr = (Return ys, tr') ∧ Forall2 R xs ys.
Proof.
  intros Hf xs. induction xs as [|x xs IH]; intros w tr HP; simpl.
  - eexists [], tr. split; [done | constructor].
  - apply Forall_cons in HP as [Hx HP].
    destruct (Hf x w tr Hx) as (y & tr1 & Hy & HR).
    destruct (IH w tr1 HP) as (ys & tr2 & Hys & HRs).
    exists (y :: ys), tr2. split; [|by constructor].
    rewrite (bind_return _ _ _ _ _ _ Hy).
    rewrite (bind_return _ _ _ _ _ _ Hys). done.
Qed.

(** Each result of a loop is the result of its own item, run where
    the items before it left off. *)
Lemma for_each_lookup {A B} (f : A → M B) xs w tr ys tr' :
  for_each f xs w tr = (Return ys, tr') →
  ∀ i x, xs !! i = Some x →
    ∃ y, ys !! i = Some y
         ∧ fst (f x w (snd (for_each f (take i xs) w tr))) = Return y.
Proof.
  revert tr ys. induction xs as [|x0 xs IH]; intros tr ys Hrun i x Hi.
  - done.
  - simpl in Hrun. unfold bind at 1 in Hrun.
    destruct (f x0 w tr) as [[y0|e] tr1] eqn:Hy0; [|done].
    unfold bind at 1 in Hrun.
    destruct (for_each f xs w tr1) as [[ys'|e] tr2] eqn:Hrest; [|done].
    unfold ret in Hrun. injection Hrun as <- <-.
    destruct i as [|i]; simpl in Hi.
    + injection Hi as <-. exists y0. split; [done|].
      simpl. unfold ret. simpl. by rewrite Hy0.
    + destruct (IH tr1 ys' Hrest i x Hi) as (y & Hy & Hfx).
      exists y. split; [done|].
      simpl. unfold bind at 1. rewrite Hy0.
      unfold bind at 1.
      destruct (for_each f (take i xs) w tr1) as [[zs|e] tr3]; done.
Qed.

Lemma tool_node_for_each g state content calls w tr :
  last state = Some (AIMessage content calls) →
  Graph.tool_node g state w tr = for_each (Graph.run_tool_call g) calls w tr.
Proof.
  intros Hl. unfold Graph.tool_node, Graph.last_message. rewrite Hl.
  unfold bind at 1 2. unfold ret at 1. done.
Qed.

Lemma tool_node_returns g state content calls w tr :
  last state = Some (AIMessage content calls) →
  Forall has_id calls →
  ∃ outs tr', Graph.tool_node g state w tr = (Return outs, tr')
              ∧ Forall2 answers calls outs.
Proof.
  intros Hl Hids. rewrite (tool_node_for_each g state content calls w tr Hl).
  apply (for_each_returns (Graph.run_tool_call g) has_id answers); [|done].
  intros x w' tr'. apply run_tool_call_returns.
Qed.

(** Observations of unregistered names, position by position. *)
Lemma for_each_unknown g calls w tr outs tr' :
  for_each (Graph.run_tool_call g) calls w tr = (Return outs, tr') →
  Forall2 (λ call out,
             Graph.tools_by_name g !! tc_name call = None →
             ∃ id, tc_id call = Some id
                   ∧ out = ToolMessage
                             (error_marker (tc_name call)
                              +:+ Py.repr (tc_name call))
                             (tc_name call) id) calls outs.
Proof.
  revert tr outs. induction calls as [|call calls IH]; intros tr outs; simpl.
  - unfold ret. intros [= <-]. constructor.
  - unfold bind at 1.
    destruct (Graph.run_tool_call g call w tr) as [[out|e] tr1] eqn:Ho; [|done].
    unfold bind at 1.
    destruct (for_each (Graph.run_tool_call g) calls w tr1)
      as [[outs'|e] tr2] eqn:Hrest; [|done].
    unfold ret. intros [= <- <-].
    constructor; [|by eapply IH].
    intros Hn. destruct (tc_id call) as [id|] eqn:Hid.
    + exists id. split; [done|].
      rewrite (run_tool_call_unknown g call id w tr Hid Hn) in Ho.
      by injection Ho as <-.
    + destruct (run_tool_call_without_id g call w tr Hid) as (? & ? & Hr).
      rewrite Hr in Ho. done.
Qed.

(** Arguments that are not a whole tool call are the input of the
    tool as they are. *)
Lemma invoke_plain tool args w tr :
  is_tool_call args = false →
  invoke tool args w tr = run_tool tool (JObj args) w tr.
Proof.
  intros Hp. unfold invoke, prep_run_args. rewrite Hp.
  unfold bind at 1. unfold ret at 1. simpl. unfold bind, format_output, ret.
  by destruct (run_tool tool (JObj args) w tr) as [[text|e] tr'].
Qed.

(** A whole tool call: the tool runs on the arguments inside. *)
Lemma invoke_tool_call tool input id inner w tr :
  is_tool_call input = true →
  input !! "id" = Some id →
  input !! "args" = Some (JObj inner) →
  invoke tool input w tr
  = match run_tool tool (JObj inner) w tr with
    | (Return content, tr') =>
        (match id with
         | JNull => Return content
         | _ => tool_message_text w (tool_name tool) id content
         end, tr')
    | (Raise e, tr') => (Raise e, tr')
    end.
Proof.
  intros Hc Hid Ha. unfold invoke, prep_run_args, item, copy. rewrite Hc, Hid, Ha.
  unfold bind, ret. simpl.
  destruct (run_tool tool (JObj inner) w tr) as [[content|e] tr']; [|done].
  unfold format_output, ret. by destruct id.
Qed.

Lemma run_tool_validation tool tool_input w tr :
  (∃ p f, tool_body tool = Tool1 p f ∧ str_arg tool_input p = None)
  ∨ (∃ p q f, tool_body tool = Tool2 p q f
              ∧ (str_arg tool_input p = None ∨ str_arg tool_input q = None)) →
  run_tool tool tool_input w tr
  = (Raise (Exc ValidationError
              (validation_text w (tool_name tool) tool_input)), tr).
Proof.
  intros [(p & f & Hb & Hf) | (p & q & f & Hb & Hf)]; unfold run_tool;
    rewrite Hb.
  - by rewrite Hf.
  - destruct Hf as [-> | ->]; [done|]. by destruct (str_arg tool_input p).
Qed.

(** C2, as stated, fails on a request that carries no id (langchain
    allows a tool call without one): the observation is built after
    the [try] statement, its construction raises, and the exception
    leaves [tool_node].  Here the name is not registered either. *)
Lemma C2_counterexample :
  Graph.tools_by_name Sample.graph !! "delete_repo" = None
  ∧ result Sample.quiet
      (Graph.tool_node Sample.graph
         [HumanMessage "review";
          AIMessage EmptyString
            [{| tc_name := "delete_repo"; tc_args := ∅; tc_id := None |}]])
    = Raise (Exc ValidationError "1 validation error for ToolMessage").
Proof. split; reflexivity. Qed.

(** C2, amended.  After a coordinator message whose requests carry an
    id, [tool_node] returns (it raises nothing) one observation per
    request, carrying the name and the id of its request.  For a name
    that is not registered the observation's text is
    "Error executing tool '<name>': " followed by the text of the
    [KeyError]; the same marker precedes the text of any exception
    that leaves the invoked tool, whether raised by its body or by the
    validation of its arguments.  Arguments that lack a parameter, or
    give it a value that is not a string, fail that validation before
    the body runs: both when they come as they are and when they come
    inside a whole tool call. *)
Theorem C2_dispatch_errors_become_observations :
  ∀ (w : World) (g : Graph.t),
    (∀ state content calls,
       last state = Some (AIMessage content calls) →
       Forall has_id calls →
       ∃ outs, result w (Graph.tool_node g state) = Return outs
         ∧ Forall2 (λ call out,
                      ∃ id, tc_id call = Some id
                        ∧ (∃ text, out = ToolMessage text (tc_name call) id)
                        ∧ (Graph.tools_by_name g !! tc_name call = None →
                             out = ToolMessage
                                     ("Error executing tool '" +:+ tc_name call
                                      +:+ "': " +:+ Py.repr (tc_name call))
                                     (tc_name call) id))
                   calls outs)
    ∧ (∀ call id tool tr e tr',
         tc_id call = Some id →
         Graph.tools_by_name g !! tc_name call = Some tool →
         invoke tool (tc_args call) w tr = (Raise e, tr') →
         Graph.run_tool_call g call w tr
         = (Return (ToolMessage ("Error executing tool '" +:+ tc_name call
                                 +:+ "': " +:+ exc_str e)
                      (tc_name call) id), tr'))
    ∧ (∀ tool input tool_input tr,
         (is_tool_call input = false ∧ tool_input = JObj input)
         ∨ (is_tool_call input = true
            ∧ (∃ id, input !! "id" = Some id)
            ∧ ∃ inner, input !! "args" = Some (JObj inner)
                       ∧ tool_input = JObj inner) →
         (∃ p f, tool_body tool = Tool1 p f ∧ str_arg tool_input p = None)
         ∨ (∃ p q f, tool_body tool = Tool2 p q f
                     ∧ (str_arg tool_input p = None
                        ∨ str_arg tool_input q = None)) →
         invoke tool input w tr
         = (Raise (Exc ValidationError
                     (validation_text w (tool_name tool) tool_input)), tr)).
Proof.
  intros w g. split; [|split].
  - intros state content calls Hl Hids.
    destruct (tool_node_returns g state content calls w [] Hl Hids)
      as (outs & tr' & Hrun & Hans).
    exists outs. unfold result, run. rewrite Hrun. split; [done|].
    rewrite (tool_node_for_each g state content calls w [] Hl) in Hrun.
    apply for_each_unknown in Hrun.
    clear Hl Hids. revert Hrun.
    induction Hans as [|call out calls outs Ha Has IH]; intros Hfor.
    + constructor.
    + inversion Hfor as [|? ? ? ? Hu Hus]; subst.
      constructor; [|by apply IH].
      destruct Ha as (text & id & Hid & ->).
      exists id. split; [done|]. split; [by eexists|].
      intros Hn. destruct (Hu Hn) as (id' & Hid' & ->).
      rewrite Hid in Hid'. injection Hid' as <-.
      unfold error_marker. by rewrite !string_app_assoc.
  - intros call id tool tr e tr' Hid Ht Hi.
    rewrite (run_tool_call_raise g call id tool w tr e tr' Hid Ht Hi).
    unfold error_marker. by rewrite !string_app_assoc.
  - intros tool input tool_input tr Hin Hmiss.
    destruct Hin as [[Hp ->] | (Hc & [id Hid] & inner & Ha & ->)].
    + rewrite (invoke_plain tool input w tr Hp).
      by apply run_tool_validation.
    + rewrite (invoke_tool_call tool input id inner w tr Hc Hid Ha).
      by rewrite (run_tool_validation tool (JObj inner) w tr Hmiss).
Qed.

Lemma C2_witness :
  result Sample.quiet
    (Graph.tool_node Sample.graph
       [HumanMessage "review"; AIMessage EmptyString
                                 [Sample.call "delete_repo" "call_9"]])
  = Return [ToolMessage "Error executing tool 'delete_repo': 'delete_repo'"
              "delete_repo" "call_9"].
Proof.
  destruct (C2_dispatch_errors_become_observations Sample.quiet Sample.graph)
    as (Hnode & _).
  destruct (Hnode [HumanMessage "review";
                   AIMessage EmptyString [Sample.call "delete_repo" "call_9"]]
              EmptyString [Sample.call "delete_repo" "call_9"])
    as (outs & Hres & Hall);
    [reflexivity | repeat constructor; by eexists |].
  rewrite Hres. f_equal.
  inversion Hall as [|call out calls outs' (id & Hid & _ & Hu) Hnil]; subst.
  inversion Hnil; subst.
  injection Hid as <-.
  rewrite Hu; [reflexivity | vm_compute; reflexivity].
Defined.

(** ** Routing: [should_continue] and the edges of the graph *)

Lemma should_continue_after_ai state content calls w tr :
  last state = Some (AIMessage content calls) →
  Graph.should_continue state w tr
  = (Return (match calls with [] => Graph.END | _ :: _ => "tools" end), tr).
Proof.
  intros Hl. unfold Graph.should_continue, Graph.last_message. rewrite Hl.
  unfold_py. simpl. by destruct calls.
Qed.

Lemma judge_step g w history text calls tr :
  llm_invoke w (Graph.model g) (Graph.bound_tools g)
    (SystemMessage Prompts.JUDGE_SYSTEM_PROMPT :: history) = Return (text, calls) →
  Graph.step g Graph.judge history w tr
  = (Return (match calls with [] => Graph.END_ | _ :: _ => Graph.tools end,
             history ++ [AIMessage text calls]),
     tr ++ [OpModelInvoke (Graph.model g) (Graph.bound_tools g)
              (SystemMessage Prompts.JUDGE_SYSTEM_PROMPT :: history)]).
Proof.
  intros Hm. unfold Graph.step, Graph.judge_node.
  unfold bind at 1 2. unfold model_invoke, request. rewrite Hm.
  unfold ret at 1. unfold bind at 1.
  rewrite (should_continue_after_ai _ text calls);
    [|unfold Graph.add_messages; simpl; by rewrite last_snoc].
  unfold Graph.path_map, Graph.add_messages. destruct calls; done.
Qed.

(** C3. After a coordinator message, [should_continue] returns "tools"
    exactly when the message carries at least one requested action and
    [END] exactly when it carries none; and the judge step of the
    graph, given the coordinator's answer, moves to the [tools] node in
    the first case and to [END] in the second. *)
Theorem C3_next_state_by_requested_actions :
  ∀ (w : World) (g : Graph.t) (state : list Message) (content : string)
    (calls : list ToolCall),
    last state = Some (AIMessage content calls) →
    (result w (Graph.should_continue state) = Return "tools"
       ↔ (length calls > 0)%nat)
    ∧ (result w (Graph.should_continue state) = Return Graph.END
       ↔ length calls = 0%nat)
    ∧ (∀ history,
         llm_invoke w (Graph.model g) (Graph.bound_tools g)
           (SystemMessage Prompts.JUDGE_SYSTEM_PROMPT :: history)
           = Return (content, calls) →
         result w (Graph.step g Graph.judge history)
         = Return (if bool_decide (0 < length calls)%nat
                   then Graph.tools else Graph.END_,
                   history ++ [AIMessage content calls])).
Proof.
  intros w g state content calls Hl.
  unfold result, run. rewrite (should_continue_after_ai state content calls w [] Hl).
  split; [|split].
  - destruct calls; simpl; split; (done || lia).
  - destruct calls; simpl; split; (done || lia).
  - intros history Hm. rewrite (judge_step g w history content calls [] Hm).
    by destruct calls.
Qed.

Lemma C3_witness :
  result Sample.quiet
    (Graph.should_continue
       [HumanMessage "review"; AIMessage "APPROVE" []]) = Return Graph.END
  ∧ result Sample.busy
      (Graph.should_continue
         [HumanMessage "review";
          AIMessage EmptyString [Sample.call "get_branches" "call_1"]])
    = Return "tools".
Proof.
  split.
  - apply (C3_next_state_by_requested_actions Sample.quiet Sample.graph
             [HumanMessage "review"; AIMessage "APPROVE" []] "APPROVE" []);
      reflexivity.
  - apply (C3_next_state_by_requested_actions Sample.busy Sample.graph
             [HumanMessage "review";
              AIMessage EmptyString [Sample.call "get_branches" "call_1"]]
             EmptyString [Sample.call "get_branches" "call_1"]);
      [reflexivity | simpl; lia].
Defined.

(** ** One round: growth of the history *)

Lemma tools_step g state content calls w tr :
  last state = Some (AIMessage content calls) →
  Forall has_id calls →
  ∃ outs tr', Graph.step g Graph.tools state w tr
              = (Return (Graph.judge, state ++ outs), tr')
              ∧ Graph.tool_node g state w tr = (Return outs, tr')
              ∧ Forall2 answers calls outs.
Proof.
  intros Hl Hids.
  destruct (tool_node_returns g state content calls w tr Hl Hids)
    as (outs & tr' & Hrun & Hans).
  exists outs, tr'. split; [|done].
  unfold Graph.step. by rewrite (bind_return _ _ _ _ _ _ Hrun).
Qed.

(** *** The loop of the graph, case by case *)

Section Drive.
Variables (g : Graph.t) (w : World).

Lemma drive_over fuel done node state tr :
  (Graph.DEFAULT_RECURSION_LIMIT ≤ done)%nat →
  Graph.drive g fuel done node state w tr
  = (Raise (Exc GraphRecursionError (recursion_text w)), tr).
Proof.
  intros Hle. apply Nat.leb_le in Hle.
  destruct fuel; cbn [Graph.drive]; by rewrite Hle.
Qed.

Lemma drive_END fuel done state tr :
  (done < Graph.DEFAULT_RECURSION_LIMIT)%nat →
  Graph.drive g fuel done Graph.END_ state w tr
  = (Return (Graph.END_, state), tr).
Proof.
  intros Hlt. apply Nat.leb_gt in Hlt.
  destruct fuel; cbn [Graph.drive]; by rewrite Hlt.
Qed.

Lemma drive_pause done node state tr :
  (done < Graph.DEFAULT_RECURSION_LIMIT)%nat →
  Graph.drive g 0 done node state w tr
  = (Return (node, state), tr).
Proof.
  intros Hlt. apply Nat.leb_gt in Hlt.
  cbn [Graph.drive]. rewrite Hlt. by destruct node.
Qed.

Lemma drive_step fuel done node state tr :
  (done < Graph.DEFAULT_RECURSION_LIMIT)%nat →
  node ≠ Graph.END_ →
  Graph.drive g (S fuel) done node state w tr
  = match Graph.step g node state w tr with
    | (Return next, tr') =>
        Graph.drive g fuel (S done) (fst next) (snd next) w tr'
    | (Raise e, tr') => (Raise e, tr')
    end.
Proof.
  intros Hlt Hn. apply Nat.leb_gt in Hlt.
  cbn [Graph.drive]. rewrite Hlt.
  destruct node; [| |done]; unfold bind at 1;
    by destruct (Graph.step g _ state w tr) as [[next|e] tr'].
Qed.

Lemma run_from_drive fuel node state tr :
  Graph.run_from g fuel node state w tr
  = match Graph.drive g fuel 0 node state w tr with
    | (Return (Graph.END_, final), tr') => (Return (Some final), tr')
    | (Return (_, _), tr') => (Return None, tr')
    | (Raise e, tr') => (Raise e, tr')
    end.
Proof.
  unfold Graph.run_from, bind, ret.
  by destruct (Graph.drive g fuel 0 node state w tr) as [[[[]]|]].
Qed.

End Drive.

(** As many observations carry an id as requests do. *)
Lemma correlated_count calls outs id :
  Forall2 answers calls outs →
  length (List.filter (correlated id) outs)
  = length (List.filter (requested id) calls).
Proof.
  induction 1 as [|call out calls outs (text & i & Hi & ->) _ IH]; [done|].
  simpl. unfold requested at 1. rewrite Hi.
  destruct (decide (i = id)) as [->|Hne].
  - rewrite !bool_decide_eq_true_2 by done. simpl. by rewrite IH.
  - rewrite !bool_decide_eq_false_2 by congruence. done.
Qed.

Lemma requested_once calls call id :
  NoDup (tc_id <$> calls) → call ∈ calls → tc_id call = Some id →
  length (List.filter (requested id) calls) = 1%nat.
Proof.
  induction calls as [|c calls IH]; intros Hnd Hin Hid.
  - by apply elem_of_nil in Hin.
  - rewrite fmap_cons in Hnd. apply NoDup_cons in Hnd as [Hc Hnd].
    assert (∀ c', c' ∈ calls → tc_id c' ≠ tc_id c) as Hfresh.
    { intros c' Hc' Heq. apply Hc. rewrite <- Heq.
      apply list_elem_of_fmap. eauto. }
    simpl. unfold requested at 1.
    apply elem_of_cons in Hin as [<- | Hin].
    + rewrite bool_decide_eq_true_2 by done. simpl. f_equal.
      clear IH Hnd Hc. induction calls as [|c' calls IH']; [done|].
      simpl. unfold requested at 1.
      rewrite bool_decide_eq_false_2.
      * apply IH'. intros c'' Hc''. apply Hfresh. by right.
      * rewrite <- Hid. apply Hfresh. by left.
    + rewrite bool_decide_eq_false_2; [by apply IH|].
      rewrite <- Hid. intros Heq. by apply (Hfresh call Hin).
Qed.

(** C4, as stated, fails when a request carries no id (langchain
    allows a tool call without one): the [tools] step raises, after
    the tools have run, and no observation at all is appended, not
    even for the request that has an id. *)
Lemma C4_counterexample :
  result Sample.busy
    (Graph.step Sample.graph Graph.tools
       [HumanMessage "review";
        AIMessage EmptyString
          [Sample.call "get_branches" "call_1";
           {| tc_name := "get_branches"; tc_args := ∅; tc_id := None |}]])
  = Raise (Exc ValidationError "1 validation error for ToolMessage")
  ∧ trace Sample.busy
      (Graph.step Sample.graph Graph.tools
         [HumanMessage "review";
          AIMessage EmptyString
            [Sample.call "get_branches" "call_1";
             {| tc_name := "get_branches"; tc_args := ∅; tc_id := None |}]])
    = [OpSubprocess ["git"; "branch"; "-a"; "--format=%(refname:short)"]
         "/repo";
       OpSubprocess ["git"; "branch"; "-a"; "--format=%(refname:short)"]
         "/repo"].
Proof. split; reflexivity. Qed.

(** C4, amended.  In a round whose first coordinator message requests no
    action, the history grows by exactly two entries: the user message
    and that coordinator message.  And after a coordinator message
    whose requests carry an id, the [tools] step appends, before
    control returns to the judge, one observation per request, in
    order: the observation at the place of a request carries the name
    and the id of that request, and its text is the result of the
    action that request names, run on the arguments of that request
    after the requests before it have been dispatched.  So an id is carried by exactly as many
    observations as requests, hence by exactly one when the ids of the
    requests are distinct. *)
Theorem C4_history_growth_and_correlation :
  ∀ (w : World) (g : Graph.t),
    (∀ history user_text text fuel,
       llm_invoke w (Graph.model g) (Graph.bound_tools g)
         (SystemMessage Prompts.JUDGE_SYSTEM_PROMPT
            :: history ++ [HumanMessage user_text]) = Return (text, []) →
       result w (Graph.round g history user_text (S fuel))
         = Return (Some (history ++ [HumanMessage user_text; AIMessage text []]))
       ∧ length (history ++ [HumanMessage user_text; AIMessage text []])
         = (length history + 2)%nat)
    ∧ (∀ state content calls,
         last state = Some (AIMessage content calls) →
         Forall has_id calls →
         ∃ outs,
           result w (Graph.step g Graph.tools state)
             = Return (Graph.judge, state ++ outs)
           ∧ length outs = length calls
           ∧ (∀ i call, calls !! i = Some call →
                ∃ id,
                  tc_id call = Some id
                  ∧ outs !! i
                    = Some (ToolMessage
                              (action_result w g call
                                 (trace_of_calls w g (take i calls)))
                              (tc_name call) id))
           ∧ (∀ id, length (List.filter (correlated id) outs)
                    = length (List.filter (requested id) calls))
           ∧ (NoDup (tc_id <$> calls) →
              ∀ call id, call ∈ calls → tc_id call = Some id →
                length (List.filter (correlated id) outs) = 1%nat)).
Proof.
  intros w g. split.
  - intros history user_text text fuel Hm. split.
    + unfold result, run, Graph.round, Graph.add_messages.
      rewrite run_from_drive, drive_step by (done || vm_compute; lia).
      rewrite (judge_step g w _ text [] [] Hm). cbn [fst snd].
      rewrite drive_END by (vm_compute; lia). by rewrite <- app_assoc.
    + rewrite length_app. simpl. lia.
  - intros state content calls Hl Hids.
    destruct (tools_step g state content calls w [] Hl Hids)
      as (outs & tr' & Hstep & Hnode & Hans).
    exists outs. unfold result, run. rewrite Hstep.
    split; [done|]. split; [symmetry; by eapply Forall2_length|].
    split; [|split].
    + intros i call Hi.
      rewrite (tool_node_for_each g state content calls w [] Hl) in Hnode.
      destruct (for_each_lookup _ _ _ _ _ _ Hnode i call Hi)
        as (out & Hout & Hobs).
      destruct (Forall2_lookup_lr _ _ _ _ _ _ Hans Hi Hout)
        as (text & id & Hid & ->).
      exists id. split; [done|].
      rewrite (run_tool_call_result g call id w _ Hid) in Hobs.
      injection Hobs as <-. exact Hout.
    + intros id. by apply correlated_count.
    + intros Hnd call id Hin Hid.
      rewrite (correlated_count calls outs _ Hans).
      by eapply requested_once.
Qed.

Lemma C4_witness :
  result Sample.quiet (Graph.round Sample.graph [] "review" 1)
    = Return (Some [HumanMessage "review"; AIMessage "APPROVE" []])
  ∧ ∃ outs,
      result Sample.busy
        (Graph.step Sample.graph Graph.tools
           [HumanMessage "review";
            AIMessage EmptyString [Sample.call "get_branches" "call_1"]])
      = Return (Graph.judge,
                [HumanMessage "review";
                 AIMessage EmptyString [Sample.call "get_branches" "call_1"]]
                ++ outs)
      ∧ outs !! 0%nat = Some (ToolMessage "main" "get_branches" "call_1")
      ∧ length (List.filter (correlated "call_1") outs) = 1%nat.
Proof.
  split.
  - destruct (C4_history_growth_and_correlation Sample.quiet Sample.graph)
      as (Hround & _).
    apply (Hround [] "review" "APPROVE" 0%nat). reflexivity.
  - destruct (C4_history_growth_and_correlation Sample.busy Sample.graph)
      as (_ & Hstep).
    destruct (Hstep [HumanMessage "review";
                     AIMessage EmptyString
                       [Sample.call "get_branches" "call_1"]]
                EmptyString [Sample.call "get_branches" "call_1"])
      as (outs & Hres & _ & Hobs & _ & Hone);
      [reflexivity | repeat constructor; by eexists |].
    exists outs. split; [exact Hres|]. split.
    + destruct (Hobs 0%nat (Sample.call "get_branches" "call_1"))
        as (id & Hid & Hout); [reflexivity|].
      injection Hid as <-. exact Hout.
    + apply (Hone ltac:(repeat constructor; rewrite elem_of_nil; tauto)
               (Sample.call "get_branches" "call_1") "call_1");
        [apply list_elem_of_here | reflexivity].
Defined.

(** ** The loop and the step budget *)







(** ** What the actions ask git to write *)

(** The file accessors and the reviewers start no process at all. *)
Lemma read_file_writes_nothing w root p :
  files_written_by (trace w (LangGraphTools.read_file root p)) = [].
Proof.
  unfold LangGraphTools.read_file. unfold_py. simpl.
  destruct (fs_realpath w (OsPath.join root p)) as [resolved|e]; [|done].
  destruct (negb (Py.startswith resolved (root +:+ OsPath.sep))
            && negb (bool_decide (resolved = root))); [done|].
  destruct (fs_isfile w resolved); simpl; [|done].
  destruct (fs_getsize w resolved) as [size|e]; [|done].
  destruct (size >? MAX_FILE_SIZE); [done|].
  by destruct (fs_read_text w resolved).
Qed.

Lemma find_file_writes_nothing w root name :
  files_written_by (trace w (LangGraphTools.find_file root name)) = [].
Proof.
  unfold LangGraphTools.find_file, LangGraphTools.find_matches.
  unfold_py. simpl.
  destruct (fs_tree w root) as [top|e]; simpl; [|done]. by case_match.
Qed.

Lemma reviews_write_nothing w provider model_id context :
  files_written_by
    (trace w (LangGraphTools.quality_review provider model_id context)) = []
  ∧ files_written_by
      (trace w (LangGraphTools.security_review provider model_id context)) = [].
Proof.
  unfold trace, run. rewrite quality_review_run, security_review_run.
  by destruct (result w (Config.get_model provider model_id)).
Qed.

Lemma get_branches_writes_nothing w root :
  files_written_by (trace w (LangGraphTools.get_branches root)) = [].
Proof.
  unfold LangGraphTools.get_branches. unfold_py. simpl.
  by destruct (proc_run w _ root) as [[]|].
Qed.

(** A branch argument that does not begin with a dash is not read by
    git as the [--output] option. *)
Lemma get_diff_plain_target w root source target :
  Py.startswith target "-" = false →
  files_written_by (trace w (LangGraphTools.get_diff root source target)) = []
  ∧ files_written_by
      (trace w (LangGraphTools.get_changed_files root source target)) = [].
Proof.
  intros Hd.
  assert (Git.output_file (target +:+ "..." +:+ source) = None) as Hnone.
  { unfold Git.output_file, Py.startswith in *.
    destruct target as [|c target]; [by vm_compute|].
    change (String.prefix "-" (String c target))
      with (if ascii_dec "-" c then String.prefix EmptyString target else false)
      in Hd.
    change (String.prefix Git.output_option
              (String c target +:+ "..." +:+ source))
      with (if ascii_dec "-" c
            then String.prefix "-output=" (target +:+ "..." +:+ source)
            else false).
    destruct (ascii_dec "-" c); [by destruct target | done]. }
  unfold LangGraphTools.get_diff, LangGraphTools.get_changed_files.
  unfold_py. simpl.
  split.
  - destruct (proc_run w _ root) as [[out ?|? ? ?]|];
      simpl; [destruct (negb _)| |]; simpl; by rewrite Hnone.
  - destruct (proc_run w _ root) as [[out ?|? ? ?]|];
      simpl; by rewrite Hnone.
Qed.

Lemma registry_get_diff repo provider model_id :
  Graph.by_name (LangGraphTools.tools repo provider model_id) !! "get_diff"
  = Some {| tool_name := "get_diff";
            tool_body := Tool2 "source_branch" "target_branch"
                           (LangGraphTools.get_diff repo) |}.
Proof.
  unfold Graph.by_name, LangGraphTools.tools. simpl.
  rewrite !lookup_insert_ne by done. apply lookup_insert_eq.
Qed.

Lemma invoke_get_diff repo source target w tr :
  invoke {| tool_name := "get_diff";
            tool_body := Tool2 "source_branch" "target_branch"
                           (LangGraphTools.get_diff repo) |}
         {[ "source_branch" := JStr source; "target_branch" := JStr target ]}
         w tr
  = LangGraphTools.get_diff repo source target w tr.
Proof.
  rewrite invoke_plain by reflexivity.
  unfold run_tool, str_arg, str_field. simpl.
  rewrite lookup_insert_eq.
  rewrite lookup_insert_ne by done. by rewrite lookup_singleton_eq.
Qed.

Lemma get_diff_trace w repo source target tr :
  snd (LangGraphTools.get_diff repo source target w tr)
  = tr ++ [OpSubprocess ["git"; "diff"; target +:+ "..." +:+ source] repo].
Proof.
  unfold LangGraphTools.get_diff. unfold_py.
  by destruct (proc_run w _ repo) as [[out ?|? ? ?]|];
    simpl; [destruct (negb _)| |].
Qed.

Lemma get_changed_files_trace w repo source target tr :
  snd (LangGraphTools.get_changed_files repo source target w tr)
  = tr ++ [OpSubprocess ["git"; "diff"; "--name-only";
                         target +:+ "..." +:+ source] repo].
Proof.
  unfold LangGraphTools.get_changed_files. unfold_py.
  by destruct (proc_run w _ repo) as [[out ?|? ? ?]|].
Qed.

(** C7 (defect in the code).  [get_diff] and [get_changed_files] place
    their branch arguments on git's command line as they come.  With
    the target branch "--output=pwned" and the source branch "x", the
    command run in the repository directory is
    [git diff --output=pwned...x], whatever the world: git is asked to
    create the file [pwned...x] there.  The same command line results
    when the call is dispatched by [tool_node] from the registry. *)
Theorem C7_branch_argument_reaches_git_as_option :
  ∀ (w : World) (repo : string) (provider model_id : option string),
    trace w (LangGraphTools.get_diff repo "x" "--output=pwned")
      = [OpSubprocess ["git"; "diff"; "--output=pwned...x"] repo]
    ∧ trace w (LangGraphTools.get_changed_files repo "x" "--output=pwned")
      = [OpSubprocess ["git"; "diff"; "--name-only"; "--output=pwned...x"] repo]
    ∧ trace w (GitTools.get_diff (GitTools.init repo) "x" "--output=pwned")
      = [OpLog "Getting diff: --output=pwned...x";
         OpSubprocess ["git"; "diff"; "--output=pwned...x"] repo]
    ∧ files_written_by
        (trace w (LangGraphTools.get_diff repo "x" "--output=pwned"))
      = [(repo, "pwned...x")]
    ∧ files_written_by
        (trace w (GitTools.get_changed_files (GitTools.init repo) "x"
                    "--output=pwned"))
      = [(repo, "pwned...x")]
    ∧ files_written_by
        (trace w
           (Graph.run_tool_call
              {| Graph.tools_by_name :=
                   Graph.by_name (LangGraphTools.tools repo provider model_id);
                 Graph.model := Config.anthropic_model None;
                 Graph.bound_tools := [] |}
              {| tc_name := "get_diff";
                 tc_args := {[ "source_branch" := JStr "x";
                               "target_branch" := JStr "--output=pwned" ]};
                 tc_id := Some "call_1" |}))
      = [(repo, "pwned...x")].
Proof.
  intros w repo provider model_id.
  assert (trace w (LangGraphTools.get_diff repo "x" "--output=pwned")
          = [OpSubprocess ["git"; "diff"; "--output=pwned...x"] repo]) as Hd.
  { unfold trace, run. by rewrite get_diff_trace. }
  assert (trace w (LangGraphTools.get_changed_files repo "x" "--output=pwned")
          = [OpSubprocess ["git"; "diff"; "--name-only"; "--output=pwned...x"]
               repo]) as Hc.
  { unfold trace, run. by rewrite get_changed_files_trace. }
  split; [exact Hd|]. split; [exact Hc|]. split; [|split; [|split]].
  - unfold GitTools.get_diff, GitTools.init. unfold_py. simpl.
    by destruct (proc_run w _ repo) as [[out ?|? ? ?]|];
      simpl; [destruct (negb _)| |].
  - by rewrite Hd.
  - unfold GitTools.get_changed_files, GitTools.init. unfold_py. simpl.
    by destruct (proc_run w _ repo) as [[out ?|? ? ?]|].
  - set (g := {| Graph.tools_by_name := _ |}).
    set (call := {| tc_name := "get_diff" |}).
    pose proof (get_diff_trace w repo "x" "--output=pwned" []) as Htr.
    destruct (LangGraphTools.get_diff repo "x" "--output=pwned" w [])
      as [[text|e] tr'] eqn:Hrun; simpl in Htr; subst tr'.
    + unfold trace, run.
      rewrite <- (invoke_get_diff repo) in Hrun.
      by rewrite (run_tool_call_return g call "call_1" _ w [] text _ eq_refl
                    (registry_get_diff repo provider model_id) Hrun).
    + unfold trace, run.
      rewrite <- (invoke_get_diff repo) in Hrun.
      by rewrite (run_tool_call_raise g call "call_1" _ w [] e _ eq_refl
                    (registry_get_diff repo provider model_id) Hrun).
Qed.

(** * Further properties of the code *)

(** ** [read_file]: what it answers and what it touches *)

Lemma prefix_spec (p s : string) :
  String.prefix p s = true ↔ ∃ rest, s = p +:+ rest.
Proof.
  split.
  - revert s. induction p as [|c p IH]; intros s H.
    + by exists s.
    + destruct s as [|d s]; [done|].
      change (String.prefix (String c p) (String d s))
        with (if ascii_dec c d then String.prefix p s else false) in H.
      destruct (ascii_dec c d) as [->|]; [|done].
      destruct (IH s H) as [rest ->]. by exists rest.
  - intros [rest ->]. induction p as [|c p IH]; [by destruct rest|].
    change (String.prefix (String c p) (String c (p +:+ rest)) = true).
    simpl. destruct (ascii_dec c c); [exact IH | done].
Qed.

Lemma app_empty_r (s : string) : s +:+ EmptyString = s.
Proof.
  induction s as [|c s IH]; [done|].
  change (String c (s +:+ EmptyString) = String c s). by f_equal.
Qed.

Lemma app_cancel_l (p a b : string) : p +:+ a = p +:+ b → a = b.
Proof.
  induction p as [|c p IH]; [done|].
  change (String c (p +:+ a) = String c (p +:+ b) → a = b).
  intros [= H]. by apply IH.
Qed.

(** The guard lets a canonical path through exactly when it is the
    root or the root followed by a separator and more. *)
Lemma inside_iff (root q : string) :
  outside_repository root q = false
  ↔ q = root ∨ ∃ rest, q = root +:+ "/" +:+ rest.
Proof.
  unfold outside_repository, Py.startswith, OsPath.sep. split.
  - intros H. apply andb_false_iff in H as [H|H].
    + apply negb_false_iff, prefix_spec in H as [rest ->].
      right. exists rest. by rewrite string_app_assoc.
    + apply negb_false_iff, bool_decide_eq_true in H. by left.
  - intros [-> | [rest ->]]; apply andb_false_iff.
    + right. apply negb_false_iff. by apply bool_decide_eq_true.
    + left. apply negb_false_iff, prefix_spec. exists rest.
      by rewrite string_app_assoc.
Qed.

(** What [read_file] does, outcome by outcome of the world. *)
Lemma lg_read_file_cases w root p tr :
  LangGraphTools.read_file root p w tr =
    match fs_realpath w (OsPath.join root p) with
    | Raise e =>
        (Return ("Error reading file: " +:+ exc_str e),
         tr ++ [OpRealpath (OsPath.join root p)])
    | Return q =>
        if outside_repository root q
        then (Return (outside_message p),
              tr ++ [OpRealpath (OsPath.join root p)])
        else if negb (fs_isfile w q)
        then (Return ("Error: file '" +:+ p +:+ "' not found."),
              tr ++ [OpRealpath (OsPath.join root p); OpIsFile q])
        else
          match fs_getsize w q with
          | Raise e =>
              (Return ("Error reading file: " +:+ exc_str e),
               tr ++ [OpRealpath (OsPath.join root p); OpIsFile q;
                      OpGetSize q])
          | Return size =>
              if size >? MAX_FILE_SIZE
              then (Return (too_large_message p size),
                    tr ++ [OpRealpath (OsPath.join root p); OpIsFile q;
                           OpGetSize q])
              else (match fs_read_text w q with
                    | Return text => Return text
                    | Raise e => Return ("Error reading file: " +:+ exc_str e)
                    end,
                    tr ++ [OpRealpath (OsPath.join root p); OpIsFile q;
                           OpGetSize q; OpOpenRead q])
          end
    end.
Proof.
  destruct (fs_realpath w (OsPath.join root p)) as [q|e] eqn:Hr.
  - destruct (outside_repository root q) eqn:Ho.
    + by eapply lg_read_file_outside.
    + destruct (fs_isfile w q) eqn:Hf; simpl.
      * destruct (fs_getsize w q) as [size|e] eqn:Hs.
        -- by eapply lg_read_file_inside.
        -- unfold LangGraphTools.read_file, outside_repository in *.
           unfold_py. rewrite Hr, Ho, Hf. simpl. rewrite Hs.
           by rewrite <- !app_assoc.
      * unfold LangGraphTools.read_file, outside_repository in *.
        unfold_py. rewrite Hr, Ho, Hf. simpl. by rewrite <- !app_assoc.
  - unfold LangGraphTools.read_file. unfold_py. by rewrite Hr.
Qed.

(** X1. [read_file] answers with a text whatever the filesystem does:
    both toolkits return the same text and never raise.  When the
    path cannot be canonicalised, when the size of the file cannot be
    read, or when the file cannot be read, the answer is
    "Error reading file: " followed by the text of the exception; in
    the first two cases the file is not opened. *)
Theorem X1_read_file_always_answers :
  ∀ (w : World) (root p : string),
    let self := {| FileTools.repo_path := root |} in
    (∃ text, result w (LangGraphTools.read_file root p) = Return text
             ∧ result w (FileTools.read_file self p) = Return text)
    ∧ (∀ e, fs_realpath w (OsPath.join root p) = Raise e →
         result w (LangGraphTools.read_file root p)
           = Return ("Error reading file: " +:+ exc_str e)
         ∧ trace w (LangGraphTools.read_file root p)
           = [OpRealpath (OsPath.join root p)])
    ∧ (∀ q e, fs_realpath w (OsPath.join root p) = Return q →
         outside_repository root q = false →
         fs_isfile w q = true →
         fs_getsize w q = Raise e →
         result w (LangGraphTools.read_file root p)
           = Return ("Error reading file: " +:+ exc_str e)
         ∧ (OpOpenRead q ∉ trace w (LangGraphTools.read_file root p)))
    ∧ (∀ q size e, fs_realpath w (OsPath.join root p) = Return q →
         outside_repository root q = false →
         fs_isfile w q = true →
         fs_getsize w q = Return size → size ≤ MAX_FILE_SIZE →
         fs_read_text w q = Raise e →
         result w (LangGraphTools.read_file root p)
           = Return ("Error reading file: " +:+ exc_str e)).
Proof.
  intros w root p self. unfold result, trace, run, self.
  rewrite read_file_agno_lg, !lg_read_file_cases.
  split; [|split; [|split]].
  - destruct (fs_realpath w _) as [q|e]; [|by eexists].
    destruct (outside_repository root q); [by eexists|].
    destruct (fs_isfile w q); simpl; [|by eexists].
    destruct (fs_getsize w q) as [size|e]; [|by eexists].
    destruct (size >? MAX_FILE_SIZE); [by eexists|].
    destruct (fs_read_text w q); by eexists.
  - intros e ->. done.
  - intros q e -> -> -> ->. simpl. split; [done|].
    rewrite !elem_of_cons, elem_of_nil. intuition discriminate.
  - intros q size e -> -> -> -> Hle ->. simpl.
    assert ((size >? MAX_FILE_SIZE) = false) as ->; [|done].
    rewrite Z.gtb_ltb. apply Z.ltb_ge. lia.
Qed.

Lemma X1_witness :
  result Scenario.broken
    (LangGraphTools.read_file Sample.root
       (String "a" (String (ascii_of_nat 0) "b")))
  = Return "Error reading file: embedded null byte"
  ∧ result Scenario.broken (LangGraphTools.read_file Sample.root "big.bin")
    = Return "Error reading file: [Errno 5] Input/output error"
  ∧ result Scenario.broken (LangGraphTools.read_file Sample.root "README.md")
    = Return ("Error reading file: [Errno 13] Permission denied: " +:+
              "'/repo/README.md'").
Proof.
  destruct (X1_read_file_always_answers Scenario.broken Sample.root
              (String "a" (String (ascii_of_nat 0) "b")))
    as (_ & Hnul & _).
  destruct (X1_read_file_always_answers Scenario.broken Sample.root "big.bin")
    as (_ & _ & Hsize & _).
  destruct (X1_read_file_always_answers Scenario.broken Sample.root "README.md")
    as (_ & _ & _ & Hread).
  split; [|split].
  - apply (Hnul (Exc ValueError "embedded null byte")). reflexivity.
  - apply (Hsize "/repo/big.bin" (Exc OSError "[Errno 5] Input/output error"));
      reflexivity.
  - apply (Hread "/repo/README.md" 12
             (Exc OSError ("[Errno 13] Permission denied: " +:+
                           "'/repo/README.md'")));
      try reflexivity.
    vm_compute. congruence.
Defined.

(** X2. A path that lies inside the repository but is not a regular
    file (it does not exist, or it is a directory such as the root
    itself) is answered with "Error: file '<path>' not found.", by
    both toolkits; its size is not asked for and it is not opened. *)
Theorem X2_read_file_not_found :
  ∀ (w : World) (root p q : string),
    fs_realpath w (OsPath.join root p) = Return q →
    outside_repository root q = false →
    fs_isfile w q = false →
    let self := {| FileTools.repo_path := root |} in
    result w (LangGraphTools.read_file root p)
      = Return ("Error: file '" +:+ p +:+ "' not found.")
    ∧ result w (FileTools.read_file self p)
      = Return ("Error: file '" +:+ p +:+ "' not found.")
    ∧ trace w (LangGraphTools.read_file root p)
      = [OpRealpath (OsPath.join root p); OpIsFile q].
Proof.
  intros w root p q Hr Ho Hf self. unfold result, trace, run, self.
  rewrite read_file_agno_lg, !lg_read_file_cases, Hr, Ho, Hf. done.
Qed.

Lemma X2_witness :
  result Sample.quiet (LangGraphTools.read_file Sample.root "notes/todo.md")
    = Return "Error: file 'notes/todo.md' not found."
  ∧ result Sample.quiet (LangGraphTools.read_file Sample.root "docs")
    = Return "Error: file 'docs' not found.".
Proof.
  split.
  - apply (X2_read_file_not_found Sample.quiet Sample.root "notes/todo.md"
             "/repo/notes/todo.md"); reflexivity.
  - apply (X2_read_file_not_found Sample.quiet Sample.root "docs"
             "/repo/docs"); reflexivity.
Defined.

(** X3. Whatever the world and the path asked for, [read_file] (either
    toolkit) requests nothing but the canonical form of the joined
    path and then, only of that canonical path [q] and only when [q]
    is the root or the root followed by a separator and more, whether
    it is a file, its size and its text; and it opens [q] only when
    it is a regular file of at most 50 * 1024 bytes.  No process is
    started and no model is called. *)
Theorem X3_read_file_touches_only_the_repository :
  ∀ (w : World) (root p : string) (op : Op),
    op ∈ trace w (LangGraphTools.read_file root p)
    ∨ op ∈ trace w (FileTools.read_file {| FileTools.repo_path := root |} p) →
    op = OpLog ("Reading file: " +:+ p)
    ∨ op = OpRealpath (OsPath.join root p)
    ∨ ∃ q, fs_realpath w (OsPath.join root p) = Return q
           ∧ (q = root ∨ ∃ rest, q = root +:+ "/" +:+ rest)
           ∧ (op = OpIsFile q ∨ op = OpGetSize q
              ∨ (op = OpOpenRead q ∧ fs_isfile w q = true
                 ∧ ∃ size, fs_getsize w q = Return size
                           ∧ size ≤ MAX_FILE_SIZE)).
Proof.
  intros w root p op. unfold trace, run.
  rewrite read_file_agno_lg, !lg_read_file_cases.
  destruct (fs_realpath w (OsPath.join root p)) as [q|e] eqn:Hr.
  2:{ simpl. rewrite !elem_of_cons, !elem_of_nil. intuition. }
  destruct (outside_repository root q) eqn:Ho.
  { simpl. rewrite !elem_of_cons, !elem_of_nil. intuition. }
  apply inside_iff in Ho.
  assert (∀ size, (size >? MAX_FILE_SIZE) = false → size ≤ MAX_FILE_SIZE)
    as Hle.
  { intros size Hgt. rewrite Z.gtb_ltb in Hgt. by apply Z.ltb_ge in Hgt. }
  destruct (fs_isfile w q) eqn:Hf; simpl;
    [destruct (fs_getsize w q) as [size|e] eqn:Hs;
       [destruct (size >? MAX_FILE_SIZE) eqn:Hgt|]|];
    simpl; rewrite !elem_of_cons, !elem_of_nil; intros H;
    repeat (destruct H as [H|H]); try done; subst op;
    first [ by left | by right; left
          | right; right; exists q; split; [done|]; split; [done|];
            eauto 10 ].
Qed.

(** X4. The root is compared as a directory, not as a run of
    characters: a canonical path that merely continues the root's
    name (a sibling such as [/repo2/x] for the root [/repo]) is
    rejected as outside the repository. *)
Theorem X4_read_file_rejects_sibling_of_root :
  ∀ (w : World) (root p suffix : string),
    suffix ≠ EmptyString →
    Py.startswith suffix "/" = false →
    fs_realpath w (OsPath.join root p) = Return (root +:+ suffix) →
    result w (LangGraphTools.read_file root p)
      = Return ("Error: path '" +:+ p +:+ "' is outside the repository.")
    ∧ result w (FileTools.read_file {| FileTools.repo_path := root |} p)
      = Return ("Error: path '" +:+ p +:+ "' is outside the repository.").
Proof.
  intros w root p suffix Hne Hs Hr.
  assert (outside_repository root (root +:+ suffix) = true) as Ho.
  { destruct (outside_repository root (root +:+ suffix)) eqn:E; [done|].
    apply inside_iff in E as [E | [rest E]].
    - rewrite <- (app_empty_r root) in E at 2. by apply app_cancel_l in E.
    - apply app_cancel_l in E. subst suffix.
      unfold Py.startswith in Hs.
      assert (String.prefix "/" ("/" +:+ rest) = true) as Hp
        by (apply prefix_spec; by exists rest).
      congruence. }
  unfold result, run.
  rewrite read_file_agno_lg, !lg_read_file_cases, Hr, Ho. done.
Qed.

Lemma X4_witness :
  result Sample.quiet (LangGraphTools.read_file Sample.root "/repo2/secret")
  = Return "Error: path '/repo2/secret' is outside the repository.".
Proof.
  apply (X4_read_file_rejects_sibling_of_root Sample.quiet Sample.root
           "/repo2/secret" "2/secret"); [discriminate | reflexivity..].
Defined.

Lemma X3_witness :
  fs_realpath Sample.quiet (OsPath.join Sample.root "README.md")
    = Return "/repo/README.md"
  ∧ ∃ size, fs_getsize Sample.quiet "/repo/README.md" = Return size
            ∧ size ≤ MAX_FILE_SIZE.
Proof.
  destruct (X3_read_file_touches_only_the_repository Sample.quiet Sample.root
              "README.md" (OpOpenRead "/repo/README.md"))
    as [H | [H | (q & Hq & _ & [H | [H | (Hop & _ & Hsize)]])]];
    try discriminate H.
  - left. apply list_elem_of_In. vm_compute. auto 10.
  - injection Hop as <-. split; [reflexivity | exact Hsize].
Defined.

(** ** [find_file] *)

(** Below a pruned directory nothing is looked at. *)
Lemma walk_matches_pruned (root name : string) :
  ∀ (t : DirTree) (top : string),
    flat_map (λ '(dirpath, _, filenames),
                if bool_decide (name ∈ filenames)
                then [OsPath.relpath (OsPath.join dirpath name) root]
                else [])
      (os_walk LangGraphTools.kept top (pruned t))
    = flat_map (λ '(dirpath, _, filenames),
                  if bool_decide (name ∈ filenames)
                  then [OsPath.relpath (OsPath.join dirpath name) root]
                  else [])
        (os_walk LangGraphTools.kept top t).
Proof.
  fix IH 1. intros [filenames subdirs] top.
  simpl. f_equal.
  induction subdirs as [|[d sub] l IHl]; [done|].
  simpl. rewrite !flat_map_app. rewrite IHl. f_equal.
  destruct (LangGraphTools.kept d); [|done].
  destruct sub as [t'|]; [apply IH | done].
Qed.

(** What [find_file] answers, given the tree below the root. *)
Lemma lg_find_file_cases w root name tr :
  LangGraphTools.find_file root name w tr =
    (match fs_tree w root with
     | Raise e => Return ("Error searching for file: " +:+ exc_str e)
     | Return top =>
         let matches :=
           flat_map (λ '(dirpath, _, filenames),
                       if bool_decide (name ∈ filenames)
                       then [OsPath.relpath (OsPath.join dirpath name) root]
                       else [])
             (match top with
              | Some tree => os_walk LangGraphTools.kept root tree
              | None => []
              end) in
         Return (if bool_decide (matches = [])
                 then "No files named '" +:+ name +:+
                      "' found in the repository."
                 else Py.join Config.newline matches)
     end, tr ++ [OpWalk root]).
Proof.
  unfold LangGraphTools.find_file, LangGraphTools.find_matches.
  unfold_py. simpl.
  destruct (fs_tree w root) as [top|e]; simpl; [|done]. by case_match.
Qed.

(** X5. [find_file] does not depend on anything below a directory it
    prunes (a name in [SKIP_DIRS] or a name that starts with a dot):
    two checkouts whose trees are the same once the contents of those
    directories are forgotten get the same answer, from both
    toolkits. *)
Theorem X5_find_file_ignores_pruned_directories :
  ∀ (w1 w2 : World) (root name : string) (t1 t2 : DirTree),
    fs_tree w1 root = Return (Some t1) →
    fs_tree w2 root = Return (Some t2) →
    pruned t1 = pruned t2 →
    let self := {| FileTools.repo_path := root |} in
    result w1 (LangGraphTools.find_file root name)
      = result w2 (LangGraphTools.find_file root name)
    ∧ result w1 (FileTools.find_file self name)
      = result w2 (FileTools.find_file self name).
Proof.
  intros w1 w2 root name t1 t2 H1 H2 Hp self.
  unfold result, run, self.
  rewrite !find_file_agno_lg, !lg_find_file_cases, H1, H2. simpl.
  rewrite <- (walk_matches_pruned root name t1 root).
  rewrite <- (walk_matches_pruned root name t2 root).
  by rewrite Hp.
Qed.

Lemma X5_witness :
  result Sample.quiet (LangGraphTools.find_file Sample.root "AGENTS.md")
  = result Scenario.other_checkout
      (LangGraphTools.find_file Sample.root "AGENTS.md").
Proof.
  apply (X5_find_file_ignores_pruned_directories Sample.quiet
           Scenario.other_checkout Sample.root "AGENTS.md" Sample.tree
           Scenario.other_tree); reflexivity.
Defined.

(** X6. [find_file] always answers with a text and asks the world
    for one walk of the root, nothing else.  When the root cannot be
    listed the answer is "No files named '<name>' found in the
    repository."; when the walk raises, it is
    "Error searching for file: " followed by the text of the
    exception. *)
Theorem X6_find_file_always_answers :
  ∀ (w : World) (root name : string),
    let self := {| FileTools.repo_path := root |} in
    (∃ text, result w (LangGraphTools.find_file root name) = Return text
             ∧ result w (FileTools.find_file self name) = Return text)
    ∧ trace w (LangGraphTools.find_file root name) = [OpWalk root]
    ∧ (fs_tree w root = Return None →
         result w (LangGraphTools.find_file root name)
           = Return ("No files named '" +:+ name +:+
                     "' found in the repository."))
    ∧ (∀ e, fs_tree w root = Raise e →
         result w (LangGraphTools.find_file root name)
           = Return ("Error searching for file: " +:+ exc_str e)).
Proof.
  intros w root name self. unfold result, trace, run, self.
  rewrite find_file_agno_lg, !lg_find_file_cases. simpl.
  split; [|split; [done|split]].
  - destruct (fs_tree w root); by eexists.
  - intros ->. done.
  - intros e ->. done.
Qed.

Lemma X6_witness :
  result Scenario.not_a_repository
    (LangGraphTools.find_file Sample.root "AGENTS.md")
  = Return "No files named 'AGENTS.md' found in the repository."
  ∧ result Scenario.broken (LangGraphTools.find_file Sample.root "AGENTS.md")
    = Return "Error searching for file: embedded null byte".
Proof.
  destruct (X6_find_file_always_answers Scenario.not_a_repository Sample.root
              "AGENTS.md") as (_ & _ & Hnone & _).
  destruct (X6_find_file_always_answers Scenario.broken Sample.root
              "AGENTS.md") as (_ & _ & _ & Hraise).
  split; [apply Hnone; reflexivity|].
  apply (Hraise (Exc ValueError "embedded null byte")). reflexivity.
Defined.

(** *** The paths [find_file] reports *)

Lemma split_nonempty (sep : ascii) (s : string) : Py.split sep s ≠ [].
Proof.
  induction s as [|c s IH]; simpl; [done|].
  case_bool_decide; [done|]. by destruct (Py.split sep s).
Qed.

Lemma split_app (sep : ascii) (a b : string) :
  Py.split sep (a +:+ String sep b) = Py.split sep a ++ Py.split sep b.
Proof.
  induction a as [|c a IH].
  - change (EmptyString +:+ String sep b) with (String sep b). simpl.
    by rewrite bool_decide_eq_true_2.
  - change (String c a +:+ String sep b) with (String c (a +:+ String sep b)).
    simpl. rewrite IH. case_bool_decide; [done|].
    pose proof (split_nonempty sep a). by destruct (Py.split sep a).
Qed.

Lemma split_no_sep (sep : ascii) (s : string) :
  Py.contains_char sep s = false → Py.split sep s = [s].
Proof.
  induction s as [|c s IH]; simpl; [done|].
  intros H. apply orb_false_iff in H as [Hc Hs].
  apply bool_decide_eq_false in Hc.
  rewrite bool_decide_eq_false_2 by congruence. by rewrite IH.
Qed.

Lemma rev_app_head (s1 s2 : string) :
  s1 ≠ EmptyString →
  ∃ r c rest, s1 = r +:+ String c EmptyString
              ∧ String.rev_app s1 s2 = String c rest.
Proof.
  revert s2. induction s1 as [|a s1 IH]; intros s2 Hne; [done|].
  destruct s1 as [|b s1].
  - by exists EmptyString, a, s2.
  - destruct (IH (String a s2)) as (r & c & rest & Hr & Hrev); [done|].
    exists (String a r), c, rest. split; [|exact Hrev].
    change (String a (String b s1) = String a (r +:+ String c EmptyString)).
    by f_equal.
Qed.

Lemma endswith_sep (a : string) :
  Py.endswith a OsPath.sep = true → ∃ r, a = r +:+ "/".
Proof.
  unfold Py.endswith, OsPath.sep, String.rev. simpl String.rev_app at 1.
  destruct a as [|c a]; [done|].
  destruct (rev_app_head (String c a) EmptyString) as (r & d & rest & -> & ->);
    [done|].
  change (String.prefix "/" (String d rest))
    with (if ascii_dec "/" d then String.prefix EmptyString rest else false).
  destruct (ascii_dec "/" d) as [<-|]; [|done]. by exists r.
Qed.

Lemma entry_name_spec (n : string) :
  entry_name n = true →
  n ≠ EmptyString ∧ Py.contains_char "/" n = false
  ∧ Py.startswith n OsPath.sep = false.
Proof.
  unfold entry_name. intros H. apply andb_true_iff in H as [Ht Hc].
  apply negb_true_iff in Hc. split; [by destruct n|]. split; [done|].
  destruct n as [|c n]; [done|]. simpl in Hc.
  apply orb_false_iff in Hc as [Hc _]. apply bool_decide_eq_false in Hc.
  unfold Py.startswith, OsPath.sep.
  change (String.prefix "/" (String c n))
    with (if ascii_dec "/" c then String.prefix EmptyString n else false).
  by destruct (ascii_dec "/" c).
Qed.

Lemma components_entry (n : string) :
  entry_name n = true → OsPath.components n = [n].
Proof.
  intros H. apply entry_name_spec in H as (Hne & Hc & _).
  unfold OsPath.components. rewrite split_no_sep by done.
  rewrite filter_cons_True by done. done.
Qed.

(** Joining an entry name to a path adds one component. *)
Lemma components_join (a d : string) :
  entry_name d = true →
  OsPath.components (OsPath.join a d) = OsPath.components a ++ [d].
Proof.
  intros Hd. pose proof (components_entry d Hd) as Hcd.
  apply entry_name_spec in Hd as (Hne & Hc & Hs).
  unfold OsPath.join. rewrite Hs.
  assert (∀ r, OsPath.components (r +:+ String "/" d)
               = OsPath.components r ++ [d]) as Hsplit.
  { intros r. unfold OsPath.components in *.
    by rewrite split_app, filter_app, Hcd. }
  destruct (Py.truthy a) eqn:Ha; simpl.
  - destruct (Py.endswith a OsPath.sep) eqn:He.
    + apply endswith_sep in He as [r ->].
      rewrite string_app_assoc.
      change ("/" +:+ d) with (String "/" d). rewrite Hsplit.
      f_equal. rewrite <- (app_empty_r (r +:+ "/")).
      rewrite string_app_assoc.
      change ("/" +:+ EmptyString) with (String "/" EmptyString).
      unfold OsPath.components. rewrite split_app, filter_app. simpl.
      rewrite filter_cons_False by (intros H; by apply H).
      by rewrite filter_nil, app_nil_r.
    + unfold OsPath.sep. change ("/" +:+ d) with (String "/" d). apply Hsplit.
  - destruct a; [|done]. done.
Qed.

Lemma common_prefix_len_app (l k : list string) :
  OsPath.common_prefix_len l (l ++ k) = length l.
Proof.
  induction l as [|x l IH]; simpl; [by destruct k|].
  rewrite bool_decide_eq_true_2 by done. by rewrite IH.
Qed.

Lemma join_nonempty_snoc (dirs : list string) (name : string) :
  (dirs ++ [name] : list string) ≠ [].
Proof. by destruct dirs. Qed.

(** The relative path of an entry below the root is the directory
    names that lead to it and its name, joined by separators. *)
Lemma relpath_below (root dirpath name : string) (dirs : list string) :
  entry_name name = true →
  OsPath.components dirpath = OsPath.components root ++ dirs →
  OsPath.relpath (OsPath.join dirpath name) root
  = Py.join "/" (dirs ++ [name]).
Proof.
  intros Hn Hc. unfold OsPath.relpath.
  rewrite components_join, Hc, <- app_assoc by done.
  rewrite common_prefix_len_app, Nat.sub_diag, drop_app_length. simpl.
  pose proof (join_nonempty_snoc dirs name).
  by destruct (dirs ++ [name]).
Qed.

Lemma walk_finds (root name : string) :
  ∀ (t : DirTree) (dirs : list string) (top : string),
    entry_names t = true →
    OsPath.components top = OsPath.components root ++ dirs →
    flat_map (λ '(dirpath, _, filenames),
                if bool_decide (name ∈ filenames)
                then [OsPath.relpath (OsPath.join dirpath name) root]
                else [])
      (os_walk LangGraphTools.kept top t)
    = found_below name dirs t.
Proof.
  fix IH 1. intros [filenames subdirs] dirs top Hwf Hc.
  simpl in Hwf. apply andb_true_iff in Hwf as [Hfiles Hsubs].
  simpl. f_equal.
  - case_bool_decide as Hin; [|done].
    rewrite (relpath_below root top name dirs); [done| |done].
    rewrite forallb_forall in Hfiles. apply Hfiles.
    by apply list_elem_of_In.
  - induction subdirs as [|[d sub] l IHl]; [done|].
    apply andb_true_iff in Hsubs as [Hd Hl].
    apply andb_true_iff in Hd as [Hd Hsub].
    rewrite flat_map_app, (IHl Hl). f_equal.
    destruct (LangGraphTools.kept d); [|done].
    destruct sub as [t'|]; [|done].
    apply IH; [done|]. rewrite components_join by done.
    by rewrite Hc, <- app_assoc.
Qed.

(** X7. When the names in the tree below the root are names of
    directory entries (not empty, no separator), [find_file] answers
    with the paths, relative to the root and one per line, of the
    files that bear the name asked for, in the order of the walk and
    without entering pruned directories: a file in the root directory
    by its bare name, a file further down by the directory names that
    lead to it and its name, joined by separators.  When there is
    none the answer is the "No files named" text. *)
Theorem X7_find_file_reports_relative_paths :
  ∀ (w : World) (root name : string) (tree : DirTree),
    fs_tree w root = Return (Some tree) →
    entry_names tree = true →
    let found := found_below name [] tree in
    let answer := if bool_decide (found = [])
                  then "No files named '" +:+ name +:+
                       "' found in the repository."
                  else Py.join Config.newline found in
    result w (LangGraphTools.find_file root name) = Return answer
    ∧ result w (FileTools.find_file {| FileTools.repo_path := root |} name)
      = Return answer.
Proof.
  intros w root name tree Ht Hwf found answer.
  unfold result, run.
  rewrite find_file_agno_lg, !lg_find_file_cases, Ht. simpl.
  rewrite (walk_finds root name tree [] root Hwf)
    by (by rewrite app_nil_r).
  done.
Qed.

Lemma X7_witness :
  result Sample.quiet (LangGraphTools.find_file Sample.root "index.md")
  = Return "docs/index.md"
  ∧ result Scenario.other_checkout
      (LangGraphTools.find_file Sample.root "HEAD")
    = Return "No files named 'HEAD' found in the repository.".
Proof.
  split.
  - apply (X7_find_file_reports_relative_paths Sample.quiet Sample.root
             "index.md" Sample.tree); reflexivity.
  - apply (X7_find_file_reports_relative_paths Scenario.other_checkout
             Sample.root "HEAD" Scenario.other_tree); reflexivity.
Defined.

(** ** The git accessors *)

(** What a git accessor makes of the outcome of its command. *)
Lemma lg_get_diff_cases w repo source target tr :
  LangGraphTools.get_diff repo source target w tr =
    (match proc_run w ["git"; "diff"; target +:+ "..." +:+ source] repo with
     | Return (CompletedProcess stdout _) =>
         Return (if Py.truthy (Py.strip stdout) then stdout
                 else "No differences found between branches.")
     | Return (CalledProcessError _ _ stderr) =>
         Return ("Error getting diff: " +:+ stderr)
     | Raise e => Raise e
     end,
     tr ++ [OpSubprocess ["git"; "diff"; target +:+ "..." +:+ source] repo]).
Proof.
  unfold LangGraphTools.get_diff. unfold_py.
  by destruct (proc_run w _ repo) as [[out ?|? ? ?]|];
    simpl; [destruct (Py.truthy _)| |].
Qed.

Lemma lg_get_changed_files_cases w repo source target tr :
  LangGraphTools.get_changed_files repo source target w tr =
    (match proc_run w ["git"; "diff"; "--name-only";
                       target +:+ "..." +:+ source] repo with
     | Return (CompletedProcess stdout _) =>
         Return (if Py.truthy stdout then stdout else "No files changed.")
     | Return (CalledProcessError _ _ stderr) =>
         Return ("Error getting changed files: " +:+ stderr)
     | Raise e => Raise e
     end,
     tr ++ [OpSubprocess ["git"; "diff"; "--name-only";
                          target +:+ "..." +:+ source] repo]).
Proof.
  unfold LangGraphTools.get_changed_files. unfold_py.
  by destruct (proc_run w _ repo) as [[out ?|? ? ?]|].
Qed.

Lemma lg_get_branches_cases w repo tr :
  LangGraphTools.get_branches repo w tr =
    (match proc_run w ["git"; "branch"; "-a"; "--format=%(refname:short)"]
             repo with
     | Return (CompletedProcess stdout _) => Return stdout
     | Return (CalledProcessError _ _ stderr) =>
         Return ("Error listing branches: " +:+ stderr)
     | Raise e => Raise e
     end,
     tr ++ [OpSubprocess ["git"; "branch"; "-a"; "--format=%(refname:short)"]
              repo]).
Proof.
  unfold LangGraphTools.get_branches. unfold_py.
  by destruct (proc_run w _ repo) as [[out ?|? ? ?]|].
Qed.

Lemma agno_get_diff_lg w repo source target tr :
  GitTools.get_diff (GitTools.init repo) source target w tr
  = LangGraphTools.get_diff repo source target w
      (tr ++ [OpLog ("Getting diff: " +:+ target +:+ "..." +:+ source)]).
Proof. reflexivity. Qed.

Lemma agno_get_changed_files_lg w repo source target tr :
  GitTools.get_changed_files (GitTools.init repo) source target w tr
  = LangGraphTools.get_changed_files repo source target w tr.
Proof. reflexivity. Qed.

Lemma agno_get_branches_lg w repo tr :
  GitTools.get_branches (GitTools.init repo) w tr
  = LangGraphTools.get_branches repo w tr.
Proof. reflexivity. Qed.

(** X8. When git exits with a non-zero status, each git accessor
    returns its own error text followed by what git wrote on its
    standard error, and does not raise; the standard output of the
    failed command is dropped.  Both toolkits. *)
Theorem X8_git_failure_is_returned_as_text :
  ∀ (w : World) (repo source target : string),
    let self := GitTools.init repo in
    (∀ rc out err,
       proc_run w ["git"; "diff"; target +:+ "..." +:+ source] repo
         = Return (CalledProcessError rc out err) →
       result w (LangGraphTools.get_diff repo source target)
         = Return ("Error getting diff: " +:+ err)
       ∧ result w (GitTools.get_diff self source target)
         = Return ("Error getting diff: " +:+ err))
    ∧ (∀ rc out err,
         proc_run w ["git"; "diff"; "--name-only";
                     target +:+ "..." +:+ source] repo
           = Return (CalledProcessError rc out err) →
         result w (LangGraphTools.get_changed_files repo source target)
           = Return ("Error getting changed files: " +:+ err)
         ∧ result w (GitTools.get_changed_files self source target)
           = Return ("Error getting changed files: " +:+ err))
    ∧ (∀ rc out err,
         proc_run w ["git"; "branch"; "-a"; "--format=%(refname:short)"] repo
           = Return (CalledProcessError rc out err) →
         result w (LangGraphTools.get_branches repo)
           = Return ("Error listing branches: " +:+ err)
         ∧ result w (GitTools.get_branches self)
           = Return ("Error listing branches: " +:+ err)).
Proof.
  intros w repo source target self. unfold result, run, self.
  rewrite agno_get_diff_lg, agno_get_changed_files_lg, agno_get_branches_lg.
  rewrite !lg_get_diff_cases, !lg_get_changed_files_cases,
    !lg_get_branches_cases.
  split; [|split]; intros rc out err ->; done.
Qed.

Lemma X8_witness :
  result Scenario.not_a_repository
    (LangGraphTools.get_diff Sample.root "feature/x" "main")
  = Return "Error getting diff: fatal: not a git repository"
  ∧ result Scenario.not_a_repository (LangGraphTools.get_branches Sample.root)
    = Return "Error listing branches: fatal: not a git repository".
Proof.
  destruct (X8_git_failure_is_returned_as_text Scenario.not_a_repository
              Sample.root "feature/x" "main") as (Hd & _ & Hb).
  split.
  - apply (Hd 128 EmptyString "fatal: not a git repository"). reflexivity.
  - apply (Hb 128 EmptyString "fatal: not a git repository"). reflexivity.
Defined.

(** X9. The two git toolkits run the same commands and make the same
    of their outcome, but not in the same directory: [GitTools] keeps
    the repository path as it is given, [create_tools] takes its
    canonical form for its closures.  Each call starts exactly one
    process, git with a fixed sub-command followed by the single
    argument [<target>...<source>] (no argument for the branch list);
    only [GitTools.get_diff] also logs.  So the toolkits have the same
    outcome when [GitTools] is given the canonical path, and, built
    from the same path, whenever git answers alike in both
    directories. *)
Theorem X9_git_toolkits_agree :
  ∀ (w : World) (repo_path real : string) (provider model_id : option string)
    (source target : string),
    fs_realpath w repo_path = Return real →
    let range := target +:+ "..." +:+ source in
    let self := GitTools.init repo_path in
    let canonical := GitTools.init real in
    let closures := LangGraphTools.tools real provider model_id in
    (GitTools.repo_path self = repo_path
     ∧ result w (LangGraphTools.create_tools repo_path provider model_id)
       = Return closures
     ∧ {| tool_name := "get_diff";
          tool_body := Tool2 "source_branch" "target_branch"
                         (LangGraphTools.get_diff real) |} ∈ closures
     ∧ {| tool_name := "get_changed_files";
          tool_body := Tool2 "source_branch" "target_branch"
                         (LangGraphTools.get_changed_files real) |} ∈ closures
     ∧ {| tool_name := "get_branches";
          tool_body := Tool0 (LangGraphTools.get_branches real) |} ∈ closures)
    ∧ (trace w (GitTools.get_diff self source target)
       = [OpLog ("Getting diff: " +:+ range);
          OpSubprocess ["git"; "diff"; range] repo_path]
       ∧ trace w (GitTools.get_changed_files self source target)
         = [OpSubprocess ["git"; "diff"; "--name-only"; range] repo_path]
       ∧ trace w (GitTools.get_branches self)
         = [OpSubprocess ["git"; "branch"; "-a"; "--format=%(refname:short)"]
              repo_path])
    ∧ (trace w (LangGraphTools.get_diff real source target)
       = [OpSubprocess ["git"; "diff"; range] real]
       ∧ trace w (LangGraphTools.get_changed_files real source target)
         = [OpSubprocess ["git"; "diff"; "--name-only"; range] real]
       ∧ trace w (LangGraphTools.get_branches real)
         = [OpSubprocess ["git"; "branch"; "-a"; "--format=%(refname:short)"]
              real])
    ∧ (result w (GitTools.get_diff canonical source target)
       = result w (LangGraphTools.get_diff real source target)
       ∧ result w (GitTools.get_changed_files canonical source target)
         = result w (LangGraphTools.get_changed_files real source target)
       ∧ result w (GitTools.get_branches canonical)
         = result w (LangGraphTools.get_branches real))
    ∧ ((∀ argv, proc_run w argv repo_path = proc_run w argv real) →
       result w (GitTools.get_diff self source target)
       = result w (LangGraphTools.get_diff real source target)
       ∧ result w (GitTools.get_changed_files self source target)
         = result w (LangGraphTools.get_changed_files real source target)
       ∧ result w (GitTools.get_branches self)
         = result w (LangGraphTools.get_branches real)).
Proof.
  intros w repo_path real provider model_id source target Hreal
    range self canonical closures.
  split; [|split; [|split; [|split]]].
  - split; [done|]. split.
    + unfold LangGraphTools.create_tools. unfold_py. by rewrite Hreal.
    + unfold closures, LangGraphTools.tools.
      rewrite !elem_of_cons. auto 6.
  - unfold trace, run, self.
    rewrite agno_get_diff_lg, agno_get_changed_files_lg, agno_get_branches_lg.
    by rewrite !lg_get_diff_cases, !lg_get_changed_files_cases,
      !lg_get_branches_cases.
  - unfold trace, run.
    by rewrite !lg_get_diff_cases, !lg_get_changed_files_cases,
      !lg_get_branches_cases.
  - unfold result, run, canonical.
    rewrite agno_get_diff_lg, agno_get_changed_files_lg, agno_get_branches_lg.
    by rewrite !lg_get_diff_cases, !lg_get_changed_files_cases,
      !lg_get_branches_cases.
  - intros Hsame. unfold result, run, self.
    rewrite agno_get_diff_lg, agno_get_changed_files_lg, agno_get_branches_lg.
    rewrite !lg_get_diff_cases, !lg_get_changed_files_cases,
      !lg_get_branches_cases.
    by rewrite !Hsame.
Qed.

Lemma X9_witness :
  trace Sample.quiet
    (GitTools.get_branches (GitTools.init "."))
  = [OpSubprocess ["git"; "branch"; "-a"; "--format=%(refname:short)"] "."]
  ∧ trace Sample.quiet (LangGraphTools.get_branches "/repo")
    = [OpSubprocess ["git"; "branch"; "-a"; "--format=%(refname:short)"]
         "/repo"]
  ∧ result Sample.quiet (GitTools.get_branches (GitTools.init "."))
    = result Sample.quiet (LangGraphTools.get_branches "/repo").
Proof.
  destruct (X9_git_toolkits_agree Sample.quiet "." "/repo" None None
              "feature/x" "main" eq_refl)
    as (_ & (_ & _ & Hgiven) & (_ & _ & Hreal) & _ & Hsame).
  split; [exact Hgiven|]. split; [exact Hreal|].
  apply Hsame. intros argv. reflexivity.
Defined.

(** X10. A git accessor catches the non-zero exit of git and nothing
    else: when the process cannot be run at all (git is not
    installed, the directory is gone, the output cannot be decoded)
    the exception leaves the accessor.  Dispatched by [tool_node],
    it comes back as the observation
    "Error executing tool '<name>': " followed by its text. *)
Theorem X10_git_not_startable :
  ∀ (w : World) (repo : string) (provider model_id : option string)
    (source target id : string) (e : exception),
    proc_run w ["git"; "diff"; target +:+ "..." +:+ source] repo = Raise e →
    let g := {| Graph.tools_by_name :=
                  Graph.by_name (LangGraphTools.tools repo provider model_id);
                Graph.model := Config.anthropic_model None;
                Graph.bound_tools :=
                  tool_name <$> LangGraphTools.tools repo provider model_id |} in
    let call := {| tc_name := "get_diff";
                   tc_args := {[ "source_branch" := JStr source;
                                 "target_branch" := JStr target ]};
                   tc_id := Some id |} in
    result w (LangGraphTools.get_diff repo source target) = Raise e
    ∧ result w (GitTools.get_diff (GitTools.init repo) source target) = Raise e
    ∧ result w (Graph.run_tool_call g call)
      = Return (ToolMessage ("Error executing tool 'get_diff': " +:+ exc_str e)
                  "get_diff" id).
Proof.
  intros w repo provider model_id source target id e Hp g call.
  assert (LangGraphTools.get_diff repo source target w []
          = (Raise e,
             [OpSubprocess ["git"; "diff"; target +:+ "..." +:+ source] repo]))
    as Hrun by (by rewrite lg_get_diff_cases, Hp).
  unfold result, run. split; [by rewrite Hrun|].
  split; [by rewrite agno_get_diff_lg, lg_get_diff_cases, Hp|].
  rewrite <- (invoke_get_diff repo) in Hrun.
  by rewrite (run_tool_call_raise g call id _ w [] e _ eq_refl
                (registry_get_diff repo provider model_id) Hrun).
Qed.

Lemma X10_witness :
  result Scenario.broken
    (Graph.run_tool_call Sample.graph
       {| tc_name := "get_diff";
          tc_args := {[ "source_branch" := JStr "feature/x";
                        "target_branch" := JStr "main" ]};
          tc_id := Some "call_3" |})
  = Return (ToolMessage
              ("Error executing tool 'get_diff': " +:+
               "[Errno 2] No such file or directory: 'git'")
              "get_diff" "call_3").
Proof.
  apply (X10_git_not_startable Scenario.broken Sample.root None None
           "feature/x" "main" "call_3"
           (Exc OSError "[Errno 2] No such file or directory: 'git'")).
  reflexivity.
Defined.

(** ** [get_model] *)

Lemma lower_char_idempotent (c : ascii) :
  Py.lower_char (Py.lower_char c) = Py.lower_char c.
Proof. by destruct c as [[] [] [] [] [] [] [] []]. Qed.

Lemma lower_idempotent (s : string) : Py.lower (Py.lower s) = Py.lower s.
Proof.
  induction s as [|c s IH]; simpl; [done|].
  by rewrite lower_char_idempotent, IH.
Qed.

Lemma lower_truthy (s : string) : Py.truthy (Py.lower s) = Py.truthy s.
Proof. by destruct s. Qed.

Lemma get_model_auto w provider model_id :
  opt_truthy provider = false →
  result w (Config.get_model provider model_id)
  = if has_key w "ANTHROPIC_API_KEY"
    then Return (Config.anthropic_model model_id)
    else if has_key w "OPENAI_API_KEY"
    then Return (Config.openai_model model_id)
    else if has_key w "OPENROUTER_API_KEY"
    then Return (Config.openrouter_model model_id
                   (environ w !! "OPENROUTER_API_KEY"))
    else Raise (Exc ValueError Config.no_key_text).
Proof.
  intros Hp. unfold Config.get_model, has_key. rewrite Hp.
  unfold_py. simpl.
  destruct (opt_truthy (environ w !! "ANTHROPIC_API_KEY")); [done|].
  destruct (opt_truthy (environ w !! "OPENAI_API_KEY")); [done|].
  by destruct (opt_truthy (environ w !! "OPENROUTER_API_KEY")).
Qed.

Lemma get_model_named w provider model_id :
  opt_truthy provider = true →
  result w (Config.get_model provider model_id)
  = let p := Py.lower (default EmptyString provider) in
    if bool_decide (p = "anthropic") then
      if has_key w "ANTHROPIC_API_KEY"
      then Return (Config.anthropic_model model_id)
      else Raise (Exc ValueError "ANTHROPIC_API_KEY not set")
    else if bool_decide (p = "openai") then
      if has_key w "OPENAI_API_KEY"
      then Return (Config.openai_model model_id)
      else Raise (Exc ValueError "OPENAI_API_KEY not set")
    else if bool_decide (p = "openrouter") then
      if has_key w "OPENROUTER_API_KEY"
      then Return (Config.openrouter_model model_id
                     (environ w !! "OPENROUTER_API_KEY"))
      else Raise (Exc ValueError "OPENROUTER_API_KEY not set")
    else Raise (Exc ValueError
                  ("Unknown provider: " +:+ p +:+
                   ". Use 'anthropic', 'openai', or 'openrouter'")).
Proof.
  intros Hp. unfold Config.get_model, Config._get_model_for_provider, has_key.
  rewrite Hp. cbv zeta.
  destruct (bool_decide (Py.lower (default EmptyString provider) = "anthropic")).
  { unfold_py. simpl.
    by destruct (opt_truthy (environ w !! "ANTHROPIC_API_KEY")). }
  destruct (bool_decide (Py.lower (default EmptyString provider) = "openai")).
  { unfold_py. simpl.
    by destruct (opt_truthy (environ w !! "OPENAI_API_KEY")). }
  destruct (bool_decide (Py.lower (default EmptyString provider) = "openrouter")).
  { unfold_py. simpl.
    by destruct (opt_truthy (environ w !! "OPENROUTER_API_KEY")). }
  done.
Qed.

Ltac provider_is name :=
  exists name; repeat split; try done;
  try (unfold PROVIDERS; rewrite !elem_of_cons; auto; fail);
  try (intros; congruence).

(** X11. A model that [get_model] returns always has the token limit
    16384; its name is the [model_id] asked for when there is one
    (not empty) and the default of its provider otherwise; the
    credential of its provider is set and not empty.  When a provider
    is named, it is the provider of the model, compared without
    regard to case, whatever other credentials exist; when none is
    named, no provider earlier in the order Anthropic, OpenAI,
    OpenRouter has a credential.  An OpenRouter model carries the
    OpenRouter address and key.  [get_model] asks the world for
    nothing but the environment. *)
Theorem X11_get_model_result :
  ∀ (w : World) (provider model_id : option string) (m : ChatModel),
    result w (Config.get_model provider model_id) = Return m →
    ∃ name,
      chat_summary m
        = (name, opt_or model_id (Config.DEFAULT_MODELS name), 16384)
      ∧ name ∈ PROVIDERS
      ∧ has_key w (api_key_name name) = true
      ∧ (opt_truthy provider = true →
           Py.lower (default EmptyString provider) = name)
      ∧ (opt_truthy provider = false →
           (name ≠ "anthropic" → has_key w "ANTHROPIC_API_KEY" = false)
           ∧ (name = "openrouter" → has_key w "OPENAI_API_KEY" = false))
      ∧ (name = "openrouter" →
           cm_base_url m = Some "https://openrouter.ai/api/v1"
           ∧ cm_api_key m = environ w !! "OPENROUTER_API_KEY")
      ∧ trace w (Config.get_model provider model_id) = [].
Proof.
  intros w provider model_id m. unfold trace, run.
  rewrite get_model_pure. simpl.
  destruct (opt_truthy provider) eqn:Hp.
  - rewrite get_model_named by done. cbv zeta.
    case_bool_decide as H1.
    { destruct (has_key w "ANTHROPIC_API_KEY") eqn:Hk; intros [= <-].
      provider_is "anthropic". }
    case_bool_decide as H2.
    { destruct (has_key w "OPENAI_API_KEY") eqn:Hk; intros [= <-].
      provider_is "openai". }
    case_bool_decide as H3; [|done].
    destruct (has_key w "OPENROUTER_API_KEY") eqn:Hk; intros [= <-].
    provider_is "openrouter".
  - rewrite get_model_auto by done.
    destruct (has_key w "ANTHROPIC_API_KEY") eqn:Ha.
    { intros [= <-]. provider_is "anthropic". }
    destruct (has_key w "OPENAI_API_KEY") eqn:Ho.
    { intros [= <-]. provider_is "openai". }
    destruct (has_key w "OPENROUTER_API_KEY") eqn:Hr; intros [= <-].
    provider_is "openrouter".
Qed.

Lemma X11_witness :
  ∃ name,
    chat_summary (Config.openai_model (Some "gpt-4.1"))
      = (name, opt_or (Some "gpt-4.1") (Config.DEFAULT_MODELS name), 16384)
    ∧ Py.lower "OpenAI" = name.
Proof.
  destruct (X11_get_model_result Scenario.not_a_repository (Some "OpenAI")
              (Some "gpt-4.1") (Config.openai_model (Some "gpt-4.1")))
    as (name & Hsum & _ & _ & Hname & _); [reflexivity|].
  exists name. split; [exact Hsum | apply Hname; reflexivity].
Defined.

(** X12. When [get_model] fails it raises a [ValueError].  With a
    provider named, either the name (in lower case) is none of the
    three and the text says so, or the credential of that very
    provider is missing or empty and the text is
    "<its variable> not set": the credentials of other providers are
    not tried.  With no provider named, all three credentials are
    missing or empty. *)
Theorem X12_get_model_failure :
  ∀ (w : World) (provider model_id : option string) (e : exception),
    result w (Config.get_model provider model_id) = Raise e →
    exc_cls e = ValueError
    ∧ (opt_truthy provider = true →
         let p := Py.lower (default EmptyString provider) in
         (p ∈ PROVIDERS ∧ has_key w (api_key_name p) = false
          ∧ exc_str e = api_key_name p +:+ " not set")
         ∨ ((p ∉ PROVIDERS)
            ∧ exc_str e = "Unknown provider: " +:+ p +:+
                          ". Use 'anthropic', 'openai', or 'openrouter'"))
    ∧ (opt_truthy provider = false →
         has_key w "ANTHROPIC_API_KEY" = false
         ∧ has_key w "OPENAI_API_KEY" = false
         ∧ has_key w "OPENROUTER_API_KEY" = false
         ∧ exc_str e = Config.no_key_text).
Proof.
  intros w provider model_id e.
  destruct (opt_truthy provider) eqn:Hp.
  - rewrite get_model_named by done. cbv zeta.
    case_bool_decide as H1.
    { rewrite H1. destruct (has_key w "ANTHROPIC_API_KEY") eqn:Hk;
        intros [= <-]. split; [done|]. split; [|done]. intros _. left.
      unfold PROVIDERS. rewrite !elem_of_cons. auto. }
    case_bool_decide as H2.
    { rewrite H2. destruct (has_key w "OPENAI_API_KEY") eqn:Hk;
        intros [= <-]. split; [done|]. split; [|done]. intros _. left.
      unfold PROVIDERS. rewrite !elem_of_cons. auto. }
    case_bool_decide as H3.
    { rewrite H3. destruct (has_key w "OPENROUTER_API_KEY") eqn:Hk;
        intros [= <-]. split; [done|]. split; [|done]. intros _. left.
      unfold PROVIDERS. rewrite !elem_of_cons. auto. }
    intros [= <-]. split; [done|]. split; [|done]. intros _. right.
    split; [|done]. unfold PROVIDERS.
    rewrite !elem_of_cons, elem_of_nil. tauto.
  - rewrite get_model_auto by done.
    destruct (has_key w "ANTHROPIC_API_KEY"); [done|].
    destruct (has_key w "OPENAI_API_KEY"); [done|].
    destruct (has_key w "OPENROUTER_API_KEY"); [done|].
    intros [= <-]. done.
Qed.

Lemma X12_witness :
  exc_str (Exc ValueError "OPENAI_API_KEY not set")
  = api_key_name "openai" +:+ " not set"
  ∧ has_key Scenario.broken "OPENAI_API_KEY" = false.
Proof.
  destruct (X12_get_model_failure Scenario.broken (Some "OPENAI") None
              (Exc ValueError "OPENAI_API_KEY not set"))
    as (_ & Hnamed & _); [reflexivity|].
  destruct (Hnamed eq_refl) as [(_ & Hkey & Htext) | (Hno & _)].
  - split; [exact Htext | exact Hkey].
  - exfalso. apply Hno. apply list_elem_of_In. vm_compute. auto.
Defined.

(** X13. The provider name is compared without regard to case:
    [get_model] has the same outcome for a name and for the name in
    lower case.  The agno configuration module behaves alike. *)
Theorem X13_provider_name_case :
  ∀ (w : World) (p : string) (model_id : option string),
    result w (Config.get_model (Some p) model_id)
      = result w (Config.get_model (Some (Py.lower p)) model_id)
    ∧ result w (AgnoConfig.get_model (Some p) model_id)
      = result w (AgnoConfig.get_model (Some (Py.lower p)) model_id).
Proof.
  intros w p model_id. split.
  - unfold Config.get_model. simpl. rewrite lower_truthy.
    destruct (Py.truthy p); [|done].
    unfold Config._get_model_for_provider. cbv zeta.
    by rewrite lower_idempotent.
  - unfold AgnoConfig.get_model. simpl. rewrite lower_truthy.
    destruct (Py.truthy p); [|done].
    unfold AgnoConfig._get_model_for_provider. cbv zeta.
    by rewrite lower_idempotent.
Qed.

(** X14. The two configuration modules decide alike: in every
    environment and for every provider and model name asked for,
    [get_model] of [src/config.py] and [get_model] of
    [src/langgraph_impl/config.py] either both fail, with the same
    exception, or both return a model of the same provider with the
    same model name and token limit. *)
Theorem X14_configurations_agree :
  ∀ (w : World) (provider model_id : option string),
    outcome_map agno_summary (result w (AgnoConfig.get_model provider model_id))
    = outcome_map chat_summary (result w (Config.get_model provider model_id)).
Proof.
  intros w provider model_id.
  destruct (opt_truthy provider) eqn:Hp.
  - rewrite get_model_named by done.
    unfold AgnoConfig.get_model, AgnoConfig._get_model_for_provider, has_key.
    rewrite Hp. cbv zeta. unfold result, run.
    destruct (bool_decide (Py.lower (default EmptyString provider) = "anthropic")).
    { unfold_py. simpl.
      by destruct (opt_truthy (environ w !! "ANTHROPIC_API_KEY")). }
    destruct (bool_decide (Py.lower (default EmptyString provider) = "openai")).
    { unfold_py. simpl.
      by destruct (opt_truthy (environ w !! "OPENAI_API_KEY")). }
    destruct (bool_decide (Py.lower (default EmptyString provider) = "openrouter")).
    { unfold_py. simpl.
      by destruct (opt_truthy (environ w !! "OPENROUTER_API_KEY")). }
    done.
  - rewrite get_model_auto by done.
    unfold AgnoConfig.get_model, has_key. rewrite Hp.
    unfold result, run. unfold_py. simpl.
    destruct (opt_truthy (environ w !! "ANTHROPIC_API_KEY")); [done|].
    destruct (opt_truthy (environ w !! "OPENAI_API_KEY")); [done|].
    by destruct (opt_truthy (environ w !! "OPENROUTER_API_KEY")).
Qed.

(** ** The registry of [build_graph] *)

Lemma by_name_snoc (ts : list Tool) (t : Tool) :
  Graph.by_name (ts ++ [t]) = <[tool_name t := t]> (Graph.by_name ts).
Proof. unfold Graph.by_name. by rewrite foldl_app. Qed.

(** X15. The registry [{t.name: t for t in tools}] resolves a name to
    the last tool of the list that bears it, and to nothing when no
    tool bears it; so when the names are distinct every tool is found
    under its own name. *)
Theorem X15_registry_lookup :
  ∀ (ts : list Tool),
    (∀ n, Graph.by_name ts !! n = last (filter (λ t, tool_name t = n) ts))
    ∧ (NoDup (tool_name <$> ts) →
       ∀ t, t ∈ ts → Graph.by_name ts !! tool_name t = Some t).
Proof.
  intros ts. split.
  - intros n. induction ts as [|t ts IH] using rev_ind; [done|].
    rewrite by_name_snoc, filter_app.
    destruct (decide (tool_name t = n)) as [Heq|Hne].
    + rewrite filter_cons_True by done. rewrite filter_nil, last_snoc.
      subst n. apply lookup_insert_eq.
    + rewrite filter_cons_False by done. rewrite filter_nil, app_nil_r.
      by rewrite lookup_insert_ne.
  - induction ts as [|t' ts IH] using rev_ind; intros Hnd t Hin.
    { by apply elem_of_nil in Hin. }
    rewrite fmap_app in Hnd. apply NoDup_app in Hnd as (Hnd & Hfresh & _).
    rewrite by_name_snoc.
    apply elem_of_app in Hin as [Hin | Hin].
    + rewrite lookup_insert_ne; [by apply IH|].
      intros Heq. apply (Hfresh (tool_name t)).
      * apply list_elem_of_fmap. eauto.
      * rewrite <- Heq. simpl. apply list_elem_of_here.
    + apply list_elem_of_singleton in Hin as ->. apply lookup_insert_eq.
Qed.

Lemma X15_witness :
  Graph.by_name (LangGraphTools.tools Sample.root None None) !! "find_file"
  = Some {| tool_name := "find_file";
            tool_body := Tool1 "filename"
                           (LangGraphTools.find_file Sample.root) |}.
Proof.
  destruct (X15_registry_lookup (LangGraphTools.tools Sample.root None None))
    as [_ Hfound].
  apply (Hfound
           ltac:(simpl; repeat (apply NoDup_cons; split;
                   [rewrite ?elem_of_cons, ?elem_of_nil;
                    intuition discriminate|]);
                 apply NoDup_nil_2)
           {| tool_name := "find_file";
              tool_body := Tool1 "filename"
                             (LangGraphTools.find_file Sample.root) |}).
  unfold LangGraphTools.tools. rewrite !elem_of_cons. auto 10.
Defined.

Lemma registry_names real provider model_id (n : string) :
  (is_Some (Graph.by_name (LangGraphTools.tools real provider model_id) !! n)
   ↔ n ∈ TOOL_NAMES)
  ∧ ∀ t, Graph.by_name (LangGraphTools.tools real provider model_id) !! n
         = Some t → tool_name t = n.
Proof.
  unfold Graph.by_name, LangGraphTools.tools, TOOL_NAMES. simpl.
  rewrite !lookup_insert, lookup_empty.
  rewrite !elem_of_cons, elem_of_nil.
  repeat case_decide; subst;
    (split; [split; [intros _; auto 10 | by eexists] | by intros t [= <-]])
    || (split; [split; [by intros [? ?] | intuition congruence] | done]).
Qed.

Lemma build_graph_cases w repo_path provider model_id tr :
  Graph.build_graph repo_path provider model_id w tr =
    (match fs_realpath w repo_path with
     | Raise e => Raise e
     | Return real =>
         match result w (Config.get_model provider model_id) with
         | Raise e => Raise e
         | Return m =>
             Return {| Graph.tools_by_name :=
                         Graph.by_name
                           (LangGraphTools.tools real provider model_id);
                       Graph.model := m;
                       Graph.bound_tools := TOOL_NAMES |}
         end
     end, tr ++ [OpRealpath repo_path]).
Proof.
  unfold Graph.build_graph, LangGraphTools.create_tools.
  unfold bind at 1 2. unfold os_path_realpath, request.
  destruct (fs_realpath w repo_path) as [real|e]; [|done].
  unfold ret at 1. unfold bind. rewrite get_model_pure.
  by destruct (result w (Config.get_model provider model_id)).
Qed.

(** X16. In a graph that [build_graph] returns, exactly the seven
    names of [create_tools] are registered, each for a tool of that
    name, and they are the names bound to the coordinator's model,
    which is the one [get_model] yields; any other name is unknown
    to the dispatch.  Building the graph asks the world only for the
    canonical form of the repository path: no model is called and no
    process is started. *)
Theorem X16_build_graph_registry :
  ∀ (w : World) (repo_path : string) (provider model_id : option string)
    (g : Graph.t),
    result w (Graph.build_graph repo_path provider model_id) = Return g →
    (∀ n, is_Some (Graph.tools_by_name g !! n) ↔ n ∈ TOOL_NAMES)
    ∧ (∀ n t, Graph.tools_by_name g !! n = Some t → tool_name t = n)
    ∧ Graph.bound_tools g = TOOL_NAMES
    ∧ result w (Config.get_model provider model_id) = Return (Graph.model g)
    ∧ trace w (Graph.build_graph repo_path provider model_id)
      = [OpRealpath repo_path].
Proof.
  intros w repo_path provider model_id g.
  unfold result at 1. unfold trace, run. rewrite build_graph_cases. simpl.
  destruct (fs_realpath w repo_path) as [real|e]; [|done].
  destruct (result w (Config.get_model provider model_id)) as [m|e]; [|done].
  intros [= <-]. simpl.
  split; [intros n; apply registry_names|].
  split; [intros n t; apply registry_names|]. done.
Qed.

Lemma X16_witness :
  (∀ n, is_Some (Graph.tools_by_name Sample.graph !! n) ↔ n ∈ TOOL_NAMES)
  ∧ Graph.bound_tools Sample.graph = TOOL_NAMES.
Proof.
  destruct (X16_build_graph_registry Sample.quiet "." None None Sample.graph)
    as (Hdom & _ & Hbound & _); [reflexivity|].
  split; [exact Hdom | exact Hbound].
Defined.

(** X17. A configuration error is fatal before the session starts:
    when [get_model] raises (no usable credential, unknown provider),
    [build_graph] raises the same exception, and so does [main],
    whatever would have been typed later; nothing has been asked of
    a model or of git.  A repository path that cannot be
    canonicalised fails the same way, before the credentials are
    looked at. *)
Theorem X17_configuration_error_is_fatal :
  ∀ (w : World) (repo : string) (provider model_id : option string)
    (source target : string) (inputs : list (option string)) (fuel : nat)
    (e : exception),
    (∀ real, fs_realpath w repo = Return real →
       result w (Config.get_model provider model_id) = Raise e →
       result w (Graph.build_graph repo provider model_id) = Raise e
       ∧ result w (Main.main repo provider model_id source target inputs fuel)
         = Raise e
       ∧ trace w (Main.main repo provider model_id source target inputs fuel)
         = [OpRealpath repo])
    ∧ (fs_realpath w repo = Raise e →
       result w (Graph.build_graph repo provider model_id) = Raise e
       ∧ result w (Main.main repo provider model_id source target inputs fuel)
         = Raise e).
Proof.
  intros w repo provider model_id source target inputs fuel e.
  split.
  - intros real Hr Hm.
    unfold Main.main, trace, run. unfold result at 1 2, run.
    unfold bind. rewrite !build_graph_cases, Hr, Hm. done.
  - intros Hr.
    unfold Main.main, result, run.
    unfold bind. rewrite !build_graph_cases, Hr. done.
Qed.

Lemma X17_witness :
  result Scenario.unconfigured
    (Main.main "." None None "feature/x" "main" [Some "again"] 5)
  = Raise (Exc ValueError Config.no_key_text).
Proof.
  destruct (X17_configuration_error_is_fatal Scenario.unconfigured "."
              None None "feature/x" "main" [Some "again"] 5
              (Exc ValueError Config.no_key_text)) as (H & _).
  destruct (H Sample.root) as (_ & Hmain & _); [reflexivity | reflexivity |].
  exact Hmain.
Defined.

(** ** The loop and the history *)

(** What a judge step does, by the coordinator's answer. *)
Lemma judge_step_cases g w state tr :
  Graph.step g Graph.judge state w tr =
    (match llm_invoke w (Graph.model g) (Graph.bound_tools g)
             (SystemMessage Prompts.JUDGE_SYSTEM_PROMPT :: state) with
     | Return (text, calls) =>
         Return (match calls with [] => Graph.END_ | _ :: _ => Graph.tools end,
                 state ++ [AIMessage text calls])
     | Raise e => Raise e
     end,
     tr ++ [OpModelInvoke (Graph.model g) (Graph.bound_tools g)
              (SystemMessage Prompts.JUDGE_SYSTEM_PROMPT :: state)]).
Proof.
  destruct (llm_invoke w (Graph.model g) (Graph.bound_tools g)
              (SystemMessage Prompts.JUDGE_SYSTEM_PROMPT :: state))
    as [[text calls]|e] eqn:Hm.
  - by apply judge_step.
  - unfold Graph.step, Graph.judge_node.
    unfold bind at 1 2. unfold model_invoke, request. by rewrite Hm.
Qed.

(** A dispatch that returns has answered every request. *)
Lemma for_each_answers g calls w tr outs tr' :
  for_each (Graph.run_tool_call g) calls w tr = (Return outs, tr') →
  Forall2 answers calls outs.
Proof.
  revert tr outs. induction calls as [|call calls IH]; intros tr outs; simpl.
  - unfold ret. intros [= <-]. constructor.
  - unfold bind at 1.
    destruct (Graph.run_tool_call g call w tr) as [[out|e] tr1] eqn:Ho; [|done].
    unfold bind at 1.
    destruct (for_each (Graph.run_tool_call g) calls w tr1)
      as [[outs'|e] tr2] eqn:Hrest; [|done].
    unfold ret. intros [= <- <-].
    constructor; [|by eapply IH].
    destruct (tc_id call) as [id|] eqn:Hid.
    + destruct (run_tool_call_returns g call w tr) as (out' & tr1' & Ho' & Ha);
        [by eexists|].
      rewrite Ho in Ho'. by injection Ho' as <- <-.
    + destruct (run_tool_call_without_id g call w tr Hid) as (? & ? & Hr).
      rewrite Hr in Ho. done.
Qed.

(** A tools step that returns has run on a coordinator message. *)
Lemma tools_step_inv g state w tr next state' tr' :
  Graph.step g Graph.tools state w tr = (Return (next, state'), tr') →
  ∃ content calls outs,
    last state = Some (AIMessage content calls)
    ∧ next = Graph.judge ∧ state' = state ++ outs
    ∧ Forall2 answers calls outs.
Proof.
  intros Hstep.
  destruct (last state) as [[c|c|c calls|c n i]|] eqn:Hl;
    try (revert Hstep; unfold Graph.step, Graph.tool_node, Graph.last_message;
         rewrite Hl; unfold_py; simpl; discriminate).
  revert Hstep. unfold Graph.step. unfold bind at 1.
  rewrite (tool_node_for_each g state c calls w tr Hl).
  destruct (for_each (Graph.run_tool_call g) calls w tr)
    as [[outs|e] tr1] eqn:Hfor; [|done].
  unfold ret. intros [= <- <- <-].
  exists c, calls, outs. repeat split; try done.
  by eapply for_each_answers.
Qed.

Lemma answers_from_loop calls outs :
  Forall2 answers calls outs → Forall (λ m, from_loop m = true) outs.
Proof.
  induction 1 as [|call out calls outs (text & id & _ & ->) _ IH];
    by constructor.
Qed.

(** The shape of a run that ends, from either node. *)
Lemma drive_shape g w fuel :
  ∀ done node state tr final tr',
    node ≠ Graph.END_ →
    Graph.drive g fuel done node state w tr = (Return (Graph.END_, final), tr') →
    ∃ added text,
      final = state ++ added
      ∧ Forall (λ m, from_loop m = true) added
      ∧ last added = Some (AIMessage text []).
Proof.
  induction fuel as [|fuel IH]; intros done node state tr final tr' Hnode Hrun;
    destruct (decide (Graph.DEFAULT_RECURSION_LIMIT ≤ done)%nat) as [Hov|Hin];
    try (by rewrite drive_over in Hrun).
  { rewrite drive_pause in Hrun by lia. injection Hrun as -> _ _. done. }
  rewrite drive_step in Hrun by (done || lia).
  destruct node; [| |done].
  - (* judge *)
    rewrite judge_step_cases in Hrun.
    destruct (llm_invoke w _ _ _) as [[text calls]|e]; [|done].
    cbn [fst snd] in Hrun. destruct calls as [|call calls].
    + destruct (decide (Graph.DEFAULT_RECURSION_LIMIT ≤ S done)%nat);
        [by rewrite drive_over in Hrun|].
      rewrite drive_END in Hrun by lia. injection Hrun as <- <-.
      exists [AIMessage text []], text.
      split; [done|]. split; [by repeat constructor | done].
    + apply IH in Hrun as (added & text' & -> & Hall & Hlast); [|done].
      exists (AIMessage text (call :: calls) :: added), text'.
      split; [by rewrite <- app_assoc|]. split; [by constructor|].
      destruct added; [done|]. exact Hlast.
  - (* tools *)
    destruct (Graph.step g Graph.tools state w tr) as [[[next st1]|e] tr1]
      eqn:Hstep; [|done].
    apply tools_step_inv in Hstep as (c & calls & outs & _ & -> & -> & Hans).
    cbn [fst snd] in Hrun.
    apply IH in Hrun as (added & text' & -> & Hall & Hlast); [|done].
    exists (outs ++ added), text'.
    split; [by rewrite <- app_assoc|].
    split; [apply Forall_app; split; [by eapply answers_from_loop | done]|].
    rewrite last_app, Hlast. done.
Qed.

Lemma run_from_shape g w fuel node state tr final tr' :
  node ≠ Graph.END_ →
  Graph.run_from g fuel node state w tr = (Return (Some final), tr') →
  ∃ added text,
    final = state ++ added
    ∧ Forall (λ m, from_loop m = true) added
    ∧ last added = Some (AIMessage text []).
Proof.
  intros Hnode. rewrite run_from_drive.
  destruct (Graph.drive g fuel 0 node state w tr) as [[[[] st]|e] tr1] eqn:Hrun;
    try done.
  intros [= <- <-]. by eapply drive_shape.
Qed.

(** X18. A round that ends leaves the history it started from
    untouched and extends it: the final history is the old one, the
    user's message, and then only coordinator messages and
    observations, the last of which is a coordinator message that
    requests no action.  The system prompt is sent with every call of
    the coordinator but never stored. *)
Theorem X18_round_extends_history :
  ∀ (w : World) (g : Graph.t) (history : list Message) (user_text : string)
    (fuel : nat) (final : list Message),
    result w (Graph.round g history user_text fuel) = Return (Some final) →
    ∃ added text,
      final = history ++ HumanMessage user_text :: added
      ∧ Forall (λ m, from_loop m = true) added
      ∧ last final = Some (AIMessage text [])
      ∧ last added = Some (AIMessage text []).
Proof.
  intros w g history user_text fuel final. unfold result, run, Graph.round.
  destruct (Graph.run_from g fuel Graph.judge
              (Graph.add_messages history [HumanMessage user_text]) w [])
    as [[[st|]|e] tr'] eqn:Hrun; simpl; try done.
  intros [= ->].
  apply run_from_shape in Hrun as (added & text & -> & Hall & Hlast); [|done].
  exists added, text. unfold Graph.add_messages.
  rewrite <- app_assoc. simpl. repeat split; try done.
  rewrite last_app, last_cons, Hlast. done.
Qed.

Lemma X18_witness :
  ∃ added text,
    [HumanMessage "review"; AIMessage "APPROVE" []]
      = [] ++ HumanMessage "review" :: added
    ∧ last added = Some (AIMessage text []).
Proof.
  destruct (X18_round_extends_history Sample.quiet Sample.graph [] "review" 3
              [HumanMessage "review"; AIMessage "APPROVE" []])
    as (added & text & Hfinal & _ & _ & Hlast); [reflexivity|].
  exists added, text. split; [exact Hfinal | exact Hlast].
Defined.



(** ** Dispatch of [read_file] *)

Lemma registry_read_file root provider model_id :
  Graph.by_name (LangGraphTools.tools root provider model_id) !! "read_file"
  = Some {| tool_name := "read_file";
            tool_body := Tool1 "file_path" (LangGraphTools.read_file root) |}.
Proof.
  unfold Graph.by_name, LangGraphTools.tools. simpl.
  rewrite !lookup_insert_ne by done. apply lookup_insert_eq.
Qed.

Lemma lg_read_file_returns w root p :
  ∃ text, result w (LangGraphTools.read_file root p) = Return text.
Proof.
  unfold result, run. rewrite lg_read_file_cases.
  destruct (fs_realpath w _) as [q|?]; [|by eexists].
  destruct (outside_repository root q); [by eexists|].
  destruct (fs_isfile w q); simpl; [|by eexists].
  destruct (fs_getsize w q) as [size|?]; [|by eexists].
  destruct (size >? MAX_FILE_SIZE); [by eexists|].
  destruct (fs_read_text w q); by eexists.
Qed.

(** X20. A [read_file] request dispatched by [tool_node] is answered
    by one observation with the request's id.  When the arguments are
    not themselves a whole tool call, its text is what [read_file]
    returns for the string given as [file_path] (other arguments are
    ignored), rejections included; when [file_path] is missing or is
    not a string, it is the validation error behind the marker
    "Error executing tool 'read_file': " and the filesystem is not
    touched.  When the arguments are a whole tool call (their "type"
    is "tool_call"), langchain unwraps them: [read_file] runs on the
    [file_path] of the arguments inside, making the same requests, and
    the text of the observation is what it returned if the inner id
    is [None], and otherwise the text of the message langchain wraps
    around it (or the marker and the error of that wrapping). *)
Theorem X20_read_file_through_dispatch :
  ∀ (w : World) (root : string) (provider model_id : option string)
    (m : ChatModel) (bound : list string) (args : gmap string json)
    (id : string),
    let g := {| Graph.tools_by_name :=
                  Graph.by_name (LangGraphTools.tools root provider model_id);
                Graph.model := m;
                Graph.bound_tools := bound |} in
    let call := {| tc_name := "read_file"; tc_args := args; tc_id := Some id |} in
    (is_tool_call args = false →
     (∀ p, args !! "file_path" = Some (JStr p) →
        ∃ text, result w (LangGraphTools.read_file root p) = Return text
                ∧ result w (Graph.run_tool_call g call)
                  = Return (ToolMessage text "read_file" id)
                ∧ trace w (Graph.run_tool_call g call)
                  = trace w (LangGraphTools.read_file root p))
     ∧ ((∀ p, args !! "file_path" ≠ Some (JStr p)) →
        result w (Graph.run_tool_call g call)
          = Return (ToolMessage
                      ("Error executing tool 'read_file': " +:+
                       validation_text w "read_file" (JObj args))
                      "read_file" id)
        ∧ trace w (Graph.run_tool_call g call) = []))
    ∧ (∀ inner_id inner p,
         is_tool_call args = true →
         args !! "id" = Some inner_id →
         args !! "args" = Some (JObj inner) →
         inner !! "file_path" = Some (JStr p) →
         ∃ content,
           result w (LangGraphTools.read_file root p) = Return content
           ∧ trace w (Graph.run_tool_call g call)
             = trace w (LangGraphTools.read_file root p)
           ∧ result w (Graph.run_tool_call g call)
             = Return (ToolMessage
                         match inner_id with
                         | JNull => content
                         | _ =>
                             match tool_message_text w "read_file" inner_id
                                     content with
                             | Return text => text
                             | Raise e =>
                                 "Error executing tool 'read_file': " +:+
                                 exc_str e
                             end
                         end "read_file" id)).
Proof.
  intros w root provider model_id m bound args id g call.
  set (tool := {| tool_name := "read_file";
                  tool_body := Tool1 "file_path"
                                 (LangGraphTools.read_file root) |}).
  pose proof (registry_read_file root provider model_id) as Hreg.
  split; [intros Hplain; split|].
  - intros p Hp.
    destruct (lg_read_file_returns w root p) as (text & Hres).
    exists text. split; [done|].
    assert (invoke tool (tc_args call) w []
            = (Return text, trace w (LangGraphTools.read_file root p)))
      as Hrun.
    { rewrite invoke_plain by done.
      unfold run_tool, str_arg, str_field. simpl. rewrite Hp.
      by rewrite lg_read_file_frame, Hres. }
    unfold result at 1. unfold trace at 1. unfold run.
    by rewrite (run_tool_call_return g call id _ w [] text _ eq_refl Hreg Hrun).
  - intros Hno.
    assert (invoke tool (tc_args call) w []
            = (Raise (Exc ValidationError
                        (validation_text w "read_file" (JObj args))), []))
      as Hinv.
    { rewrite invoke_plain by done.
      apply (run_tool_validation tool). left.
      exists "file_path", (LangGraphTools.read_file root). split; [done|].
      unfold str_arg, str_field.
      destruct (args !! "file_path") as [[| | |p| |]|] eqn:Ha; try done.
      by destruct (Hno p). }
    unfold result, trace, run.
    by rewrite (run_tool_call_raise g call id _ w [] _ _ eq_refl Hreg Hinv).
  - intros inner_id inner p Hcall Hid Hargs Hp.
    destruct (lg_read_file_returns w root p) as (content & Hres).
    exists content. split; [done|].
    pose proof (invoke_tool_call tool args inner_id inner w [] Hcall Hid Hargs)
      as Hinv.
    assert (run_tool tool (JObj inner) w []
            = (Return content, trace w (LangGraphTools.read_file root p)))
      as Hrun.
    { unfold run_tool, str_arg, str_field. simpl. rewrite Hp.
      by rewrite lg_read_file_frame, Hres. }
    rewrite Hrun in Hinv. unfold result, trace, run.
    destruct inner_id as [|b|n|s|l|d].
    + by rewrite (run_tool_call_return g call id _ w [] _ _ eq_refl Hreg Hinv).
    + simpl in Hinv.
      destruct (tool_message_text w "read_file" (JBool b) content) as [t|e].
      * by rewrite (run_tool_call_return g call id _ w [] _ _ eq_refl Hreg Hinv).
      * by rewrite (run_tool_call_raise g call id _ w [] _ _ eq_refl Hreg Hinv).
    + simpl in Hinv.
      destruct (tool_message_text w "read_file" (JNum n) content) as [t|e].
      * by rewrite (run_tool_call_return g call id _ w [] _ _ eq_refl Hreg Hinv).
      * by rewrite (run_tool_call_raise g call id _ w [] _ _ eq_refl Hreg Hinv).
    + simpl in Hinv.
      destruct (tool_message_text w "read_file" (JStr s) content) as [t|e].
      * by rewrite (run_tool_call_return g call id _ w [] _ _ eq_refl Hreg Hinv).
      * by rewrite (run_tool_call_raise g call id _ w [] _ _ eq_refl Hreg Hinv).
    + simpl in Hinv.
      destruct (tool_message_text w "read_file" (JArr l) content) as [t|e].
      * by rewrite (run_tool_call_return g call id _ w [] _ _ eq_refl Hreg Hinv).
      * by rewrite (run_tool_call_raise g call id _ w [] _ _ eq_refl Hreg Hinv).
    + simpl in Hinv.
      destruct (tool_message_text w "read_file" (JObj d) content) as [t|e].
      * by rewrite (run_tool_call_return g call id _ w [] _ _ eq_refl Hreg Hinv).
      * by rewrite (run_tool_call_raise g call id _ w [] _ _ eq_refl Hreg Hinv).
Qed.

Lemma X20_witness :
  result Sample.quiet
    (Graph.run_tool_call Sample.graph
       {| tc_name := "read_file";
          tc_args := {[ "file_path" := JStr "../etc/passwd" ]};
          tc_id := Some "call_4" |})
  = Return (ToolMessage "Error: path '../etc/passwd' is outside the repository."
              "read_file" "call_4")
  ∧ result Sample.quiet
      (Graph.run_tool_call Sample.graph
         {| tc_name := "read_file";
            tc_args := {[ "file_path" := JNum 7 ]};
            tc_id := Some "call_5" |})
    = Return (ToolMessage
                ("Error executing tool 'read_file': " +:+
                 "1 validation error for read_file")
                "read_file" "call_5")
  ∧ trace Sample.quiet
      (Graph.run_tool_call Sample.graph
         {| tc_name := "read_file";
            tc_args := {[ "type" := JStr "tool_call"; "id" := JStr "inner";
                          "args" := JObj {[ "file_path" := JStr "README.md" ]} ]};
            tc_id := Some "call_6" |})
    = [OpRealpath "/repo/README.md"; OpIsFile "/repo/README.md";
       OpGetSize "/repo/README.md"; OpOpenRead "/repo/README.md"].
Proof.
  split; [|split].
  - destruct (X20_read_file_through_dispatch Sample.quiet Sample.root None None
                (Config.anthropic_model None) TOOL_NAMES
                {[ "file_path" := JStr "../etc/passwd" ]} "call_4")
      as (Hplain & _).
    destruct (Hplain eq_refl) as (Hstr & _).
    destruct (Hstr "../etc/passwd") as (text & Htext & Hobs & _);
      [reflexivity|].
    injection Htext as <-. exact Hobs.
  - destruct (X20_read_file_through_dispatch Sample.quiet Sample.root None None
                (Config.anthropic_model None) TOOL_NAMES
                {[ "file_path" := JNum 7 ]} "call_5")
      as (Hplain & _).
    destruct (Hplain eq_refl) as (_ & Hbad).
    apply Hbad. intros p. rewrite lookup_singleton_eq. discriminate.
  - destruct (X20_read_file_through_dispatch Sample.quiet Sample.root None None
                (Config.anthropic_model None) TOOL_NAMES
                {[ "type" := JStr "tool_call"; "id" := JStr "inner";
                   "args" := JObj {[ "file_path" := JStr "README.md" ]} ]}
                "call_6")
      as (_ & Hwhole).
    destruct (Hwhole (JStr "inner") {[ "file_path" := JStr "README.md" ]}
                "README.md") as (content & _ & Htrace & _);
      [reflexivity | reflexivity | reflexivity | reflexivity |].
    exact Htrace.
Defined.


(** ** The interactive session *)

(** X21. In the follow-up loop a quit word ("q", "quit", "exit",
    "done" in any case, or nothing but white space), a failed
    [input] and the end of the input are the same thing: the session
    ends where it stands, and whatever would have been typed after is
    never read and starts no round. *)
Theorem X21_quit_word_is_end_of_input :
  ∀ (w : World) (g : Graph.t) (fuel : nat)
    (before after : list (option string)) (history : list Message) (n : Z)
    (tr : list Op),
    (∀ line, Py.lower (Py.strip line) ∈ Main.quit_words →
       Main.follow_ups g fuel (before ++ Some line :: after) history n w tr
       = Main.follow_ups g fuel before history n w tr)
    ∧ Main.follow_ups g fuel (before ++ None :: after) history n w tr
      = Main.follow_ups g fuel before history n w tr.
Proof.
  intros w g fuel before after.
  induction before as [|[l|] before IH]; intros history n tr.
  - split; [|done]. intros line Hq. simpl.
    by rewrite bool_decide_eq_true_2.
  - split.
    + intros line Hq. simpl. case_bool_decide; [done|].
      unfold bind.
      destruct (Main.stream_response g history [HumanMessage (Py.strip l)]
                  fuel w tr) as [[[h'|]|e] tr1]; [|done|done].
      by apply IH.
    + simpl. case_bool_decide; [done|].
      unfold bind.
      destruct (Main.stream_response g history [HumanMessage (Py.strip l)]
                  fuel w tr) as [[[h'|]|e] tr1]; [|done|done].
      apply IH.
  - split; [|done]. by intros line Hq.
Qed.

Lemma X21_witness :
  result Sample.quiet
    (Main.follow_ups Sample.graph 3
       [Some "look at the tests"; Some "  Quit  "; Some "one more thing"]
       [] 2)
  = result Sample.quiet
      (Main.follow_ups Sample.graph 3 [Some "look at the tests"] [] 2).
Proof.
  unfold result, run.
  destruct (X21_quit_word_is_end_of_input Sample.quiet Sample.graph 3
              [Some "look at the tests"] [Some "one more thing"] [] 2 [])
    as [Hquit _].
  rewrite <- (Hquit "  Quit  "); [reflexivity|].
  apply list_elem_of_In. vm_compute. auto.
Defined.

(** The history after a round that ends. *)
Lemma stream_response_shape g w history user_text fuel tr final tr' :
  Main.stream_response g history [HumanMessage user_text] fuel w tr
    = (Return (Some final), tr') →
  ∃ added, final = history ++ HumanMessage user_text :: added
           ∧ Forall (λ m, from_loop m = true) added.
Proof.
  unfold Main.stream_response. intros Hrun.
  apply run_from_shape in Hrun as (added & text & -> & Hall & _); [|done].
  exists added. unfold Graph.add_messages. by rewrite <- app_assoc.
Qed.

Lemma session_message_mono inputs line m :
  session_message inputs m → session_message (line :: inputs) m.
Proof.
  intros [H | (l & Hin & Hm & Hq)]; [by left|].
  right. exists l. split; [by apply list_elem_of_further | done].
Qed.

Lemma follow_ups_shape :
  ∀ (w : World) (g : Graph.t) (fuel : nat) (inputs : list (option string))
    (history final : list Message) (n n' : Z) (tr tr' : list Op),
    Main.follow_ups g fuel inputs history n w tr
      = (Return (Some (final, n')), tr') →
    ∃ added,
      final = history ++ added
      ∧ Forall (session_message inputs) added
      ∧ n' - n = Z.of_nat (length (List.filter (λ m, negb (from_loop m)) added))
      ∧ n ≤ n' ≤ n + Z.of_nat (length inputs).
Proof.
  intros w g fuel inputs.
  induction inputs as [|[line|] inputs IH];
    intros history final n n' tr tr'; simpl.
  - unfold ret. intros [= <- <- <-]. exists [].
    rewrite app_nil_r. simpl. repeat split; (done || lia).
  - case_bool_decide as Hq.
    { unfold ret. intros [= <- <- <-]. exists [].
      rewrite app_nil_r. simpl. repeat split; (done || lia). }
    unfold bind.
    destruct (Main.stream_response g history [HumanMessage (Py.strip line)]
                fuel w tr) as [[[h'|]|e] tr1] eqn:Hround; [|done|done].
    apply stream_response_shape in Hround as (added & -> & Hloop).
    intros Hrest.
    apply IH in Hrest as (added' & -> & Hall & Hcount & Hle).
    exists (HumanMessage (Py.strip line) :: added ++ added').
    split; [by rewrite <- !app_assoc|]. split; [|split].
    + constructor.
      * right. exists line. split; [apply list_elem_of_here | done].
      * apply Forall_app. split.
        -- eapply Forall_impl; [exact Hloop|]. intros m Hm. by left.
        -- eapply Forall_impl; [exact Hall|]. intros m.
           apply session_message_mono.
    + simpl. rewrite List.filter_app, length_app.
      assert (List.filter (λ m, negb (from_loop m)) added = []) as ->.
      { clear -Hloop. induction Hloop as [|m l Hm _ IHl]; [done|].
        simpl. by rewrite Hm. }
      simpl. lia.
    + lia.
  - unfold ret. intros [= <- <- <-]. exists [].
    rewrite app_nil_r. simpl. repeat split; (done || lia).
Qed.

(** X22. Across the follow-up rounds of a session the history only
    grows: when the loop ends, the history is the one it started
    with followed by, for each round run, the user's line stripped of
    surrounding white space (never a quit word) and then the
    coordinator messages and observations of that round.  The round
    number has advanced by exactly the number of rounds run, at most
    one per line typed.  For [main] as a whole the history starts
    with the request built from the two branch names, and the
    follow-up rounds are numbered from 2. *)
Theorem X22_session_history_grows :
  ∀ (w : World) (g : Graph.t) (fuel : nat) (inputs : list (option string)),
    (∀ (history final : list Message) (n n' : Z),
       result w (Main.follow_ups g fuel inputs history n)
         = Return (Some (final, n')) →
       ∃ added,
         final = history ++ added
         ∧ Forall (session_message inputs) added
         ∧ n' - n
           = Z.of_nat (length (List.filter (λ m, negb (from_loop m)) added))
         ∧ n ≤ n' ≤ n + Z.of_nat (length inputs))
    ∧ (∀ repo provider model_id source target final n,
         result w (Main.main repo provider model_id source target inputs fuel)
           = Return (Some (final, n)) →
         ∃ added,
           final = HumanMessage (Main.prompt source target) :: added
           ∧ Forall (session_message inputs) added
           ∧ 2 ≤ n ≤ 2 + Z.of_nat (length inputs)).
Proof.
  intros w g fuel inputs. split.
  - intros history final n n'. unfold result, run.
    destruct (Main.follow_ups g fuel inputs history n w [])
      as [[[[final' k]|]|e] tr'] eqn:Hrun; simpl; try done.
    intros [= <- <-]. by eapply follow_ups_shape.
  - intros repo provider model_id source target final n.
    unfold result, run, Main.main. unfold bind at 1.
    destruct (Graph.build_graph repo provider model_id w [])
      as [[g'|e] tr0]; [|done].
    unfold bind.
    destruct (Main.stream_response g' []
                [HumanMessage (Main.prompt source target)] fuel w tr0)
      as [[[h|]|e] tr1] eqn:Hfirst; [|done|done].
    apply stream_response_shape in Hfirst as (added & -> & Hloop).
    destruct (Main.follow_ups g' fuel inputs _ 2 w tr1)
      as [[[[final' n']|]|e] tr2] eqn:Hrest; simpl; try done.
    intros [= <- <-].
    apply follow_ups_shape in Hrest as (added' & -> & Hall & _ & Hle).
    exists (added ++ added'). split; [done|]. split; [|done].
    apply Forall_app. split; [|done].
    eapply Forall_impl; [exact Hloop|]. intros m Hm. by left.
Qed.

Lemma X22_witness :
  ∃ added,
    [HumanMessage "look at the tests"; AIMessage "APPROVE" []] = [] ++ added
    ∧ 3 - 2 = Z.of_nat (length (List.filter (λ m, negb (from_loop m)) added)).
Proof.
  destruct (X22_session_history_grows Sample.quiet Sample.graph 3
              [Some " look at the tests "; Some "q"]) as [Hloop _].
  destruct (Hloop [] [HumanMessage "look at the tests"; AIMessage "APPROVE" []]
              2 3)
    as (added & Hfinal & _ & Hcount & _); [reflexivity|].
  exists added. split; [exact Hfinal | exact Hcount].
Defined.

(** ** [find_file] asked for a path *)

Lemma found_below_not_entry (name : string) :
  entry_name name = false →
  ∀ (t : DirTree) (dirs : list string),
    entry_names t = true → found_below name dirs t = [].
Proof.
  intros Hname. fix IH 1. intros [filenames subdirs] dirs Hwf.
  simpl in Hwf. apply andb_true_iff in Hwf as [Hfiles Hsubs].
  simpl.
  rewrite bool_decide_eq_false_2.
  2:{ intros Hin. rewrite forallb_forall in Hfiles.
      apply list_elem_of_In, Hfiles in Hin. congruence. }
  simpl.
  induction subdirs as [|[d sub] l IHl]; [done|].
  apply andb_true_iff in Hsubs as [Hd Hl].
  apply andb_true_iff in Hd as [Hd Hsub].
  rewrite (IHl Hl), app_nil_r.
  destruct (LangGraphTools.kept d); [|done].
  destruct sub as [t'|]; [by apply IH | done].
Qed.

(** X23. [find_file] looks for a file name, not for a path: asked for
    a text that no directory entry can bear (it is empty or contains
    a separator, such as [docs/index.md]), it answers that no file
    of that name was found, even when that path exists. *)
Theorem X23_find_file_wants_a_bare_name :
  ∀ (w : World) (root name : string) (tree : DirTree),
    fs_tree w root = Return (Some tree) →
    entry_names tree = true →
    entry_name name = false →
    result w (LangGraphTools.find_file root name)
      = Return ("No files named '" +:+ name +:+ "' found in the repository.")
    ∧ result w (FileTools.find_file {| FileTools.repo_path := root |} name)
      = Return ("No files named '" +:+ name +:+ "' found in the repository.").
Proof.
  intros w root name tree Ht Hwf Hname.
  unfold result, run.
  rewrite find_file_agno_lg, !lg_find_file_cases, Ht. simpl.
  rewrite (walk_finds root name tree [] root Hwf)
    by (by rewrite app_nil_r).
  by rewrite (found_below_not_entry name Hname tree [] Hwf).
Qed.

Lemma X23_witness :
  result Sample.quiet (LangGraphTools.find_file Sample.root "docs/index.md")
  = Return "No files named 'docs/index.md' found in the repository.".
Proof.
  apply (X23_find_file_wants_a_bare_name Sample.quiet Sample.root
           "docs/index.md" Sample.tree); reflexivity.
Defined.
